(** * sat-uy: element store, acquisition pipeline and orbit query engine

    A shallow embedding of the Python backend (tle_store.py and the
    services built on it) together with the properties of its cache,
    refresh and pass-reduction logic.

    Conventions of the embedding.
    - Text is a [string] over an alphabet of 256 symbols: the code points
      U+0000 to U+00FE, and the byte-order mark U+FEFF, which
      [_read_tle_file] strips, as the symbol 255.  Other code points are
      outside the model.
    - Instants and durations are integers counting microseconds, the
      resolution of [datetime] and [timedelta].
    - Floating-point quantities (angles, Skyfield times) are exact
      rationals; [round(x, n)] is rounding to the nearest multiple of
      [10^-n], ties to even.
    - The interpreter's limit on the length of decimal literals accepted by
      [int()] is not modelled.
    - A file operation fails only for a missing file; text that cannot be
      encoded or decoded and errors of the operating system are outside
      the model.
    - External collaborators (HTTP transport, JSON codec, ISO-8601 codec,
      system clock, orbit propagator) are the fields of [externals]; every
      property holds for all of them. *)

From stdpp Require Import gmap strings list numbers.
From Stdlib Require Import ZArith QArith Ascii String Lia.
From Stdlib Require Import Numbers.DecimalString.
From Equations Require Import Equations.

Set Warnings "-register-all".

Local Open Scope string_scope.
Local Open Scope Z_scope.

(** ** Python string primitives *)

Module PyStr.

Definition code (c : ascii) : nat := nat_of_ascii c.

Definition in_range (lo hi : nat) (c : ascii) : bool :=
  (lo <=? code c)%nat && (code c <=? hi)%nat.

(** [str.isspace] on one code point: TAB..CR, FS..US, SPACE, NEL, NBSP. *)
Definition isspace (c : ascii) : bool :=
  in_range 9 13 c || in_range 28 31 c || in_range 32 32 c
  || in_range 133 133 c || in_range 160 160 c.

(** Line boundaries of [str.splitlines]: LF, VT, FF, CR, FS, GS, RS, NEL. *)
Definition is_linebreak (c : ascii) : bool :=
  in_range 10 13 c || in_range 28 30 c || in_range 133 133 c.

Definition is_ascii_digit (c : ascii) : bool := in_range 48 57 c.

(** [str.isdigit]: the decimal digits and the superscripts two, three, one. *)
Definition isdigit (c : ascii) : bool :=
  is_ascii_digit c || in_range 178 179 c || in_range 185 185 c.

Definition is_empty (s : string) : bool :=
  match s with EmptyString => true | String _ _ => false end.

Definition snoc (s : string) (c : ascii) : string := s ++ String c EmptyString.

Fixpoint lstrip (s : string) : string :=
  match s with
  | EmptyString => EmptyString
  | String c r => if isspace c then lstrip r else s
  end.

Fixpoint rstrip (s : string) : string :=
  match s with
  | EmptyString => EmptyString
  | String c r =>
      let r' := rstrip r in
      if isspace c && is_empty r' then EmptyString else String c r'
  end.

Definition strip (s : string) : string := lstrip (rstrip s).

Definition startswith (s p : string) : bool := String.prefix p s.

(** The byte-order mark U+FEFF, and [s.lstrip("\ufeff")]. *)
Definition bom : ascii := ascii_of_nat 255.

Fixpoint lstrip_bom (s : string) : string :=
  match s with
  | EmptyString => EmptyString
  | String c r => if Ascii.eqb c bom then lstrip_bom r else s
  end.

(** [str.splitlines()]: CR LF is one boundary, no empty last line. *)
Fixpoint splitlines_from (cur s : string) : list string :=
  match s with
  | EmptyString => if is_empty cur then [] else [cur]
  | String c r =>
      if is_linebreak c then
        cur :: splitlines_from EmptyString
                 (if Ascii.eqb c "013" then
                    match r with
                    | String d r2 => if Ascii.eqb d "010" then r2 else r
                    | EmptyString => r
                    end
                  else r)
      else splitlines_from (snoc cur c) r
  end.

Definition splitlines (s : string) : list string := splitlines_from EmptyString s.

(** [str.split()] without arguments: maximal runs of non-space. *)
Fixpoint split_from (cur s : string) : list string :=
  match s with
  | EmptyString => if is_empty cur then [] else [cur]
  | String c r =>
      if isspace c then
        (if is_empty cur then split_from EmptyString r
         else cur :: split_from EmptyString r)
      else split_from (snoc cur c) r
  end.

Definition split (s : string) : list string := split_from EmptyString s.

Fixpoint filter_chars (p : ascii -> bool) (s : string) : string :=
  match s with
  | EmptyString => EmptyString
  | String c r => if p c then String c (filter_chars p r) else filter_chars p r
  end.

Fixpoint all_chars (p : ascii -> bool) (s : string) : bool :=
  match s with
  | EmptyString => true
  | String c r => p c && all_chars p r
  end.

Definition digit_value (c : ascii) : Z := Z.of_nat (code c) - 48.

Fixpoint decimal_from (acc : Z) (s : string) : Z :=
  match s with
  | EmptyString => acc
  | String c r => decimal_from (10 * acc + digit_value c) r
  end.

(** [int(s)] for a string without sign, space or underscore: [None] is
    [ValueError] (empty, or a character that is not a decimal digit). *)
Definition int_of_digits (s : string) : option Z :=
  if is_empty s then None
  else if all_chars is_ascii_digit s then Some (decimal_from 0 s)
  else None.

(** Digit groups separated by single underscores, as [int()] accepts. *)
Fixpoint strip_underscores (prev_digit : bool) (s : string) : option string :=
  match s with
  | EmptyString => if prev_digit then Some EmptyString else None
  | String c r =>
      if is_ascii_digit c then
        match strip_underscores true r with
        | Some d => Some (String c d)
        | None => None
        end
      else if Ascii.eqb c "_" && prev_digit then strip_underscores false r
      else None
  end.

(** [int(s)] for a token without surrounding space: optional sign, then
    digit groups.  [None] is [ValueError]. *)
Definition int_of_token (s : string) : option Z :=
  let '(neg, body) :=
    match s with
    | String c r =>
        if Ascii.eqb c "-" then (true, r)
        else if Ascii.eqb c "+" then (false, r)
        else (false, s)
    | EmptyString => (false, s)
    end in
  match body with
  | EmptyString => None
  | String c _ =>
      if is_ascii_digit c then
        match strip_underscores true body with
        | Some d => Some (if neg then - decimal_from 0 d else decimal_from 0 d)
        | None => None
        end
      else None
  end.

(** [str(n)] for an integer. *)
Definition str_of_int (z : Z) : string := NilEmpty.string_of_int (Z.to_int z).

(** [str.replace] of one character by a string. *)
Fixpoint replace_char (c : ascii) (by_ : string) (s : string) : string :=
  match s with
  | EmptyString => EmptyString
  | String d r =>
      if Ascii.eqb d c then by_ ++ replace_char c by_ r
      else String d (replace_char c by_ r)
  end.

(** [str.upper]: a..z and the Latin-1 lower-case letters move to their
    capitals, sharp s becomes SS; the micro sign, whose capital lies
    outside the alphabet, is kept, and so is the byte-order mark. *)
Definition upper_char (c : ascii) : string :=
  if in_range 97 122 c || (in_range 224 254 c && negb (in_range 247 247 c))
  then String (ascii_of_nat (code c - 32)) EmptyString
  else if in_range 223 223 c then "SS"
  else String c EmptyString.

Fixpoint upper (s : string) : string :=
  match s with
  | EmptyString => EmptyString
  | String c r => upper_char c ++ upper r
  end.

Definition nonblank_stripped_lines (text : string) : list string :=
  List.filter (fun ln => negb (is_empty ln)) (List.map strip (splitlines text)).

End PyStr.

(** ** Python numbers *)

Module PyNum.

(** Nearest integer, ties to even. *)
Definition round_half_even (q : Q) : Z :=
  let n := Qnum q in
  let d := Z.pos (Qden q) in
  let f := n / d in
  match 2 * (n mod d) ?= d with
  | Lt => f
  | Gt => f + 1
  | Eq => if Z.even f then f else f + 1
  end.

(** [round(x, ndigits)]. *)
Definition round_ndigits (x : Q) (ndigits : nat) : Q :=
  let scale := inject_Z (10 ^ Z.of_nat ndigits) in
  Qred (inject_Z (round_half_even (x * scale)) / scale).

(** Microseconds in [timedelta(seconds=s)], [timedelta(minutes=m)],
    [timedelta(hours=h)]. *)
Definition seconds (s : Z) : Z := s * 1000000.
Definition minutes (m : Z) : Z := seconds (60 * m).
Definition hours (h : Z) : Z := minutes (60 * h).

(** [int(td.total_seconds())]: whole seconds, truncated toward zero. *)
Definition int_total_seconds (td : Z) : Z := Z.quot td 1000000.

End PyNum.

(** ** Decoded JSON documents, as [json.loads] and [Response.json] return them *)

Module Json.

Inductive value :=
| Null
| Bool (b : bool)
| Int (z : Z)
| Float (q : Q)
| Str (s : string)
| List (items : list value)
| Dict (entries : list (string * value)).

(** Python truth value. *)
Definition truthy (v : value) : bool :=
  match v with
  | Null => false
  | Bool b => b
  | Int z => negb (z =? 0)
  | Float q => negb (Qnum q =? 0)
  | Str s => negb (PyStr.is_empty s)
  | List items => match items with [] => false | _ => true end
  | Dict entries => match entries with [] => false | _ => true end
  end.

Fixpoint lookup_entry (k : string) (entries : list (string * value)) : option value :=
  match entries with
  | [] => None
  | (k', v) :: rest => if String.eqb k k' then Some v else lookup_entry k rest
  end.

(** [d.get(k)] on a dict: the value, or [None]. *)
Definition dict_get (entries : list (string * value)) (k : string) : value :=
  match lookup_entry k entries with
  | Some v => v
  | None => Null
  end.

(** [k in d] on a dict. *)
Definition dict_has (entries : list (string * value)) (k : string) : bool :=
  match lookup_entry k entries with
  | Some _ => true
  | None => false
  end.

End Json.

(** ** Exceptions, files, the world and its monad *)

Inductive value_error :=
| no_catnr_digits
| not_a_decimal
| too_few_lines
| bad_line_prefix
| catnr_mismatch (found : Z)
| unknown_satellite
| no_local_tle
| refresh_failed
| bad_isoformat
| end_not_after_start
| minutes_out_of_range
| step_out_of_range.

Inductive exn :=
| ValueError (why : value_error)
| IndexError
| KeyError
| TypeError
| AttributeError
| ZeroDivisionError
| FileNotFoundError
| TransportError
| HTTPStatusError (status : Z)
| JSONDecodeError.

Inductive result (A : Type) :=
| Ok (a : A)
| Raise (e : exn).
Arguments Ok {A} a.
Arguments Raise {A} e.

(** Files of the data directory: [tle_<catnr>.txt], [tle_<catnr>.meta.json]
    and [tle_<catnr>.tmp]. *)
Inductive suffix := txt | meta_json | tmp.

Inductive path := DataFile (catnr : Z) (ext : suffix).

#[global] Instance suffix_eq_dec : EqDecision suffix.
Proof. solve_decision. Defined.

#[global] Instance path_eq_dec : EqDecision path.
Proof. solve_decision. Defined.

Definition path_code (p : path) : Z * nat :=
  match p with
  | DataFile catnr txt => (catnr, 0%nat)
  | DataFile catnr meta_json => (catnr, 1%nat)
  | DataFile catnr tmp => (catnr, 2%nat)
  end.

Definition path_of_code (c : Z * nat) : path :=
  match c with
  | (catnr, 0%nat) => DataFile catnr txt
  | (catnr, 1%nat) => DataFile catnr meta_json
  | (catnr, _) => DataFile catnr tmp
  end.

#[global] Instance path_countable : Countable path.
Proof.
  apply (inj_countable' path_code path_of_code).
  intros [catnr []]; reflexivity.
Defined.

Record file := File { content : string; mtime : Z }.

(** [datetime]: wall-clock microseconds and the UTC offset of an aware value. *)
Record datetime := DateTime { wall : Z; utcoffset : option Z }.

Inductive http_reply :=
| NoReply
| Reply (status : Z) (text : string).

Record TLE := mkTLE { name : string; line1 : string; line2 : string }.

(** The process and its surroundings: the refresh ledger
    [_LAST_REFRESH_ATTEMPT], the data directory, how many times the clock has
    been read, the URLs requested so far, and the successive states of the
    data directory, one per primitive file operation, latest first: what a
    concurrent reader could have seen. *)
Record world := World {
  ledger : gmap Z Z;
  fs : gmap path file;
  ticks : nat;
  requests : list string;
  history : list (gmap path file)
}.

(** External collaborators. *)
Record externals := Externals {
  (** the k-th reading of the system clock *)
  clock : nat -> Z;
  (** the reply to the k-th request, by URL *)
  http_get : nat -> string -> http_reply;
  (** [json.loads]; [None] is [JSONDecodeError] *)
  json_loads : string -> option Json.value;
  (** [json.dumps(v, indent=2)] *)
  json_dumps : Json.value -> string;
  (** [datetime.fromisoformat]; [None] is [ValueError] *)
  fromisoformat : string -> option datetime;
  (** [isoformat()] of an aware UTC datetime *)
  isoformat : Z -> string;
  (** [str(v)] of a decoded value that is not a string *)
  repr : Json.value -> string;
  (** geodetic latitude and longitude, in degrees, under the satellite *)
  subpoint_degrees : TLE -> Q -> Q * Q;
  (** [find_events] over a window and an altitude threshold *)
  find_events : TLE -> Z -> Z -> Q -> list (Z * Z);
  (** topocentric altitude, in degrees, seen from the observer *)
  altitude_degrees : TLE -> Z -> Q
}.

Definition M (A : Type) : Type := world -> result A * world.

Definition ret {A} (a : A) : M A := fun w => (Ok a, w).

Definition raise {A} (e : exn) : M A := fun w => (Raise e, w).

Definition bind {A B} (m : M A) (k : A -> M B) : M B :=
  fun w => match m w with
           | (Ok a, w') => k a w'
           | (Raise e, w') => (Raise e, w')
           end.

(** [try: m  except Exception: h]. *)
Definition try_except {A} (m : M A) (h : M A) : M A :=
  fun w => match m w with
           | (Ok a, w') => (Ok a, w')
           | (Raise _, w') => h w'
           end.

Definition lift {A} (r : result A) : M A := fun w => (r, w).

Notation "'let!' x ':=' m 'in' k" := (bind m (fun x => k))
  (at level 10, x name, m at level 100, k at level 200).

(** ** tle_store.py *)

Module TleStore.

(** Primitive operations of the storage layer.  [Path.write_text] opens the
    file for writing, which creates or empties it, and then writes the
    text; [Path.replace] renames in one step. *)
Inductive fs_op :=
| Truncate (p : path)
| WriteAll (p : path) (s : string)
| Rename (src dst : path).

Definition apply_op (op : fs_op) (stamp : Z) (d : gmap path file) : option (gmap path file) :=
  match op with
  | Truncate p => Some (<[p := File EmptyString stamp]> d)
  | WriteAll p s => Some (<[p := File s stamp]> d)
  | Rename src dst =>
      match d !! src with
      | Some f => Some (<[dst := f]> (delete src d))
      | None => None
      end
  end.

Definition TLE_TTL : Z := PyNum.hours 6.

Definition _REFRESH_COOLDOWN : Z := PyNum.minutes 2.

Definition SATELLITES : list (string * Z) :=
  [ ("ISS", 25544); ("HST", 20580); ("NOAA-20", 43013);
    ("SENTINEL-2A", 40697); ("NOAA-15", 25338); ("NOAA-19", 33591);
    ("METEOR-M2", 40069); ("SENTINEL-1A", 39634); ("SUOMI-NPP", 37849) ].

Fixpoint satellites_get (k : string) (table : list (string * Z)) : option Z :=
  match table with
  | [] => None
  | (k', catnr) :: rest => if String.eqb k k' then Some catnr else satellites_get k rest
  end.

Definition _tle_path (catnr : Z) : path := DataFile catnr txt.

Definition _meta_path (catnr : Z) : path := DataFile catnr meta_json.

(** [path.with_suffix(".tmp")]. *)
Definition with_suffix_tmp (p : path) : path :=
  match p with DataFile catnr _ => DataFile catnr tmp end.

(** The instant of a parsed timestamp; a naive one is taken as UTC
    ([fetched.replace(tzinfo=timezone.utc)]). *)
Definition instant (dt : datetime) : Z :=
  match utcoffset dt with
  | Some off => wall dt - off
  | None => wall dt
  end.

(** [v[k]] for a string key. *)
Definition subscript (v : Json.value) (k : string) : result Json.value :=
  match v with
  | Json.Dict entries =>
      match Json.lookup_entry k entries with
      | Some x => Ok x
      | None => Raise KeyError
      end
  | _ => Raise TypeError
  end.

(** [v.get(k)]: only dicts have the method. *)
Definition method_get (v : Json.value) (k : string) : result Json.value :=
  match v with
  | Json.Dict entries => Ok (Json.dict_get entries k)
  | _ => Raise AttributeError
  end.

(** [data[0]]. *)
Definition subscript0 (v : Json.value) : result Json.value :=
  match v with
  | Json.List (x :: _) => Ok x
  | Json.List [] => Raise IndexError
  | Json.Str (String c _) => Ok (Json.Str (String c EmptyString))
  | Json.Str EmptyString => Raise IndexError
  | Json.Dict _ => Raise KeyError
  | _ => Raise TypeError
  end.

Definition is_dict (v : Json.value) : bool :=
  match v with Json.Dict _ => true | _ => false end.

Definition _parse_catnr_from_line1 (line1 : string) : result Z :=
  match PyStr.split line1 !! 1%nat with
  | None => Raise IndexError
  | Some token =>
      let digits := PyStr.filter_chars PyStr.isdigit token in
      if PyStr.is_empty digits then Raise (ValueError no_catnr_digits)
      else match PyStr.int_of_digits digits with
           | Some n => Ok n
           | None => Raise (ValueError not_a_decimal)
           end
  end.

(** [range(a, b)]. *)
Definition range (a b : nat) : list nat := seq a (b - a).

Fixpoint first_some {A B} (f : A -> option B) (l : list A) : option B :=
  match l with
  | [] => None
  | x :: rest => match f x with Some y => Some y | None => first_some f rest end
  end.

(** One round of the loop of [_parse_tle_text_any]: [None] is [continue].
    [extract] is the catalog-number reader inside the [try]. *)
Definition locate_at (extract : string -> result Z) (lines : list string)
    (catnr : Z) (i : nat) : option (string * string * string) :=
  match lines !! i with
  | None => None
  | Some line1 =>
      if negb (PyStr.startswith line1 "1 ") then None
      else match extract line1 with
           | Raise _ => None
           | Ok found =>
               if negb (found =? catnr) then None
               else match lines !! (i + 1)%nat with
                    | None => None
                    | Some line2 =>
                        if negb (PyStr.startswith line2 "2 ") then None
                        else
                          let name :=
                            if 0 <=? Z.of_nat i - 1
                            then default EmptyString (lines !! (i - 1)%nat)
                            else "CATNR " ++ PyStr.str_of_int catnr in
                          Some (name, line1, line2)
                    end
           end
  end.

Definition locate (extract : string -> result Z) (text : string) (catnr : Z)
    : option (string * string * string) :=
  let lines := PyStr.nonblank_stripped_lines text in
  first_some (locate_at extract lines catnr) (range 1 (List.length lines - 1)).

Definition _parse_tle_text_any (text : string) (catnr : Z)
    : option (string * string * string) :=
  locate _parse_catnr_from_line1 text catnr.

Definition is_success (status : Z) : bool := (200 <=? status) && (status <? 300).

Definition satnogs_url (catnr : Z) : string :=
  "https://db.satnogs.org/api/tle/?norad_cat_id=" ++ PyStr.str_of_int catnr.

Definition celestrak_urls (catnr : Z) : list string :=
  [ "https://celestrak.org/NORAD/elements/gp.php?CATNR="
      ++ PyStr.str_of_int catnr ++ "&FORMAT=TLE";
    "https://celestrak.com/NORAD/elements/gp.php?CATNR="
      ++ PyStr.str_of_int catnr ++ "&FORMAT=TLE" ].

Section WithExternals.

Variable E : externals.

Definition _now_utc : M Z :=
  fun w => (Ok (clock E (ticks w)),
            World (ledger w) (fs w) (S (ticks w)) (requests w) (history w)).

Definition path_exists (p : path) : M bool :=
  fun w => (Ok (bool_decide (is_Some (fs w !! p))), w).

Definition read_text (p : path) : M string :=
  fun w => match fs w !! p with
           | Some f => (Ok (content f), w)
           | None => (Raise FileNotFoundError, w)
           end.

Definition stat_mtime (p : path) : M Z :=
  fun w => match fs w !! p with
           | Some f => (Ok (mtime f), w)
           | None => (Raise FileNotFoundError, w)
           end.

(** One primitive operation, stamped with a reading of the clock. *)
Definition fs_step (op : fs_op) : M unit :=
  fun w => match apply_op op (clock E (ticks w)) (fs w) with
           | Some d => (Ok tt, World (ledger w) d (S (ticks w)) (requests w)
                                 (d :: history w))
           | None => (Raise FileNotFoundError, w)
           end.

Definition write_text (p : path) (s : string) : M unit :=
  let! _ := fs_step (Truncate p) in fs_step (WriteAll p s).

Definition replace (src dst : path) : M unit := fs_step (Rename src dst).

Definition ledger_get (catnr : Z) : M (option Z) :=
  fun w => (Ok (ledger w !! catnr), w).

Definition ledger_set (catnr now : Z) : M unit :=
  fun w => (Ok tt, World (<[catnr := now]> (ledger w)) (fs w) (ticks w)
                     (requests w) (history w)).

(** [httpx.get]: the URL is logged, the reply is the environment's. *)
Definition http_request (url : string) : M (Z * string) :=
  fun w =>
    let w' := World (ledger w) (fs w) (ticks w) (requests w ++ [url]) (history w) in
    match http_get E (List.length (requests w)) url with
    | NoReply => (Raise TransportError, w')
    | Reply status text => (Ok (status, text), w')
    end.

Definition py_str (v : Json.value) : string :=
  match v with
  | Json.Str s => s
  | _ => repr E v
  end.

Definition py_fromisoformat (v : Json.value) : result datetime :=
  match v with
  | Json.Str s =>
      match fromisoformat E s with
      | Some dt => Ok dt
      | None => Raise (ValueError bad_isoformat)
      end
  | _ => Raise TypeError
  end.

Definition _read_meta (catnr : Z) : M Json.value :=
  let p := _meta_path catnr in
  let! present := path_exists p in
  if negb present then ret Json.Null
  else
    try_except
      (let! text := read_text p in
       match json_loads E text with
       | Some v => ret v
       | None => raise JSONDecodeError
       end)
      (ret Json.Null).

Definition _write_meta (catnr : Z) (source : string) : M unit :=
  let p := _meta_path catnr in
  let! now := _now_utc in
  let meta := Json.Dict [ ("catnr", Json.Int catnr);
                          ("fetched_at_utc", Json.Str (isoformat E now));
                          ("source", Json.Str source) ] in
  write_text p (json_dumps E meta).

Definition _read_tle_file (p : path) (catnr : Z) : M TLE :=
  let! text := read_text p in
  match PyStr.nonblank_stripped_lines text with
  | name :: line1 :: line2 :: _ =>
      let line1 := PyStr.lstrip_bom line1 in
      if negb (PyStr.startswith line1 "1 ") || negb (PyStr.startswith line2 "2 ")
      then raise (ValueError bad_line_prefix)
      else
        let! found := lift (_parse_catnr_from_line1 line1) in
        if negb (found =? catnr) then raise (ValueError (catnr_mismatch found))
        else ret (mkTLE name line1 line2)
  | _ => raise (ValueError too_few_lines)
  end.

Definition nl : string := String "010" EmptyString.

Definition _atomic_write_tle (catnr : Z) (name line1 line2 : string) : M unit :=
  let path := _tle_path catnr in
  let tmp := with_suffix_tmp path in
  let! _ := write_text tmp (name ++ nl ++ line1 ++ nl ++ line2 ++ nl) in
  replace tmp path.

Definition _needs_refresh (catnr : Z) : M bool :=
  let! meta := _read_meta catnr in
  if negb (Json.truthy meta) then
    let p := _tle_path catnr in
    let! present := path_exists p in
    if negb present then ret true
    else
      let! mtime := stat_mtime p in
      let! now := _now_utc in
      ret (TLE_TTL <? now - mtime)
  else
    try_except
      (let! raw := lift (subscript meta "fetched_at_utc") in
       let! fetched := lift (py_fromisoformat raw) in
       let! now := _now_utc in
       ret (TLE_TTL <? now - instant fetched))
      (ret true).

(** The body of [_fetch_tle_from_satnogs] once [data = r.json()] is known;
    a raised exception is caught by the caller. *)
Definition satnogs_record (catnr : Z) (data : Json.value)
    : result (option (Json.value * string * string)) :=
  if negb (Json.truthy data) then Ok None
  else
    match subscript0 data with
    | Raise e => Raise e
    | Ok item =>
        match method_get item "satellite" with
        | Raise e => Raise e
        | Ok satellite =>
            match item with
            | Json.Dict entries =>
                let name :=
                  match satellite with
                  | Json.Dict sat_entries => Json.dict_get sat_entries "name"
                  | _ => Json.Null
                  end in
                let name :=
                  if Json.truthy name then name
                  else Json.Str ("CATNR " ++ PyStr.str_of_int catnr) in
                let lines :=
                  if Json.dict_has entries "tle1" && Json.dict_has entries "tle2"
                  then Some (Json.dict_get entries "tle1", Json.dict_get entries "tle2")
                  else if Json.dict_has entries "tle0" && Json.dict_has entries "tle1"
                  then Some (Json.dict_get entries "tle0", Json.dict_get entries "tle1")
                  else
                    match Json.lookup_entry "tle" entries with
                    | Some (Json.Str text) =>
                        match PyStr.nonblank_stripped_lines text with
                        | part0 :: part1 :: _ => Some (Json.Str part0, Json.Str part1)
                        | _ => None
                        end
                    | _ => None
                    end in
                match lines with
                | None => Ok None
                | Some (line1, line2) =>
                    if negb (PyStr.startswith (py_str line1) "1 ")
                       || negb (PyStr.startswith (py_str line2) "2 ")
                    then Ok None
                    else
                      match _parse_catnr_from_line1 (py_str line1) with
                      | Raise e => Raise e
                      | Ok found =>
                          if negb (found =? catnr) then Ok None
                          else Ok (Some (name, py_str line1, py_str line2))
                      end
                end
            | _ => Raise AttributeError
            end
        end
    end.

Definition _fetch_tle_from_satnogs (catnr : Z)
    : M (option (Json.value * string * string)) :=
  try_except
    (let! r := http_request (satnogs_url catnr) in
     let '(status, text) := r in
     if negb (is_success status) then raise (HTTPStatusError status)
     else
       match json_loads E text with
       | None => raise JSONDecodeError
       | Some data => lift (satnogs_record catnr data)
       end)
    (ret None).

(** The loop over the CelesTrak hostnames, inside the [try]. *)
Fixpoint celestrak_loop (catnr : Z) (urls : list string)
    : M (option (string * string * string)) :=
  match urls with
  | [] => ret None
  | url :: rest =>
      let! resp := http_request url in
      let '(status, text) := resp in
      if status =? 403 then celestrak_loop catnr rest
      else if negb (is_success status) then raise (HTTPStatusError status)
      else
        match _parse_tle_text_any text catnr with
        | Some parsed => ret (Some parsed)
        | None => celestrak_loop catnr rest
        end
  end.

Definition _fetch_tle_from_celestrak (catnr : Z)
    : M (option (string * string * string)) :=
  try_except (celestrak_loop catnr (celestrak_urls catnr)) (ret None).

Definition refresh_tle_best_effort (catnr : Z) : M bool :=
  let! now := _now_utc in
  let! last := ledger_get catnr in
  if match last with
     | Some t => now - t <? _REFRESH_COOLDOWN
     | None => false
     end
  then ret false
  else
    let! _ := ledger_set catnr now in
    let! satnogs := _fetch_tle_from_satnogs catnr in
    match satnogs with
    | Some (name, line1, line2) =>
        let! _ := _atomic_write_tle catnr (py_str name) line1 line2 in
        let! _ := _write_meta catnr "satnogs" in
        ret true
    | None =>
        let! cel := _fetch_tle_from_celestrak catnr in
        match cel with
        | Some (name, line1, line2) =>
            let! _ := _atomic_write_tle catnr name line1 line2 in
            let! _ := _write_meta catnr "celestrak" in
            ret true
        | None => ret false
        end
    end.

(** The satellite handle is the element set it is built from; the
    constructor [EarthSatellite] is taken to accept any three lines. *)
Definition get_satellite_by_key (key : string) (allow_network : bool)
    : M (string * Z * TLE) :=
  let k := PyStr.upper (PyStr.strip key) in
  match satellites_get k SATELLITES with
  | None => raise (ValueError unknown_satellite)
  | Some catnr =>
      let! _ :=
        (if allow_network then
           let! stale := _needs_refresh catnr in
           if stale then let! _ := refresh_tle_best_effort catnr in ret tt
           else ret tt
         else ret tt) in
      let p := _tle_path catnr in
      let! present := path_exists p in
      if negb present then raise (ValueError no_local_tle)
      else
        let! tle := _read_tle_file p catnr in
        ret (k, catnr, tle)
  end.

Definition refresh_tle_or_raise (catnr : Z) : M unit :=
  let! ok := refresh_tle_best_effort catnr in
  if negb ok then raise (ValueError refresh_failed) else ret tt.

Definition tle_age_seconds (catnr : Z) : M (option Z) :=
  let! meta := _read_meta catnr in
  let! has_stamp :=
    (if Json.truthy meta then
       let! stamp := lift (method_get meta "fetched_at_utc") in
       ret (Json.truthy stamp)
     else ret false) in
  let! from_meta :=
    (if has_stamp then
       try_except
         (let! raw := lift (subscript meta "fetched_at_utc") in
          let! fetched := lift (py_fromisoformat raw) in
          let! now := _now_utc in
          ret (Some (PyNum.int_total_seconds (now - instant fetched))))
         (ret None)
     else ret None) in
  match from_meta with
  | Some age => ret (Some age)
  | None =>
      let p := _tle_path catnr in
      let! present := path_exists p in
      if negb present then ret None
      else
        let! mtime := stat_mtime p in
        let! now := _now_utc in
        ret (Some (PyNum.int_total_seconds (now - mtime)))
  end.

Definition is_stale (catnr : Z) : M bool :=
  let! age := tle_age_seconds catnr in
  match age with
  | None => ret true
  | Some a => ret (PyNum.int_total_seconds TLE_TTL <? a)
  end.

End WithExternals.

End TleStore.

(** ** services/tle_service.py *)

Module TleService.

(** [int(line1.split()[1])], inside the [try] of the locator. *)
Definition catnr_of_line1 (line1 : string) : result Z :=
  match PyStr.split line1 !! 1%nat with
  | None => Raise IndexError
  | Some token =>
      match PyStr.int_of_token token with
      | Some n => Ok n
      | None => Raise (ValueError not_a_decimal)
      end
  end.

Definition _parse_tle_text_any (text : string) (catnr : Z)
    : option (string * string * string) :=
  TleStore.locate catnr_of_line1 text catnr.

End TleService.

(** ** services/passes_service.py *)

Module Passes.

(** Values of a pass dictionary: a timestamp rendered in UTC, the same in
    the Montevideo zone, or an angle in degrees. *)
Inductive field :=
| IsoUtc (t : Z)
| IsoUy (t : Z)
| Degrees (q : Q).

Record passes_result := PassesResult {
  satellite : string * Z;
  hours : Z;
  min_elevation_deg : Q;
  start_utc : Z;
  end_utc : Z;
  passes : list (gmap string field)
}.

Section WithExternals.

Variable E : externals.

Definition _parse_iso_utc (dt_iso : string) : result Z :=
  let dt_iso := PyStr.replace_char "Z" "+00:00" (PyStr.strip dt_iso) in
  match fromisoformat E dt_iso with
  | Some dt => Ok (TleStore.instant dt)
  | None => Raise (ValueError bad_isoformat)
  end.

(** The loop over [zip(times, events)], from the accumulator
    [(results, current)].  Event kinds: 0 rise, 1 culmination, 2 set. *)
Fixpoint passes_loop (sat : TLE) (events : list (Z * Z))
    (results : list (gmap string field)) (current : gmap string field)
    : list (gmap string field) :=
  match events with
  | [] => results
  | (t, e) :: rest =>
      if e =? 0 then
        passes_loop sat rest results
          (<["rise_uy" := IsoUy t]> (<["rise_utc" := IsoUtc t]> ∅))
      else if e =? 1 then
        passes_loop sat rest results
          (<["max_elevation_deg" :=
               Degrees (PyNum.round_ndigits (altitude_degrees E sat t) 2)]>
             (<["culmination_uy" := IsoUy t]>
                (<["culmination_utc" := IsoUtc t]> current)))
      else if e =? 2 then
        let current := <["set_uy" := IsoUy t]> (<["set_utc" := IsoUtc t]> current) in
        passes_loop sat rest
          (if bool_decide (is_Some (current !! "max_elevation_deg"))
           then results ++ [current] else results)
          ∅
      else passes_loop sat rest results current
  end.

Definition compute_passes_mvd (satellite_key : string) (hours : Z)
    (min_elevation_deg : Q) (start_utc_iso : option string) : M passes_result :=
  let start_utc_iso :=
    match start_utc_iso with
    | Some s => if PyStr.is_empty (PyStr.strip s) then None else Some s
    | None => None
    end in
  let! resolved := TleStore.get_satellite_by_key E satellite_key true in
  let '(key, catnr, sat) := resolved in
  let! start_dt :=
    (match start_utc_iso with
     | Some s => if PyStr.is_empty s then TleStore._now_utc E
                 else lift (_parse_iso_utc s)
     | None => TleStore._now_utc E
     end) in
  let end_dt := start_dt + PyNum.hours hours in
  let events := find_events E sat start_dt end_dt min_elevation_deg in
  ret (PassesResult (key, catnr) hours min_elevation_deg start_dt end_dt
         (passes_loop sat events [] ∅)).

End WithExternals.

End Passes.

(** ** services/track_service.py *)

Module Track.

Record point := Point { t_utc : Q; t_uy : Q; lat : Q; lon : Q }.

(** [coordinates] are the [[lon, lat]] pairs of the line geometry. *)
Record track_result := TrackResult {
  satellite : string * Z;
  start_utc : Z;
  end_utc : Z;
  step_seconds : Z;
  points : list point;
  coordinates : list (Q * Q)
}.

(** [ts.linspace(t0, t1, n)]: [n] evenly spaced times from [t0] to [t1]. *)
Definition linspace (t0 t1 : Z) (n : nat) : list Q :=
  (fun i : nat =>
     (inject_Z t0
      + inject_Z (Z.of_nat i) * inject_Z (t1 - t0) / inject_Z (Z.of_nat n - 1))%Q)
  <$> seq 0 n.

(** [n = max(2, total_seconds // step_seconds + 1)]. *)
Definition sample_count (start_dt end_dt step_seconds : Z) : Z :=
  Z.max 2 (PyNum.int_total_seconds (end_dt - start_dt) / step_seconds + 1).

Section WithExternals.

Variable E : externals.

(** The loop over [times], appending to [points] and [coords]. *)
Fixpoint track_loop (sat : TLE) (times : list Q) : list point * list (Q * Q) :=
  match times with
  | [] => ([], [])
  | t :: rest =>
      let '(lat, lon) := subpoint_degrees E sat t in
      let '(points, coords) := track_loop sat rest in
      (Point t t (PyNum.round_ndigits lat 6) (PyNum.round_ndigits lon 6) :: points,
       (lon, lat) :: coords)
  end.

Definition compute_track (satellite_key start_utc end_utc : string)
    (step_seconds : Z) : M track_result :=
  let! resolved := TleStore.get_satellite_by_key E satellite_key true in
  let '(key, catnr, sat) := resolved in
  let! start_dt := lift (Passes._parse_iso_utc E start_utc) in
  let! end_dt := lift (Passes._parse_iso_utc E end_utc) in
  if end_dt <=? start_dt then raise (ValueError end_not_after_start)
  else if step_seconds =? 0 then raise ZeroDivisionError
  else
    let n := sample_count start_dt end_dt step_seconds in
    let times := linspace start_dt end_dt (Z.to_nat n) in
    let '(points, coords) := track_loop sat times in
    ret (TrackResult (key, catnr) start_dt end_dt step_seconds points coords).

End WithExternals.

End Track.

(** ** services/track_now_service.py *)

Module TrackNow.

Record point := Point { t_utc : Z; t_uy : Z; lat : Q; lon : Q }.

Record track_now_result := TrackNowResult {
  satellite : string * Z;
  minutes : Z;
  step_seconds : Z;
  start_utc : Z;
  end_utc : Z;
  points : list point;
  coordinates : list (Q * Q)
}.

(** [while t <= end_dt: times_dt.append(t); t += step], for a positive
    step (in microseconds). *)
Equations? times_loop (t end_dt : Z) (step : positive) : list Z
  by wf (Z.to_nat (end_dt - t + 1)) lt :=
  times_loop t end_dt step with Z_le_dec t end_dt => {
    | left _ := t :: times_loop (t + Z.pos step) end_dt step;
    | right _ := [] }.
Proof. lia. Qed.

Section WithExternals.

Variable E : externals.

(** The loop over [zip(times_dt, latitudes, longitudes)]. *)
Definition points_of (sat : TLE) (times_dt : list Z) : list point :=
  (fun dt =>
     let '(lat, lon) := subpoint_degrees E sat (inject_Z dt) in
     Point dt dt (PyNum.round_ndigits lat 6) (PyNum.round_ndigits lon 6))
  <$> times_dt.

(** The check [step_seconds < 1] is the last branch of the match: the
    steps that pass it are the positive ones, which is what makes the loop
    end. *)
Definition compute_track_now (satellite_key : string) (minutes step_seconds : Z)
    : M track_now_result :=
  if (minutes <? 1) || (180 <? minutes)
  then raise (ValueError minutes_out_of_range)
  else
    match step_seconds with
    | Z.pos step =>
        if 120 <? step_seconds then raise (ValueError step_out_of_range)
        else
          let! resolved := TleStore.get_satellite_by_key E satellite_key true in
          let '(key, catnr, sat) := resolved in
          let! start_dt := TleStore._now_utc E in
          let end_dt := start_dt + PyNum.minutes minutes in
          let times_dt :=
            times_loop start_dt end_dt (step * 1000000)%positive in
          let points := points_of sat times_dt in
          ret (TrackNowResult (key, catnr) minutes step_seconds start_dt end_dt
                 points
                 ((fun p => (lon p, lat p)) <$> points))
    | _ => raise (ValueError step_out_of_range)
    end.

End WithExternals.

End TrackNow.

(** ** tle_store.py: the queries of the status routes *)

Module StoreQueries.

Definition list_satellites : list (string * Z) := TleStore.SATELLITES.

Definition tle_file_exists (catnr : Z) : M bool :=
  TleStore.path_exists (TleStore._tle_path catnr).

Section WithExternals.

Variable E : externals.

Definition read_meta_public (catnr : Z) : M Json.value := TleStore._read_meta E catnr.

Definition tle_file_mtime_utc (catnr : Z) : M (option string) :=
  let p := TleStore._tle_path catnr in
  let! present := TleStore.path_exists p in
  if negb present then ret None
  else
    let! mtime := TleStore.stat_mtime p in
    ret (Some (isoformat E mtime)).

End WithExternals.

End StoreQueries.

(** ** routes/status.py *)

Module Status.

Record report := Report {
  key : string;
  catnr : Z;
  has_local : bool;
  mtime_utc : option string;
  meta : Json.value;
  age_seconds : option Z;
  age_minutes : option Q;
  ttl_seconds : Z;
  stale : bool
}.

(** What a route answers: a body, or [HTTPException(status_code)]. *)
Inductive response (A : Type) :=
| Served (body : A)
| Rejected (status_code : Z).
Arguments Served {A} body.
Arguments Rejected {A} status_code.

Inductive body :=
| One (r : report)
| Every (rs : list report).

Section WithExternals.

Variable E : externals.

(** The inner function [one]; the entries of the dictionary it returns are
    evaluated in the order they are written. *)
Definition one (key : string) : M report :=
  match TleStore.satellites_get key TleStore.SATELLITES with
  | None => raise KeyError
  | Some catnr =>
      let! meta := StoreQueries.read_meta_public E catnr in
      let! age := TleStore.tle_age_seconds E catnr in
      let! has_local := StoreQueries.tle_file_exists catnr in
      let! mtime_utc := StoreQueries.tle_file_mtime_utc E catnr in
      let age_minutes :=
        match age with
        | None => None
        | Some a => Some (PyNum.round_ndigits (inject_Z a / 60) 2)
        end in
      let! stale := TleStore.is_stale E catnr in
      ret (Report key catnr has_local mtime_utc meta age age_minutes
                  (PyNum.int_total_seconds TleStore.TLE_TTL) stale)
  end.

Fixpoint one_each (keys : list string) : M (list report) :=
  match keys with
  | [] => ret []
  | k :: rest =>
      let! r := one k in
      let! rs := one_each rest in
      ret (r :: rs)
  end.

Definition tle_status (satellite : option string) : M (response body) :=
  match satellite with
  | None =>
      let! rs := one_each (fst <$> TleStore.SATELLITES) in
      ret (Served (Every rs))
  | Some satellite =>
      let key := PyStr.upper (PyStr.strip satellite) in
      match TleStore.satellites_get key TleStore.SATELLITES with
      | None => ret (Rejected 400)
      | Some _ => let! r := one key in ret (Served (One r))
      end
  end.

End WithExternals.

End Status.

(** ** routes/tle.py and the startup hook of main.py *)

Module Refresh.

Section WithExternals.

Variable E : externals.






End WithExternals.

End Refresh.

(** ** services/tle_service.py: the local element file

    The service's [DATA_DIR] is the data directory of tle_store.py. *)

Module TleServiceFiles.

Definition _read_local_tle (catnr : Z) : M (option (string * string * string)) :=
  let p := TleStore._tle_path catnr in
  let! present := TleStore.path_exists p in
  if negb present then ret None
  else
    let! text := TleStore.read_text p in
    match PyStr.nonblank_stripped_lines text with
    | name :: line1 :: line2 :: _ =>
        match TleService.catnr_of_line1 line1 with
        | Raise _ => ret None
        | Ok only_catnr =>
            if negb (only_catnr =? catnr)
               || negb (PyStr.startswith line1 "1 ")
               || negb (PyStr.startswith line2 "2 ")
            then ret None
            else ret (Some (name, line1, line2))
        end
    | _ => ret None
    end.

Section WithExternals.

Variable E : externals.

Definition _save_local_tle (catnr : Z) (name line1 line2 : string) : M unit :=
  let p := TleStore._tle_path catnr in
  TleStore.write_text E p
    (name ++ TleStore.nl ++ line1 ++ TleStore.nl ++ line2 ++ TleStore.nl).

End WithExternals.

End TleServiceFiles.

(** ** services/tle_service.py: the cache and the sources *)

Module TleServiceFetch.

(** An element set as the service passes it on: the name is whatever the
    source gave, the two lines are strings. *)
Definition record : Type := Json.value * string * string.

(** [_CACHE]: catalog number to [(fetched_at_utc, name, line1, line2)]. *)
Definition cache : Type := gmap Z (Z * record).

Definition _CACHE_TTL : Z := PyNum.hours 6.

Definition tleapi_url (catnr : Z) : string :=
  "https://tle.ivanstanojevic.me/api/tle/" ++ PyStr.str_of_int catnr.

(** What [last_err] holds. *)
Inductive last_error :=
| Forbidden (url : string)
| NotTle (url : string) (status : Z)
| Caught (e : exn).

(** How [fetch_tle_from_celestrak] ends: with the record, or with the
    [ValueError] that carries [last_err]. *)
Inductive outcome :=
| Obtained (r : record)
| NotObtained (last_err : option last_error).

(** The body of [_fetch_tle_from_tleapi] once [j = r.json()] is known; a
    raised exception is caught by the caller. *)
Definition tleapi_record (catnr : Z) (j : Json.value) : result (option record) :=
  match j with
  | Json.Dict entries =>
      let name :=
        if Json.truthy (Json.dict_get entries "name")
        then Json.dict_get entries "name"
        else Json.Str ("CATNR " ++ PyStr.str_of_int catnr) in
      let line1 := Json.dict_get entries "line1" in
      let line2 := Json.dict_get entries "line2" in
      if negb (Json.truthy line1) || negb (Json.truthy line2) then Ok None
      else
        match line1 with
        | Json.Str s1 =>
            if negb (PyStr.startswith s1 "1 ") then Ok None
            else
              match line2 with
              | Json.Str s2 =>
                  if negb (PyStr.startswith s2 "2 ") then Ok None
                  else Ok (Some (name, s1, s2))
              | _ => Raise AttributeError
              end
        | _ => Raise AttributeError
        end
  | _ => Raise AttributeError
  end.

Section WithExternals.

Variable E : externals.

Definition _cache_get (c : cache) (catnr : Z) : M (option record) :=
  match c !! catnr with
  | None => ret None
  | Some (fetched_at, r) =>
      let! now := TleStore._now_utc E in
      if _CACHE_TTL <? now - fetched_at then ret None else ret (Some r)
  end.

Definition _cache_set (c : cache) (catnr : Z) (r : record) : M cache :=
  let! now := TleStore._now_utc E in
  ret (<[catnr := (now, r)]> c).

Definition _fetch_tle_from_tleapi (catnr : Z) : M (option record) :=
  try_except
    (let! r := TleStore.http_request E (tleapi_url catnr) in
     let '(status, text) := r in
     if negb (TleStore.is_success status) then raise (HTTPStatusError status)
     else
       match json_loads E text with
       | None => raise JSONDecodeError
       | Some j => lift (tleapi_record catnr j)
       end)
    (ret None).

(** [_cache_set] and [_save_local_tle], then [return]; the name goes into
    the file as the f-string renders it. *)
Definition keep (c : cache) (catnr : Z) (r : record) : M (outcome * cache) :=
  let '(name, line1, line2) := r in
  let! c' := _cache_set c catnr r in
  let! _ := TleServiceFiles._save_local_tle E catnr (TleStore.py_str E name) line1 line2 in
  ret (Obtained r, c').

(** The loop over the CelesTrak hostnames; each round has its own [try],
    so that a failure moves on to the next hostname. *)
Fixpoint celestrak_loop (c : cache) (catnr : Z) (urls : list string)
    (last_err : option last_error) : M (outcome * cache) :=
  match urls with
  | [] => ret (NotObtained last_err, c)
  | url :: rest =>
      fun w =>
        match TleStore.http_request E url w with
        | (Raise e, w1) => celestrak_loop c catnr rest (Some (Caught e)) w1
        | (Ok (status, text), w1) =>
            if status =? 403
            then celestrak_loop c catnr rest (Some (Forbidden url)) w1
            else if negb (TleStore.is_success status)
            then celestrak_loop c catnr rest (Some (Caught (HTTPStatusError status))) w1
            else
              match TleService._parse_tle_text_any text catnr with
              | Some (name, line1, line2) =>
                  keep c catnr (Json.Str name, line1, line2) w1
              | None => celestrak_loop c catnr rest (Some (NotTle url status)) w1
              end
        end
  end.

(** [fetch_tle_from_celestrak] past the cache lookup. *)
Definition fetch_uncached (c : cache) (catnr : Z) : M (outcome * cache) :=
  let! local := TleServiceFiles._read_local_tle catnr in
  match local with
  | Some (name, line1, line2) =>
      let! c' := _cache_set c catnr (Json.Str name, line1, line2) in
      ret (Obtained (Json.Str name, line1, line2), c')
  | None =>
      let! alt := _fetch_tle_from_tleapi catnr in
      match alt with
      | Some r => keep c catnr r
      | None => celestrak_loop c catnr (TleStore.celestrak_urls catnr) None
      end
  end.

Definition fetch_tle_from_celestrak (c : cache) (catnr : Z) : M (outcome * cache) :=
  let! cached := _cache_get c catnr in
  match cached with
  | Some r => ret (Obtained r, c)
  | None => fetch_uncached c catnr
  end.

End WithExternals.

End TleServiceFetch.

(** ** Concrete surroundings for the examples *)

Module Demo.

Definition iss_name : string := "ISS (ZARYA)".
Definition iss_line1 : string :=
  "1 25544U 98067A   24001.50000000  .00016717  00000-0  10270-3 0  9005".
Definition iss_line2 : string :=
  "2 25544  51.6400 208.9163 0006317  69.9862  25.2906 15.54225995 67660".

Definition iss : TLE := mkTLE iss_name iss_line1 iss_line2.

Definition iss_text : string :=
  iss_name ++ TleStore.nl ++ iss_line1 ++ TleStore.nl ++ iss_line2 ++ TleStore.nl.

(** 2024-01-01T00:00:00Z, in microseconds. *)
Definition new_year : Z := 1704067200000000.

Definition parse_stamp (s : string) : option datetime :=
  if String.eqb s "2024-01-01T00:00:00+00:00" then Some (DateTime new_year (Some 0))
  else if String.eqb s "2024-01-01T00:01:30+00:00"
       then Some (DateTime (new_year + PyNum.seconds 90) (Some 0))
  else None.

(** No network, an unreadable metadata codec, a clock that advances one
    second per reading, a culmination at 45 degrees. *)
Definition offline : externals :=
  {| clock := fun k => new_year + PyNum.seconds (Z.of_nat k);
     http_get := fun _ _ => NoReply;
     json_loads := fun _ => None;
     json_dumps := fun _ => "{}";
     fromisoformat := parse_stamp;
     isoformat := fun _ => "2024-01-01T00:00:00+00:00";
     repr := fun _ => "None";
     subpoint_degrees := fun _ _ => ((-349011 # 10000000)%Q, (1 # 3)%Q);
     find_events := fun _ _ _ _ => [];
     altitude_degrees := fun _ t => if t =? 200 then 45%Q else 30%Q |}.

(** Every request is answered 403 Forbidden. *)
Definition forbidden : externals :=
  {| clock := clock offline;
     http_get := fun _ _ => Reply 403 EmptyString;
     json_loads := json_loads offline;
     json_dumps := json_dumps offline;
     fromisoformat := fromisoformat offline;
     isoformat := isoformat offline;
     repr := repr offline;
     subpoint_degrees := subpoint_degrees offline;
     find_events := find_events offline;
     altitude_degrees := altitude_degrees offline |}.

Definition dq : string := String "034" EmptyString.

(** A metadata file without the [fetched_at_utc] field. *)
Definition stampless_meta_text : string :=
  "{" ++ dq ++ "catnr" ++ dq ++ ": 25544, "
      ++ dq ++ "source" ++ dq ++ ": " ++ dq ++ "satnogs" ++ dq ++ "}".

(** As [offline], with a JSON codec that reads that one document. *)
Definition reading : externals :=
  {| clock := clock offline;
     http_get := http_get offline;
     json_loads := fun text =>
       if String.eqb text stampless_meta_text
       then Some (Json.Dict [("catnr", Json.Int 25544); ("source", Json.Str "satnogs")])
       else None;
     json_dumps := json_dumps offline;
     fromisoformat := fromisoformat offline;
     isoformat := isoformat offline;
     repr := repr offline;
     subpoint_degrees := subpoint_degrees offline;
     find_events := find_events offline;
     altitude_degrees := altitude_degrees offline |}.

(** A fresh process with an empty data directory. *)
Definition empty_world : world := World ∅ ∅ 0 [] [].

(** A data directory holding the ISS elements, written at the instant the
    clock starts from. *)
Definition seeded : world :=
  World ∅ {[ TleStore._tle_path 25544 := File iss_text new_year ]} 0 [] [].

End Demo.

(** ** Vocabulary of the statements *)

Section Vocabulary.

Variable E : externals.

Local Open Scope list_scope.

Definition has_field (k : string) (p : gmap string Passes.field) : Prop :=
  is_Some (p !! k).

(** At every set event that closes a culmination, a rise event has been
    seen since the previous set event.  [risen] and [culminated] say
    whether a rise, and a culmination after the last rise, have been seen
    since the last set. *)
Fixpoint rise_opens_each_emission (risen culminated : bool) (events : list (Z * Z))
    : bool :=
  match events with
  | [] => true
  | (_, e) :: rest =>
      if e =? 0 then rise_opens_each_emission true false rest
      else if e =? 1 then rise_opens_each_emission risen true rest
      else if e =? 2
      then (negb culminated || risen) && rise_opens_each_emission false false rest
      else rise_opens_each_emission risen culminated rest
  end.

Definition tle_text (name line1 line2 : string) : string :=
  (name ++ TleStore.nl ++ line1 ++ TleStore.nl ++ line2 ++ TleStore.nl)%string.

Definition meta_record (catnr now : Z) (source : string) : Json.value :=
  Json.Dict [ ("catnr", Json.Int catnr);
              ("fetched_at_utc", Json.Str (isoformat E now));
              ("source", Json.Str source) ].

(** Nothing but the request log has changed. *)
Definition only_requested (w w' : world) (urls : list string) : Prop :=
  ledger w' = ledger w /\ fs w' = fs w /\ ticks w' = ticks w
  /\ history w' = history w /\ requests w' = requests w ++ urls.

(** The call is stopped by the cooldown gate. *)
Definition gated (w : world) (catnr : Z) : bool :=
  match ledger w !! catnr with
  | Some t => clock E (ticks w) - t <? TleStore._REFRESH_COOLDOWN
  | None => false
  end.

Definition read_clock (w : world) : world :=
  World (ledger w) (fs w) (S (ticks w)) (requests w) (history w).

(** The metadata as [_read_meta] returns it: [None] when the file is
    missing or is not JSON. *)
Definition stored_meta (catnr : Z) (w : world) : Json.value :=
  match fs w !! TleStore._meta_path catnr with
  | Some f => match json_loads E (content f) with
              | Some v => v
              | None => Json.Null
              end
  | None => Json.Null
  end.

(** The auto-refresh step of [get_satellite_by_key]. *)
Definition auto_refresh (allow_network : bool) (catnr : Z) : M unit :=
  if allow_network then
    let! stale := TleStore._needs_refresh E catnr in
    if stale then let! _ := TleStore.refresh_tle_best_effort E catnr in ret tt
    else ret tt
  else ret tt.

(** What [_read_tle_file] makes of the text of a file. *)
Definition parse_element_text (text : string) (catnr : Z) : result TLE :=
  match PyStr.nonblank_stripped_lines text with
  | name :: line1 :: line2 :: _ =>
      let line1 := PyStr.lstrip_bom line1 in
      if negb (PyStr.startswith line1 "1 ") || negb (PyStr.startswith line2 "2 ")
      then Raise (ValueError bad_line_prefix)
      else match TleStore._parse_catnr_from_line1 line1 with
           | Raise e => Raise e
           | Ok found =>
               if negb (found =? catnr) then Raise (ValueError (catnr_mismatch found))
               else Ok (mkTLE name line1 line2)
           end
  | _ => Raise (ValueError too_few_lines)
  end.

(** The checks of [_read_tle_file] pass on the non-blank lines of a file,
    and [tle] is the record it returns then: at least three lines; the
    second, once leading byte-order marks are dropped, begins "1 " and
    carries the requested catalog number; the third begins "2 ". *)
Definition passes_checks (catnr : Z) (lines : list string) (tle : TLE) : Prop :=
  exists name l1 line2 rest,
    lines = name :: l1 :: line2 :: rest
    /\ PyStr.startswith (PyStr.lstrip_bom l1) "1 " = true
    /\ PyStr.startswith line2 "2 " = true
    /\ TleStore._parse_catnr_from_line1 (PyStr.lstrip_bom l1) = Ok catnr
    /\ tle = mkTLE name (PyStr.lstrip_bom l1) line2.

(** The timestamp of the metadata, when it has one that is a non-empty
    string and parses. *)
Definition fetched_stamp (meta : Json.value) : option Z :=
  match meta with
  | Json.Dict entries =>
      match Json.lookup_entry "fetched_at_utc" entries with
      | Some (Json.Str s) =>
          if PyStr.is_empty s then None
          else TleStore.instant <$> fromisoformat E s
      | _ => None
      end
  | _ => None
  end.

End Vocabulary.

(** ** Vocabulary of the further properties *)

Section MoreVocabulary.

Variable E : externals.

Local Open Scope list_scope.

(** The world after one more request. *)
Definition logged (w : world) (url : string) : world :=
  World (ledger w) (fs w) (ticks w) (requests w ++ [url]) (history w).


(** The world once a refresh has recorded its attempt. *)
Definition attempted (catnr : Z) (w : world) : world :=
  World (<[catnr := clock E (ticks w)]> (ledger w)) (fs w) (S (ticks w))
        (requests w) (history w).

(** The call passes the cooldown gate and neither source delivers: the
    SatNOGS fetcher returns [None], and then the CelesTrak fetcher does. *)
Definition sources_exhausted (catnr : Z) (w : world) : Prop :=
  gated E w catnr = false
  /\ exists w2 w3,
       TleStore._fetch_tle_from_satnogs E catnr (attempted catnr w) = (Ok None, w2)
       /\ TleStore._fetch_tle_from_celestrak E catnr w2 = (Ok None, w3).

(** Element Store [write]: the element file, then the metadata. *)
Definition commit (catnr : Z) (source name line1 line2 : string) (w : world) : world :=
  snd (TleStore._write_meta E catnr source
         (snd (TleStore._atomic_write_tle E catnr name line1 line2 w))).

(** The invariants of a TleRecord for a catalog number. *)
Definition valid_record (catnr : Z) (line1 line2 : string) : Prop :=
  PyStr.startswith line1 "1 " = true
  /\ PyStr.startswith line2 "2 " = true
  /\ TleStore._parse_catnr_from_line1 line1 = Ok catnr.

(** A text without line boundary, not blank, that [strip] leaves alone:
    what one line of an element file has to be to be read back as it is. *)
Definition clean_line (s : string) : Prop :=
  PyStr.all_chars (fun c => negb (PyStr.is_linebreak c)) s = true
  /\ PyStr.strip s = s
  /\ PyStr.is_empty s = false.

(** How many events of a kind a sequence holds. *)
Definition count_kind (kind : Z) (events : list (Z * Z)) : nat :=
  List.length (List.filter (fun ev : Z * Z => snd ev =? kind) events).

(** The instant [tle_age_seconds] counts from, read off the data
    directory: the timestamp of the metadata when it is a non-empty
    string that parses, else the modification time of the element file;
    metadata that is not an object has no [get]. *)
Definition age_base (catnr : Z) (w : world) : result (option Z) :=
  let meta := stored_meta E catnr w in
  let from_file := mtime <$> fs w !! TleStore._tle_path catnr in
  if Json.truthy meta then
    match meta with
    | Json.Dict entries =>
        if Json.truthy (Json.dict_get entries "fetched_at_utc") then
          match Json.dict_get entries "fetched_at_utc" with
          | Json.Str s =>
              match fromisoformat E s with
              | Some dt => Ok (Some (TleStore.instant dt))
              | None => Ok from_file
              end
          | _ => Ok from_file
          end
        else Ok from_file
    | _ => Raise AttributeError
    end
  else Ok from_file.

(** Same ledger, data directory and request log. *)
Definition same_store (w w' : world) : Prop :=
  ledger w' = ledger w /\ fs w' = fs w /\ requests w' = requests w
  /\ history w' = history w.



(** What a run past the cache lookup leaves: a record cached under a
    reading of the clock taken during the run, or nothing changed but the
    request log. *)
Definition settled (c : TleServiceFetch.cache) (catnr : Z) (w : world)
    (asked : list string) (res : TleServiceFetch.outcome * TleServiceFetch.cache)
    (w' : world) : Prop :=
  match fst res with
  | TleServiceFetch.Obtained r =>
      exists k, (ticks w <= k < ticks w')%nat
                /\ snd res = <[catnr := (clock E k, r)]> c
                /\ requests w `prefix_of` requests w'
  | TleServiceFetch.NotObtained last_err =>
      snd res = c /\ only_requested w w' asked
  end.
End MoreVocabulary.

(** ** Further surroundings for the examples *)

Module Scenario.

(** The one metadata document of the codec below. *)
Definition meta_text : string := "{meta 25544}".

(** CelesTrak answers every request with the ISS elements; the JSON codec
    writes and reads the one metadata document of a CelesTrak refresh at
    the instant the clock starts from. *)
Definition online : externals :=
  {| clock := clock Demo.offline;
     http_get := fun _ _ => Reply 200 Demo.iss_text;
     json_loads := fun text =>
       if String.eqb text meta_text
       then Some (Json.Dict [ ("catnr", Json.Int 25544);
                              ("fetched_at_utc", Json.Str "2024-01-01T00:00:00+00:00");
                              ("source", Json.Str "celestrak") ])
       else None;
     json_dumps := fun _ => meta_text;
     fromisoformat := fromisoformat Demo.offline;
     isoformat := isoformat Demo.offline;
     repr := repr Demo.offline;
     subpoint_degrees := subpoint_degrees Demo.offline;
     find_events := find_events Demo.offline;
     altitude_degrees := altitude_degrees Demo.offline |}.

(** As [Demo.offline], with a JSON codec that reads the document [7]. *)
Definition scalar : externals :=
  {| clock := clock Demo.offline;
     http_get := http_get Demo.offline;
     json_loads := fun text => if String.eqb text "7" then Some (Json.Int 7) else None;
     json_dumps := json_dumps Demo.offline;
     fromisoformat := fromisoformat Demo.offline;
     isoformat := isoformat Demo.offline;
     repr := repr Demo.offline;
     subpoint_degrees := subpoint_degrees Demo.offline;
     find_events := find_events Demo.offline;
     altitude_degrees := altitude_degrees Demo.offline |}.

(** A data directory whose ISS metadata file holds a JSON number. *)
Definition scalar_meta : world :=
  World ∅ {[ TleStore._meta_path 25544 := File "7" Demo.new_year ]} 0 [] [].

(** A process that tried to refresh the ISS at the instant the clock
    starts from. *)
Definition cooling : world := World {[ 25544 := Demo.new_year ]} ∅ 1 [] [].

(** The ISS elements without the classification letter after the catalog
    number, and a data directory that holds them. *)
Definition unclassified_line1 : string :=
  "1 25544 98067A   24001.50000000  .00016717  00000-0  10270-3 0  9005".

Definition unclassified_record : Json.value * string * string :=
  (Json.Str Demo.iss_name, unclassified_line1, Demo.iss_line2).

Definition unclassified : world :=
  World ∅ {[ TleStore._tle_path 25544 :=
               File (Demo.iss_name ++ TleStore.nl ++ unclassified_line1 ++ TleStore.nl
                     ++ Demo.iss_line2 ++ TleStore.nl)
                    Demo.new_year ]} 0 [] [].

(** A data directory whose ISS element file has a byte-order mark in front
    of its first element line. *)
Definition marked : world :=
  World ∅ {[ TleStore._tle_path 25544 :=
               File (Demo.iss_name ++ TleStore.nl
                     ++ String PyStr.bom Demo.iss_line1 ++ TleStore.nl
                     ++ Demo.iss_line2 ++ TleStore.nl)
                    Demo.new_year ]} 0 [] [].

End Scenario.

(** * Properties *)

(** ** Pass reduction *)

Section PassReduction.

Variable E : externals.
Variable sat : TLE.

Lemma passes_loop_culminated events :
  forall results current,
    Forall (fun p => has_field "culmination_utc" p
                     /\ has_field "max_elevation_deg" p
                     /\ has_field "set_utc" p) results ->
    (has_field "max_elevation_deg" current -> has_field "culmination_utc" current) ->
    Forall (fun p => has_field "culmination_utc" p
                     /\ has_field "max_elevation_deg" p
                     /\ has_field "set_utc" p)
           (Passes.passes_loop E sat events results current).
Proof.
  unfold has_field.
  induction events as [|[t e] rest IH]; intros results current Hres Hcur; simpl.
  - exact Hres.
  - destruct (Z.eqb_spec e 0) as [->|_].
    { apply IH; [exact Hres|]. intros [x Hx]. simplify_map_eq. }
    destruct (Z.eqb_spec e 1) as [->|_].
    { apply IH; [exact Hres|]. intros _. simplify_map_eq. eauto. }
    destruct (Z.eqb_spec e 2) as [->|_].
    { apply IH.
      - case_bool_decide as Hmax; [|exact Hres].
        apply Forall_app; split; [exact Hres|].
        constructor; [|constructor].
        split; [|split]; [| exact Hmax | simplify_map_eq; eauto].
        rewrite !lookup_insert_ne in Hmax by done.
        rewrite !lookup_insert_ne by done. auto.
      - intros [x Hx]. simplify_map_eq. }
    apply IH; assumption.
Qed.

Lemma passes_loop_risen events :
  forall risen culminated results current,
    (has_field "rise_utc" current <-> risen = true) ->
    (has_field "max_elevation_deg" current <-> culminated = true) ->
    Forall (has_field "rise_utc") (Passes.passes_loop E sat events results current)
    <-> Forall (has_field "rise_utc") results
        /\ rise_opens_each_emission risen culminated events = true.
Proof.
  unfold has_field.
  induction events as [|[t e] rest IH]; intros risen culminated results current Hr Hc;
    cbn [Passes.passes_loop rise_opens_each_emission].
  - tauto.
  - destruct (Z.eqb_spec e 0) as [->|_].
    { apply IH.
      - split; [reflexivity|]. intros _. simplify_map_eq. eauto.
      - split; [|discriminate]. intros [x Hx]. simplify_map_eq. }
    destruct (Z.eqb_spec e 1) as [->|_].
    { apply IH.
      - rewrite !lookup_insert_ne by done. exact Hr.
      - split; [reflexivity|]. intros _. simplify_map_eq. eauto. }
    destruct (Z.eqb_spec e 2) as [->|_]; [|by apply IH].
    rewrite (IH false false).
    2:{ split; [|discriminate]. intros [x Hx]. simplify_map_eq. }
    2:{ split; [|discriminate]. intros [x Hx]. simplify_map_eq. }
    rewrite andb_true_iff.
    assert (Hmax : is_Some ((<["set_uy" := Passes.IsoUy t]>
                               (<["set_utc" := Passes.IsoUtc t]> current))
                              !! "max_elevation_deg")
                   <-> culminated = true).
    { rewrite !lookup_insert_ne by done. exact Hc. }
    case_bool_decide as Hemit.
    + apply Hmax in Hemit. subst culminated. cbn [negb orb].
      rewrite Forall_app, Forall_singleton, !lookup_insert_ne by done.
      rewrite Hr. tauto.
    + destruct culminated; [exfalso; apply Hemit, Hmax; reflexivity|].
      cbn [negb orb]. tauto.
Qed.

(** C1 (amended): every emitted pass carries its culmination time, its
    maximum elevation and its set time; and every emitted pass carries a
    rise time exactly when each set event that closes a culmination
    follows a rise event seen since the previous set. *)
Theorem emitted_pass_fields (events : list (Z * Z)) :
  Forall (fun p => has_field "culmination_utc" p
                   /\ has_field "max_elevation_deg" p
                   /\ has_field "set_utc" p)
         (Passes.passes_loop E sat events [] ∅)
  /\ (Forall (has_field "rise_utc") (Passes.passes_loop E sat events [] ∅)
      <-> rise_opens_each_emission false false events = true).
Proof.
  split.
  - apply passes_loop_culminated; [constructor|].
    intros [x Hx]. simplify_map_eq.
  - rewrite (passes_loop_risen events false false [] ∅).
    + split; [tauto|]. intros H. split; [constructor|exact H].
    + split; [|discriminate]. intros [x Hx]. simplify_map_eq.
    + split; [|discriminate]. intros [x Hx]. simplify_map_eq.
Qed.

End PassReduction.

Lemma emitted_pass_fields_witness :
  Forall (fun p => has_field "culmination_utc" p
                   /\ has_field "max_elevation_deg" p
                   /\ has_field "set_utc" p)
         (Passes.passes_loop Demo.offline Demo.iss
            [(50, 2); (100, 0); (200, 1); (300, 2)] [] ∅)
  /\ Forall (has_field "rise_utc")
        (Passes.passes_loop Demo.offline Demo.iss
           [(50, 2); (100, 0); (200, 1); (300, 2)] [] ∅).
Proof.
  destruct (emitted_pass_fields Demo.offline Demo.iss
              [(50, 2); (100, 0); (200, 1); (300, 2)]) as [Hthree Hrise].
  split; [exact Hthree|]. apply Hrise. reflexivity.
Defined.

(** C1 (counterexample): a window that opens in mid-pass, with a culmination
    and a set but no rise, emits a pass without a rise time. *)
Lemma pass_without_rise_emitted :
  exists p : gmap string Passes.field,
    Passes.passes_loop Demo.offline Demo.iss [(200, 1); (300, 2)] [] ∅ = [p]
    /\ p !! "rise_utc" = None
    /\ p !! "max_elevation_deg" = Some (Passes.Degrees 45).
Proof. eexists. split; [reflexivity|]. split; reflexivity. Qed.

(** C4: the three reference scenarios of the pass reducer, each for every
    propagator and all event times.  Rise, culmination, set: one pass, with
    the first event as its rise and the elevation of the culmination,
    rounded to two decimals, as its maximum, which is 45 when the
    culmination is at 45 degrees.  Rise, rise, culmination, set: one pass,
    with the second rise as its rise (30 when the culmination is at 30
    degrees).  A rise alone: no pass. *)
Theorem pass_reduction_scenarios (E : externals) (sat : TLE) :
  (forall T1 T2 T3,
     exists p, Passes.passes_loop E sat [(T1, 0); (T2, 1); (T3, 2)] [] ∅ = [p]
               /\ p !! "rise_utc" = Some (Passes.IsoUtc T1)
               /\ p !! "max_elevation_deg"
                  = Some (Passes.Degrees
                            (PyNum.round_ndigits (altitude_degrees E sat T2) 2))
               /\ (altitude_degrees E sat T2 = 45%Q ->
                   p !! "max_elevation_deg" = Some (Passes.Degrees 45)))
  /\ (forall U1 U2 U3 U4,
        exists p, Passes.passes_loop E sat [(U1, 0); (U2, 0); (U3, 1); (U4, 2)] [] ∅ = [p]
                  /\ p !! "rise_utc" = Some (Passes.IsoUtc U2)
                  /\ p !! "max_elevation_deg"
                     = Some (Passes.Degrees
                               (PyNum.round_ndigits (altitude_degrees E sat U3) 2))
                  /\ (altitude_degrees E sat U3 = 30%Q ->
                      p !! "max_elevation_deg" = Some (Passes.Degrees 30)))
  /\ (forall V1, Passes.passes_loop E sat [(V1, 0)] [] ∅ = []).
Proof.
  split; [|split].
  - intros T1 T2 T3. eexists. split; [reflexivity|].
    split; [by simplify_map_eq|]. split; [by simplify_map_eq|].
    intros ->. by simplify_map_eq.
  - intros U1 U2 U3 U4. eexists. split; [reflexivity|].
    split; [by simplify_map_eq|]. split; [by simplify_map_eq|].
    intros ->. by simplify_map_eq.
  - reflexivity.
Qed.

Lemma pass_reduction_scenarios_witness :
  (exists p, Passes.passes_loop Demo.offline Demo.iss
               [(100, 0); (200, 1); (300, 2)] [] ∅ = [p]
             /\ p !! "rise_utc" = Some (Passes.IsoUtc 100)
             /\ p !! "max_elevation_deg" = Some (Passes.Degrees 45))
  /\ (exists p, Passes.passes_loop Demo.offline Demo.iss
                  [(100, 0); (150, 0); (250, 1); (300, 2)] [] ∅ = [p]
                /\ p !! "rise_utc" = Some (Passes.IsoUtc 150)
                /\ p !! "max_elevation_deg" = Some (Passes.Degrees 30))
  /\ Passes.passes_loop Demo.offline Demo.iss [(100, 0)] [] ∅ = [].
Proof.
  destruct (pass_reduction_scenarios Demo.offline Demo.iss) as (H1 & H2 & H3).
  split; [|split].
  - destruct (H1 100 200 300) as (p & Hrun & Hrise & _ & H45).
    exists p. split; [exact Hrun|]. split; [exact Hrise|]. apply H45. reflexivity.
  - destruct (H2 100 150 250 300) as (p & Hrun & Hrise & _ & H30).
    exists p. split; [exact Hrun|]. split; [exact Hrise|]. apply H30. reflexivity.
  - apply H3.
Defined.

(** ** The element store: writes *)

Section StoreWrites.

Variable E : externals.

Lemma atomic_write_tle_effect catnr name line1 line2 w :
  let tmp_file := DataFile catnr tmp in
  let t0 := clock E (ticks w) in
  let t1 := clock E (S (ticks w)) in
  let d1 := <[tmp_file := File EmptyString t0]> (fs w) in
  let d2 := <[tmp_file := File (tle_text name line1 line2) t1]> d1 in
  let d3 := <[TleStore._tle_path catnr := File (tle_text name line1 line2) t1]>
              (delete tmp_file d2) in
  TleStore._atomic_write_tle E catnr name line1 line2 w
  = (Ok tt, World (ledger w) d3 (S (S (S (ticks w)))) (requests w)
              (d3 :: d2 :: d1 :: history w)).
Proof.
  unfold TleStore._atomic_write_tle, TleStore.write_text, TleStore.replace,
    TleStore.fs_step, bind; simpl.
  rewrite lookup_insert_eq. reflexivity.
Qed.

Lemma write_meta_effect catnr source w :
  let p := TleStore._meta_path catnr in
  let now := clock E (ticks w) in
  let t0 := clock E (S (ticks w)) in
  let t1 := clock E (S (S (ticks w))) in
  let d1 := <[p := File EmptyString t0]> (fs w) in
  let d2 := <[p := File (json_dumps E (meta_record E catnr now source)) t1]> d1 in
  TleStore._write_meta E catnr source w
  = (Ok tt, World (ledger w) d2 (S (S (S (ticks w)))) (requests w)
              (d2 :: d1 :: history w)).
Proof. reflexivity. Qed.

(** C7 (amended): the element file is written to a temporary file and put
    in place by one rename, so every state of the data directory during the
    write holds the old element file or the complete new one; the metadata
    file is then written in place, so the directory passes through a state
    where that file is empty before it holds the complete record. *)
Theorem tle_write_atomic_meta_write_in_place
    (catnr : Z) (name line1 line2 source : string) (w : world) :
  (exists w1 d1 d2 d3,
      TleStore._atomic_write_tle E catnr name line1 line2 w = (Ok tt, w1)
      /\ history w1 = d3 :: d2 :: d1 :: history w
      /\ fs w1 = d3
      /\ d1 !! TleStore._tle_path catnr = fs w !! TleStore._tle_path catnr
      /\ d2 !! TleStore._tle_path catnr = fs w !! TleStore._tle_path catnr
      /\ content <$> d3 !! TleStore._tle_path catnr
         = Some (tle_text name line1 line2))
  /\ (exists w2 d1 d2,
         TleStore._write_meta E catnr source w = (Ok tt, w2)
         /\ history w2 = d2 :: d1 :: history w
         /\ fs w2 = d2
         /\ content <$> d1 !! TleStore._meta_path catnr = Some EmptyString
         /\ content <$> d2 !! TleStore._meta_path catnr
            = Some (json_dumps E (meta_record E catnr (clock E (ticks w)) source))).
Proof.
  split.
  - do 4 eexists. split; [apply atomic_write_tle_effect|]. simpl.
    split; [reflexivity|]. split; [reflexivity|].
    unfold TleStore._tle_path.
    rewrite !lookup_insert_ne by discriminate.
    rewrite lookup_insert_eq. auto.
  - do 3 eexists. split; [apply write_meta_effect|]. simpl.
    split; [reflexivity|]. split; [reflexivity|].
    rewrite !lookup_insert_eq. auto.
Qed.

End StoreWrites.

(** C7 (counterexample): while [_write_meta] rewrites an existing metadata
    file, the data directory passes through a state in which that file is
    neither the old text nor the new one. *)
Lemma meta_write_exposes_partial_file :
  let p := TleStore._meta_path 25544 in
  let w := World ∅ {[ p := File "old" 0 ]} 0 [] [] in
  let w' := snd (TleStore._write_meta Demo.offline 25544 "satnogs" w) in
  content <$> fs w !! p = Some "old"
  /\ content <$> fs w' !! p = Some "{}"
  /\ exists d, d ∈ history w'
               /\ content <$> d !! p <> Some "old"
               /\ content <$> d !! p <> Some "{}".
Proof.
  split; [reflexivity|]. split; [reflexivity|].
  eexists. split; [right; left|].
  split; vm_compute; discriminate.
Qed.

(** ** The acquisition pipeline *)

Section Refresh.

Variable E : externals.

Local Open Scope list_scope.

Lemma fetch_satnogs_total catnr w :
  exists r w',
    TleStore._fetch_tle_from_satnogs E catnr w = (Ok r, w')
    /\ only_requested w w' [TleStore.satnogs_url catnr].
Proof.
  unfold TleStore._fetch_tle_from_satnogs, try_except, bind,
    TleStore.http_request, only_requested.
  destruct (http_get E (List.length (requests w)) (TleStore.satnogs_url catnr))
    as [|status text]; simpl.
  { do 2 eexists. split; [reflexivity|]. simpl. auto. }
  destruct (TleStore.is_success status); simpl.
  2:{ do 2 eexists. split; [reflexivity|]. simpl. auto. }
  destruct (json_loads E text) as [data|]; simpl.
  2:{ do 2 eexists. split; [reflexivity|]. simpl. auto. }
  unfold lift. destruct (TleStore.satnogs_record E catnr data);
    do 2 eexists; (split; [reflexivity|]); simpl; auto.
Qed.

Lemma celestrak_loop_requests catnr urls :
  forall w, exists r w' asked,
    TleStore.celestrak_loop E catnr urls w = (r, w')
    /\ asked `prefix_of` urls
    /\ only_requested w w' asked.
Proof.
  unfold only_requested.
  induction urls as [|url rest IH]; intros w; simpl.
  - exists (Ok None), w, []. rewrite app_nil_r. auto 10.
  - unfold bind, TleStore.http_request.
    set (w1 := World (ledger w) (fs w) (ticks w) (requests w ++ [url]) (history w)).
    assert (Hstop : forall r, exists (r' : result (option (string * string * string)))
              w' asked, (r, w1) = (r', w') /\ asked `prefix_of` url :: rest
              /\ ledger w' = ledger w /\ fs w' = fs w /\ ticks w' = ticks w
              /\ history w' = history w /\ requests w' = requests w ++ asked).
    { intros r. exists r, w1, [url]. split; [reflexivity|].
      split; [by apply prefix_cons, prefix_nil|]. simpl. auto. }
    assert (Hnext : exists (r' : result (option (string * string * string)))
              w' asked, TleStore.celestrak_loop E catnr rest w1 = (r', w')
              /\ asked `prefix_of` url :: rest
              /\ ledger w' = ledger w /\ fs w' = fs w /\ ticks w' = ticks w
              /\ history w' = history w /\ requests w' = requests w ++ asked).
    { destruct (IH w1) as (r & w' & asked & Hrun & Hpre & Hl & Hf & Ht & Hh & Hr).
      exists r, w', (url :: asked). split; [exact Hrun|].
      split; [by apply prefix_cons|]. simpl in *.
      rewrite Hr, <- app_assoc. auto. }
    destruct (http_get E (List.length (requests w)) url) as [|status text]; simpl.
    { apply Hstop. }
    destruct (status =? 403); [exact Hnext|].
    destruct (TleStore.is_success status); simpl; [|apply Hstop].
    destruct (TleStore._parse_tle_text_any text catnr); [apply Hstop|exact Hnext].
Qed.

Lemma fetch_celestrak_total catnr w :
  exists r w' asked,
    TleStore._fetch_tle_from_celestrak E catnr w = (Ok r, w')
    /\ asked `prefix_of` TleStore.celestrak_urls catnr
    /\ only_requested w w' asked.
Proof.
  unfold TleStore._fetch_tle_from_celestrak, try_except.
  destruct (celestrak_loop_requests catnr (TleStore.celestrak_urls catnr) w)
    as (r & w' & asked & Hrun & Hpre & Hframe).
  rewrite Hrun. destruct r as [r|e]; eauto 10.
Qed.

Lemma refresh_gated catnr w :
  gated E w catnr = true ->
  TleStore.refresh_tle_best_effort E catnr w = (Ok false, read_clock w).
Proof.
  unfold gated, TleStore.refresh_tle_best_effort, bind, TleStore._now_utc,
    TleStore.ledger_get; simpl.
  destruct (ledger w !! catnr) as [t|]; [|discriminate].
  intros ->. reflexivity.
Qed.

(** A call that passes the gate records the attempt, asks SatNOGS, then, if
    need be, the CelesTrak hostnames in order; it never raises, and when it
    returns [False] no file operation has taken place. *)
Lemma refresh_attempt catnr w :
  gated E w catnr = false ->
  exists b w' asked,
    TleStore.refresh_tle_best_effort E catnr w = (Ok b, w')
    /\ asked `prefix_of` TleStore.celestrak_urls catnr
    /\ requests w' = requests w ++ TleStore.satnogs_url catnr :: asked
    /\ ledger w' = <[catnr := clock E (ticks w)]> (ledger w)
    /\ (b = false -> fs w' = fs w /\ history w' = history w
                     /\ ticks w' = S (ticks w)).
Proof.
  unfold gated, TleStore.refresh_tle_best_effort.
  unfold bind at 1. unfold TleStore._now_utc at 1.
  unfold bind at 1. unfold TleStore.ledger_get at 1. simpl.
  intros Hgate. rewrite Hgate.
  unfold bind at 1. unfold TleStore.ledger_set at 1. simpl.
  set (w1 := World _ _ _ _ _).
  unfold bind at 1.
  destruct (fetch_satnogs_total catnr w1) as (sn & w2 & Hsn & Hl2 & Hf2 & Ht2 & Hh2 & Hr2).
  rewrite Hsn. destruct sn as [[[name line1] line2]|].
  - unfold bind at 1.
    rewrite (atomic_write_tle_effect E). cbv zeta.
    unfold bind at 1. rewrite (write_meta_effect E). cbv zeta. unfold ret.
    do 2 eexists. exists []. split; [reflexivity|]. simpl.
    split; [apply prefix_nil|]. rewrite Hr2, Hl2. simpl.
    split; [reflexivity|]. split; [reflexivity|]. discriminate.
  - unfold bind at 1.
    destruct (fetch_celestrak_total catnr w2)
      as (cel & w3 & asked & Hcel & Hpre & Hl3 & Hf3 & Ht3 & Hh3 & Hr3).
    rewrite Hcel. destruct cel as [[[name line1] line2]|].
    + unfold bind at 1.
      rewrite (atomic_write_tle_effect E). cbv zeta.
      unfold bind at 1. rewrite (write_meta_effect E). cbv zeta. unfold ret.
      do 2 eexists. exists asked. split; [reflexivity|]. simpl.
      split; [exact Hpre|]. rewrite Hr3, Hr2, Hl3, Hl2, <- app_assoc. simpl.
      split; [reflexivity|]. split; [reflexivity|]. discriminate.
    + unfold ret. exists false, w3, asked. split; [reflexivity|].
      split; [exact Hpre|]. rewrite Hr3, Hr2, Hl3, Hl2, <- app_assoc. simpl.
      split; [reflexivity|]. split; [reflexivity|]. intros _.
      rewrite Hf3, Hf2, Hh3, Hh2, Ht3, Ht2. auto.
Qed.

Lemma refresh_outcome (catnr : Z) (w : world) :
  exists b w',
    TleStore.refresh_tle_best_effort E catnr w = (Ok b, w')
    /\ (sources_exhausted E catnr w -> b = false)
    /\ (b = false -> gated E w catnr = true \/ sources_exhausted E catnr w)
    /\ (b = false -> fs w' = fs w /\ history w' = history w).
Proof.
  destruct (gated E w catnr) eqn:Hgate.
  { exists false, (read_clock w). split; [by apply refresh_gated|]. auto. }
  pose proof Hgate as Hopen.
  unfold TleStore.refresh_tle_best_effort.
  unfold bind at 1. unfold TleStore._now_utc at 1.
  unfold bind at 1. unfold TleStore.ledger_get at 1. cbn [ledger ticks].
  unfold gated in Hgate. rewrite Hgate.
  unfold bind at 1. unfold TleStore.ledger_set at 1.
  cbn [ledger fs ticks requests history].
  change (World (<[catnr:=clock E (ticks w)]> (ledger w)) (fs w) (S (ticks w))
            (requests w) (history w)) with (attempted E catnr w).
  unfold bind at 1.
  destruct (fetch_satnogs_total catnr (attempted E catnr w))
    as (sn & w2 & Hsn & Hl2 & Hf2 & Ht2 & Hh2 & Hr2).
  rewrite Hsn. destruct sn as [[[name line1] line2]|].
  - unfold bind at 1.
    rewrite (atomic_write_tle_effect E). cbv zeta.
    unfold bind at 1. rewrite (write_meta_effect E). cbv zeta. unfold ret.
    eexists true, _. split; [reflexivity|].
    split; [|split; discriminate].
    intros (_ & w2' & w3' & Hnone & _). rewrite Hsn in Hnone. discriminate.
  - unfold bind at 1.
    destruct (fetch_celestrak_total catnr w2)
      as (cel & w3 & asked & Hcel & Hpre & Hl3 & Hf3 & Ht3 & Hh3 & Hr3).
    rewrite Hcel. destruct cel as [[[name line1] line2]|].
    + unfold bind at 1.
      rewrite (atomic_write_tle_effect E). cbv zeta.
      unfold bind at 1. rewrite (write_meta_effect E). cbv zeta. unfold ret.
      eexists true, _. split; [reflexivity|].
      split; [|split; discriminate].
      intros (_ & w2' & w3' & Hnone & Hnone').
      rewrite Hsn in Hnone. injection Hnone as <-.
      rewrite Hcel in Hnone'. discriminate.
    + unfold ret. exists false, w3. split; [reflexivity|].
      split; [reflexivity|]. split; [right; split; eauto|].
      intros _. rewrite Hf3, Hf2, Hh3, Hh2. auto.
Qed.

(** C8: when refresh has passed the gate and every source is exhausted
    (SatNOGS and then CelesTrak deliver nothing) it returns failure, and
    the element file, the metadata file and every other file are as they
    were: no file operation has been performed.  The same holds of every
    call that returns failure, which happens in no other case but that of
    the cooldown gate. *)
Theorem refresh_failure_keeps_slot (catnr : Z) (w : world) :
  (sources_exhausted E catnr w ->
   exists w', TleStore.refresh_tle_best_effort E catnr w = (Ok false, w')
              /\ fs w' = fs w /\ history w' = history w)
  /\ (forall w', TleStore.refresh_tle_best_effort E catnr w = (Ok false, w') ->
                 (gated E w catnr = true \/ sources_exhausted E catnr w)
                 /\ fs w' = fs w /\ history w' = history w).
Proof.
  destruct (refresh_outcome catnr w) as (b & w0 & Hrun & Hfail & Hwhy & Hkeep).
  split.
  - intros Hex. rewrite (Hfail Hex) in Hrun. exists w0. split; [exact Hrun|].
    apply Hkeep, Hfail, Hex.
  - intros w' Hfalse. rewrite Hrun in Hfalse. injection Hfalse as -> <-.
    split; [by apply Hwhy|]. by apply Hkeep.
Qed.

(** C6 (amended): after a refresh call that passes the gate, a second call
    for the same catalog number less than the cooldown later returns failure
    at once, without a request and without touching ledger or files.  The
    requests of the two calls together are those of the first: SatNOGS,
    then the CelesTrak hostnames as far as it got. *)
Theorem cooldown_gate (catnr : Z) (w w1 : world) (r1 : result bool) :
  gated E w catnr = false ->
  TleStore.refresh_tle_best_effort E catnr w = (r1, w1) ->
  clock E (ticks w1) - clock E (ticks w) < TleStore._REFRESH_COOLDOWN ->
  (exists asked,
      asked `prefix_of` TleStore.celestrak_urls catnr
      /\ requests w1 = requests w ++ TleStore.satnogs_url catnr :: asked)
  /\ TleStore.refresh_tle_best_effort E catnr w1 = (Ok false, read_clock w1).
Proof.
  intros Hopen Hrun Hsoon.
  destruct (refresh_attempt catnr w Hopen) as (b & w' & asked & Hrun' & Hpre & Hreq & Hled & _).
  rewrite Hrun in Hrun'. injection Hrun' as -> ->.
  split; [eauto|].
  apply refresh_gated. unfold gated. rewrite Hled, lookup_insert_eq.
  apply Z.ltb_lt. exact Hsoon.
Qed.

End Refresh.

(** Without network, a refresh of the ISS slot of [Demo.seeded] exhausts
    its sources, fails and leaves the data directory as it was. *)
Lemma refresh_failure_keeps_slot_witness :
  exists w',
    TleStore.refresh_tle_best_effort Demo.offline 25544 Demo.seeded = (Ok false, w')
    /\ fs w' = fs Demo.seeded /\ history w' = history Demo.seeded.
Proof.
  apply (refresh_failure_keeps_slot Demo.offline 25544 Demo.seeded).
  split; [reflexivity|]. eexists _, _. split; reflexivity.
Defined.

Lemma cooldown_gate_witness :
  let w1 := snd (TleStore.refresh_tle_best_effort Demo.offline 25544 Demo.empty_world) in
  (exists asked,
      asked `prefix_of` TleStore.celestrak_urls 25544
      /\ requests w1
         = (requests Demo.empty_world ++ TleStore.satnogs_url 25544 :: asked)%list)
  /\ TleStore.refresh_tle_best_effort Demo.offline 25544 w1 = (Ok false, read_clock w1).
Proof.
  apply (cooldown_gate Demo.offline 25544 Demo.empty_world _
           (fst (TleStore.refresh_tle_best_effort Demo.offline 25544 Demo.empty_world))).
  - reflexivity.
  - apply surjective_pairing.
  - vm_compute. reflexivity.
Defined.

(** C6 (counterexample): two refresh calls one second apart; the first
    contacts SatNOGS and both CelesTrak hostnames. *)
Lemma first_refresh_contacts_every_source :
  let w1 := snd (TleStore.refresh_tle_best_effort Demo.forbidden 25544 Demo.empty_world) in
  let w2 := snd (TleStore.refresh_tle_best_effort Demo.forbidden 25544 w1) in
  clock Demo.forbidden (ticks w1) - clock Demo.forbidden (ticks Demo.empty_world)
  < TleStore._REFRESH_COOLDOWN
  /\ requests w2
     = [ "https://db.satnogs.org/api/tle/?norad_cat_id=25544";
         "https://celestrak.org/NORAD/elements/gp.php?CATNR=25544&FORMAT=TLE";
         "https://celestrak.com/NORAD/elements/gp.php?CATNR=25544&FORMAT=TLE" ].
Proof. split; [vm_compute; reflexivity | reflexivity]. Qed.

(** A refresh with every source exhausted: failure, files untouched. *)
Example refresh_exhausted_keeps_element_file :
  let w := World ∅ {[ TleStore._tle_path 25544 := File Demo.iss_text 0 ]} 0 [] [] in
  let out := TleStore.refresh_tle_best_effort Demo.forbidden 25544 w in
  fst out = Ok false /\ fs (snd out) = fs w /\ history (snd out) = [].
Proof. split; [reflexivity|]. split; reflexivity. Qed.

(** ** The element store: reads and the resolver *)

Section ReadPath.

Variable E : externals.

Lemma path_exists_effect p w :
  TleStore.path_exists p w
  = (Ok (match fs w !! p with Some _ => true | None => false end), w).
Proof. unfold TleStore.path_exists. destruct (fs w !! p); reflexivity. Qed.

Lemma read_meta_effect catnr w :
  TleStore._read_meta E catnr w = (Ok (stored_meta E catnr w), w).
Proof.
  unfold TleStore._read_meta, stored_meta, bind, try_except, TleStore.read_text.
  rewrite path_exists_effect.
  destruct (fs w !! TleStore._meta_path catnr) as [f|] eqn:Hf; simpl;
    [|reflexivity].
  rewrite Hf. destruct (json_loads E (content f)); reflexivity.
Qed.

Lemma needs_refresh_total catnr w :
  exists b w', TleStore._needs_refresh E catnr w = (Ok b, w')
               /\ fs w' = fs w /\ ledger w' = ledger w.
Proof.
  unfold TleStore._needs_refresh. unfold bind at 1. rewrite read_meta_effect.
  destruct (Json.truthy (stored_meta E catnr w)); simpl.
  - unfold try_except, bind, lift.
    destruct (TleStore.subscript _ _); [|eauto].
    destruct (TleStore.py_fromisoformat E a); simpl; eauto.
  - unfold bind, TleStore.stat_mtime. rewrite path_exists_effect.
    destruct (fs w !! TleStore._tle_path catnr) as [f|] eqn:Hf; simpl;
      rewrite ?Hf; simpl; eauto.
Qed.

Lemma auto_refresh_total allow_network catnr w :
  exists w', auto_refresh E allow_network catnr w = (Ok tt, w').
Proof.
  unfold auto_refresh. destruct allow_network; [|unfold ret; eauto].
  unfold bind at 1.
  destruct (needs_refresh_total catnr w) as (b & w1 & -> & _).
  destruct b; [|unfold ret; eauto].
  unfold bind, ret.
  destruct (gated E w1 catnr) eqn:Hgate.
  - rewrite (refresh_gated E _ _ Hgate). eauto.
  - destruct (refresh_attempt E catnr w1 Hgate) as (b & w2 & asked & -> & _). eauto.
Qed.

Lemma read_tle_file_effect p catnr w f :
  fs w !! p = Some f ->
  TleStore._read_tle_file p catnr w = (parse_element_text (content f) catnr, w).
Proof.
  intros Hf. unfold TleStore._read_tle_file, parse_element_text, bind,
    TleStore.read_text. rewrite Hf.
  destruct (PyStr.nonblank_stripped_lines (content f)) as [|name [|line1 [|line2 rest]]];
    try reflexivity.
  cbv zeta. destruct (negb _ || negb _); [reflexivity|].
  unfold lift. destruct (TleStore._parse_catnr_from_line1 _) as [found|e];
    [|reflexivity].
  destruct (negb (found =? catnr)); reflexivity.
Qed.

Lemma resolver_reads_element_file key allow_network catnr w w1 f :
  TleStore.satellites_get (PyStr.upper (PyStr.strip key)) TleStore.SATELLITES
  = Some catnr ->
  auto_refresh E allow_network catnr w = (Ok tt, w1) ->
  fs w1 !! TleStore._tle_path catnr = Some f ->
  TleStore.get_satellite_by_key E key allow_network w
  = (match parse_element_text (content f) catnr with
     | Ok tle => Ok (PyStr.upper (PyStr.strip key), catnr, tle)
     | Raise e => Raise e
     end, w1).
Proof.
  intros Hkey Hauto Hf. unfold TleStore.get_satellite_by_key. rewrite Hkey.
  unfold bind at 1. fold (auto_refresh E allow_network catnr). rewrite Hauto.
  unfold bind at 1. rewrite path_exists_effect, Hf. simpl.
  unfold bind. rewrite (read_tle_file_effect _ _ _ _ Hf).
  destruct (parse_element_text (content f) catnr); reflexivity.
Qed.

End ReadPath.

(** C3 (counterexample): an element file whose first line of elements names
    another catalog number makes the resolver raise. *)
Lemma corrupt_element_file_is_a_hard_error :
  let text := tle_text "HST" "1 20580U 90037B   24001.5" "2 20580  28.47" in
  let w := World ∅ {[ TleStore._tle_path 25544 := File text 0 ]} 0 [] [] in
  TleStore.get_satellite_by_key Demo.offline "ISS" false w
  = (Raise (ValueError (catnr_mismatch 20580)), w).
Proof. reflexivity. Qed.

(** ** The free-text locator *)

Lemma first_some_elem {A B} (f : A -> option B) (l : list A) (y : B) :
  TleStore.first_some f l = Some y -> exists x, x ∈ l /\ f x = Some y.
Proof.
  induction l as [|x rest IH]; simpl; [discriminate|].
  destruct (f x) as [y'|] eqn:Hfx; simpl.
  - intros Hsame. injection Hsame as ->. exists x. split; [left|exact Hfx].
  - intros Hrest. destruct (IH Hrest) as (x' & Hin & Hx').
    exists x'. split; [by right|exact Hx'].
Qed.

(** Whatever the locator returns is three consecutive non-blank lines of
    the payload: the name is always the line before the matching one, and
    the "CATNR <n>" placeholder is never produced. *)
Lemma locator_returns_consecutive_lines
    (extract : string -> result Z) (text : string) (catnr : Z)
    (name line1 line2 : string) :
  TleStore.locate extract text catnr = Some (name, line1, line2) ->
  exists i : nat,
    let lines := PyStr.nonblank_stripped_lines text in
    lines !! i = Some name
    /\ lines !! S i = Some line1
    /\ lines !! S (S i) = Some line2
    /\ PyStr.startswith line1 "1 " = true
    /\ extract line1 = Ok catnr
    /\ PyStr.startswith line2 "2 " = true.
Proof.
  unfold TleStore.locate. intros Hfound.
  apply first_some_elem in Hfound as (i & Hin & Hat).
  unfold TleStore.range in Hin. apply list_elem_of_In, in_seq in Hin.
  destruct i as [|i]; [lia|].
  unfold TleStore.locate_at in Hat.
  rewrite Nat.add_1_r in Hat.
  replace (S i - 1)%nat with i in Hat by lia.
  replace (0 <=? Z.of_nat (S i) - 1) with true in Hat
    by (symmetry; apply Z.leb_le; lia).
  destruct (PyStr.nonblank_stripped_lines text !! S i) as [l1|] eqn:H1;
    [|discriminate].
  destruct (PyStr.startswith l1 "1 ") eqn:Hp1; simpl in Hat; [|discriminate].
  destruct (extract l1) as [found|] eqn:Hx; [|discriminate].
  destruct (Z.eqb_spec found catnr) as [->|]; simpl in Hat; [|discriminate].
  destruct (PyStr.nonblank_stripped_lines text !! S (S i)) as [l2|] eqn:H2;
    [|discriminate].
  destruct (PyStr.startswith l2 "2 ") eqn:Hp2; simpl in Hat; [|discriminate].
  destruct (PyStr.nonblank_stripped_lines text !! i) as [l0|] eqn:H0.
  - simpl in Hat. injection Hat as <- <- <-. exists i. simpl.
    rewrite H0, H1, H2. auto 10.
  - apply lookup_ge_None in H0. apply lookup_lt_Some in H1. lia.
Qed.

Lemma locator_returns_consecutive_lines_witness :
  exists i : nat,
    let lines := PyStr.nonblank_stripped_lines Demo.iss_text in
    lines !! i = Some Demo.iss_name
    /\ lines !! S i = Some Demo.iss_line1
    /\ lines !! S (S i) = Some Demo.iss_line2
    /\ PyStr.startswith Demo.iss_line1 "1 " = true
    /\ TleStore._parse_catnr_from_line1 Demo.iss_line1 = Ok 25544
    /\ PyStr.startswith Demo.iss_line2 "2 " = true.
Proof.
  apply (locator_returns_consecutive_lines TleStore._parse_catnr_from_line1
           Demo.iss_text 25544 Demo.iss_name Demo.iss_line1 Demo.iss_line2).
  vm_compute. reflexivity.
Defined.

(** C5: the locator on a payload whose first non-blank line is the matching
    "1 " line finds nothing, where the claim promises the record under the
    name "CATNR 25544"; with a name line before it the record is found by
    the locator of tle_store.py, and not by the one of tle_service.py,
    which reads the catalog number with [int()] and fails on "25544U". *)
Theorem locator_misses_leading_element_line :
  TleStore._parse_tle_text_any
    (Demo.iss_line1 ++ TleStore.nl ++ Demo.iss_line2 ++ TleStore.nl) 25544 = None
  /\ TleStore._parse_tle_text_any Demo.iss_text 25544
     = Some (Demo.iss_name, Demo.iss_line1, Demo.iss_line2)
  /\ TleService._parse_tle_text_any Demo.iss_text 25544 = None.
Proof. split; [|split]; vm_compute; reflexivity. Qed.

(** ** Staleness *)

Section Staleness.

Variable E : externals.

Lemma ttl_whole_seconds (d : Z) :
  ~ (TleStore.TLE_TTL < d < TleStore.TLE_TTL + PyNum.seconds 1) ->
  (TleStore.TLE_TTL <? d)
  = (PyNum.int_total_seconds TleStore.TLE_TTL <? PyNum.int_total_seconds d).
Proof.
  unfold TleStore.TLE_TTL, PyNum.hours, PyNum.minutes, PyNum.seconds,
    PyNum.int_total_seconds.
  change (Z.quot (60 * (60 * 6) * 1000000) 1000000) with 21600.
  intros Hgap.
  destruct (Z.ltb_spec (60 * (60 * 6) * 1000000) d) as [Hold|Hyoung];
    symmetry.
  - apply Z.ltb_lt.
    pose proof (Z.quot_le_mono 21601000000 d 1000000) as Hq.
    change (Z.quot 21601000000 1000000) with 21601 in Hq. lia.
  - apply Z.ltb_ge.
    pose proof (Z.quot_le_mono d 21600000000 1000000) as Hq.
    change (Z.quot 21600000000 1000000) with 21600 in Hq. lia.
Qed.

Lemma tle_age_fallback catnr w :
  Json.truthy (stored_meta E catnr w) = false ->
  TleStore.tle_age_seconds E catnr w
  = match fs w !! TleStore._tle_path catnr with
    | Some f => (Ok (Some (PyNum.int_total_seconds (clock E (ticks w) - mtime f))),
                 read_clock w)
    | None => (Ok None, w)
    end.
Proof.
  intros Hfalsy. unfold TleStore.tle_age_seconds.
  unfold bind at 1. rewrite read_meta_effect, Hfalsy.
  unfold bind, ret, TleStore.stat_mtime. rewrite path_exists_effect.
  destruct (fs w !! TleStore._tle_path catnr) as [f|] eqn:Hf; simpl;
    rewrite ?Hf; reflexivity.
Qed.

Lemma needs_refresh_with_stamp catnr w entries s dt :
  stored_meta E catnr w = Json.Dict entries ->
  Json.truthy (Json.Dict entries) = true ->
  Json.lookup_entry "fetched_at_utc" entries = Some (Json.Str s) ->
  fromisoformat E s = Some dt ->
  TleStore._needs_refresh E catnr w
  = (Ok (TleStore.TLE_TTL <? clock E (ticks w) - TleStore.instant dt),
     read_clock w).
Proof.
  intros Hmeta Htruthy Hstamp Hparse. unfold TleStore._needs_refresh.
  unfold bind at 1. rewrite read_meta_effect, Hmeta, Htruthy.
  unfold try_except, bind, lift, TleStore.subscript, TleStore.py_fromisoformat.
  rewrite Hstamp, Hparse. reflexivity.
Qed.

Lemma tle_age_with_stamp catnr w entries s dt :
  stored_meta E catnr w = Json.Dict entries ->
  Json.truthy (Json.Dict entries) = true ->
  Json.lookup_entry "fetched_at_utc" entries = Some (Json.Str s) ->
  PyStr.is_empty s = false ->
  fromisoformat E s = Some dt ->
  TleStore.tle_age_seconds E catnr w
  = (Ok (Some (PyNum.int_total_seconds
                 (clock E (ticks w) - TleStore.instant dt))),
     read_clock w).
Proof.
  intros Hmeta Htruthy Hstamp Hfull Hparse. unfold TleStore.tle_age_seconds.
  unfold bind at 1. rewrite read_meta_effect, Hmeta, Htruthy.
  unfold try_except, bind, lift, ret, TleStore.method_get, TleStore.subscript,
    TleStore.py_fromisoformat, Json.dict_get.
  rewrite Hstamp. simpl. rewrite Hfull, Hparse. reflexivity.
Qed.

Lemma tle_age_by_base catnr w :
  TleStore.tle_age_seconds E catnr w
  = match age_base E catnr w with
    | Raise e => (Raise e, w)
    | Ok None => (Ok None, w)
    | Ok (Some ref) =>
        (Ok (Some (PyNum.int_total_seconds (clock E (ticks w) - ref))), read_clock w)
    end.
Proof.
  unfold age_base.
  destruct (Json.truthy (stored_meta E catnr w)) eqn:Htruthy.
  2:{ rewrite (tle_age_fallback _ _ Htruthy).
      destruct (fs w !! TleStore._tle_path catnr); reflexivity. }
  unfold TleStore.tle_age_seconds. unfold bind at 1.
  rewrite read_meta_effect, Htruthy.
  destruct (stored_meta E catnr w) as [| | | | | |entries] eqn:Hmeta;
    try reflexivity.
  unfold try_except, bind, lift, ret, TleStore.method_get, TleStore.subscript,
    TleStore.py_fromisoformat, TleStore.stat_mtime, Json.dict_get.
  assert (Hfile :
    (let! present := TleStore.path_exists (TleStore._tle_path catnr) in
     if negb present then ret None
     else
       let! mtime := TleStore.stat_mtime (TleStore._tle_path catnr) in
       let! now := TleStore._now_utc E in
       ret (Some (PyNum.int_total_seconds (now - mtime)))) w
    = match mtime <$> fs w !! TleStore._tle_path catnr with
      | Some ref =>
          (Ok (Some (PyNum.int_total_seconds (clock E (ticks w) - ref))), read_clock w)
      | None => (Ok None, w)
      end).
  { unfold bind, ret, TleStore.stat_mtime. rewrite path_exists_effect.
    destruct (fs w !! TleStore._tle_path catnr) as [f|] eqn:Hf; simpl;
      rewrite ?Hf; reflexivity. }
  unfold bind, ret, TleStore.stat_mtime in Hfile.
  destruct (Json.lookup_entry "fetched_at_utc" entries) as [x|]; simpl;
    [|exact Hfile].
  destruct (Json.truthy x) eqn:Hx; simpl; [|exact Hfile].
  destruct x as [| | | |s| |]; simpl; try exact Hfile.
  destruct (fromisoformat E s) as [dt|]; simpl; [reflexivity|exact Hfile].
Qed.

Lemma age_base_read_clock catnr w :
  age_base E catnr (read_clock w) = age_base E catnr w.
Proof. reflexivity. Qed.

Lemma is_stale_by_base catnr w :
  TleStore.is_stale E catnr w
  = match age_base E catnr w with
    | Raise e => (Raise e, w)
    | Ok None => (Ok true, w)
    | Ok (Some ref) =>
        (Ok (PyNum.int_total_seconds TleStore.TLE_TTL
             <? PyNum.int_total_seconds (clock E (ticks w) - ref)), read_clock w)
    end.
Proof.
  unfold TleStore.is_stale. unfold bind. rewrite tle_age_by_base.
  destruct (age_base E catnr w) as [[ref|]|e]; reflexivity.
Qed.

(** C10 (amended), for every state of the metadata and element files,
    taking that the timestamp parser rejects the empty string.  Metadata
    that is missing, unreadable or empty, or an object whose
    [fetched_at_utc] is a non-empty string that parses: [_needs_refresh]
    and [is_stale] return the same boolean, provided the age is not within
    the second that follows the TTL ([is_stale] counts whole seconds).  A
    metadata object whose [fetched_at_utc] is missing, not a string, empty
    or unparsable: [_needs_refresh] returns [True] whatever the files,
    [is_stale] decides by the modification time of the element file, so
    they agree exactly when that file is missing or older than the TTL.
    Metadata that is not an object: [_needs_refresh] returns [True],
    [is_stale] raises [AttributeError]. *)
Theorem needs_refresh_agrees_with_is_stale (catnr : Z) (w : world) :
  fromisoformat E EmptyString = None ->
  let meta := stored_meta E catnr w in
  let age_of ref := clock E (ticks w) - ref in
  let in_gap ref :=
    TleStore.TLE_TTL < age_of ref < TleStore.TLE_TTL + PyNum.seconds 1 in
  let stale_by_file :=
    match fs w !! TleStore._tle_path catnr with
    | None => true
    | Some f => PyNum.int_total_seconds TleStore.TLE_TTL
                <? PyNum.int_total_seconds (age_of (mtime f))
    end in
  let needs := fst (TleStore._needs_refresh E catnr w) in
  let stale := fst (TleStore.is_stale E catnr w) in
  if Json.truthy meta then
    match meta with
    | Json.Dict _ =>
        match fetched_stamp E meta with
        | Some ref => ~ in_gap ref -> exists b, needs = Ok b /\ stale = Ok b
        | None => needs = Ok true /\ stale = Ok stale_by_file
        end
    | _ => needs = Ok true /\ stale = Raise AttributeError
    end
  else
    (forall f, fs w !! TleStore._tle_path catnr = Some f -> ~ in_gap (mtime f)) ->
    exists b, needs = Ok b /\ stale = Ok b.
Proof.
  intros Hempty. cbv zeta.
  destruct (Json.truthy (stored_meta E catnr w)) eqn:Htruthy.
  - assert (Hplain : forall v,
              stored_meta E catnr w = v -> TleStore.is_dict v = false ->
              fst (TleStore._needs_refresh E catnr w) = Ok true
              /\ fst (TleStore.is_stale E catnr w) = Raise AttributeError).
    { intros v Hmeta Hnot. split.
      - unfold TleStore._needs_refresh. unfold bind at 1.
        rewrite read_meta_effect, Htruthy, Hmeta.
        destruct v; try discriminate; reflexivity.
      - rewrite is_stale_by_base. unfold age_base. rewrite Htruthy, Hmeta.
        destruct v; try discriminate; reflexivity. }
    destruct (stored_meta E catnr w) as [| | | | | |entries] eqn:Hmeta;
      try (apply (Hplain _ eq_refl); reflexivity).
    clear Hplain.
    assert (Hfile : forall base,
              age_base E catnr w = Ok (mtime <$> fs w !! TleStore._tle_path catnr) ->
              base = fst (TleStore.is_stale E catnr w) ->
              base = Ok match fs w !! TleStore._tle_path catnr with
                        | None => true
                        | Some f =>
                            PyNum.int_total_seconds TleStore.TLE_TTL
                            <? PyNum.int_total_seconds (clock E (ticks w) - mtime f)
                        end).
    { intros base Hbase ->. rewrite is_stale_by_base, Hbase.
      destruct (fs w !! TleStore._tle_path catnr); reflexivity. }
    unfold fetched_stamp.
    destruct (Json.lookup_entry "fetched_at_utc" entries) as [x|] eqn:Hstamp.
    2:{ split.
        - unfold TleStore._needs_refresh. unfold bind at 1.
          rewrite read_meta_effect, Hmeta, Htruthy.
          unfold try_except, bind, lift, TleStore.subscript. rewrite Hstamp.
          reflexivity.
        - apply Hfile; [|reflexivity]. unfold age_base.
          rewrite Hmeta, Htruthy. unfold Json.dict_get. rewrite Hstamp.
          reflexivity. }
    assert (Htrue : forall v,
              x = v ->
              match v with
              | Json.Str s => fromisoformat E s = None
              | _ => True
              end ->
              fst (TleStore._needs_refresh E catnr w) = Ok true
              /\ fst (TleStore.is_stale E catnr w)
                 = Ok match fs w !! TleStore._tle_path catnr with
                      | None => true
                      | Some f =>
                          PyNum.int_total_seconds TleStore.TLE_TTL
                          <? PyNum.int_total_seconds (clock E (ticks w) - mtime f)
                      end).
    { intros v -> Hbad. split.
      - unfold TleStore._needs_refresh. unfold bind at 1.
        rewrite read_meta_effect, Hmeta, Htruthy.
        unfold try_except, bind, lift, TleStore.subscript,
          TleStore.py_fromisoformat. rewrite Hstamp.
        destruct v; try reflexivity. rewrite Hbad. reflexivity.
      - apply Hfile; [|reflexivity]. unfold age_base.
        rewrite Hmeta, Htruthy. unfold Json.dict_get. rewrite Hstamp.
        destruct (Json.truthy v); [|reflexivity].
        destruct v; try reflexivity. rewrite Hbad. reflexivity. }
    destruct x as [| | | |s| |]; try (apply (Htrue _ eq_refl); exact I).
    destruct (PyStr.is_empty s) eqn:Hfull.
    { destruct s; [|discriminate]. apply (Htrue _ eq_refl). exact Hempty. }
    destruct (fromisoformat E s) as [dt|] eqn:Hparse;
      [|apply (Htrue _ eq_refl); exact Hparse].
    cbn [fmap option_fmap option_map]. intros Hgap.
    unfold TleStore.is_stale. unfold bind.
    rewrite (tle_age_with_stamp _ _ _ _ _ Hmeta Htruthy Hstamp Hfull Hparse).
    rewrite (needs_refresh_with_stamp _ _ _ _ _ Hmeta Htruthy Hstamp Hparse).
    simpl. eexists. split; [reflexivity|]. f_equal. symmetry.
    apply ttl_whole_seconds. exact Hgap.
  - intros Hgap. unfold TleStore.is_stale. unfold bind at 1.
    rewrite (tle_age_fallback _ _ Htruthy).
    unfold TleStore._needs_refresh. unfold bind at 1.
    rewrite read_meta_effect, Htruthy. simpl.
    unfold bind, TleStore.stat_mtime. rewrite path_exists_effect.
    destruct (fs w !! TleStore._tle_path catnr) as [f|] eqn:Hf; simpl;
      rewrite ?Hf; simpl; [|eauto].
    eexists. split; [reflexivity|]. f_equal. symmetry.
    apply ttl_whole_seconds. apply (Hgap f). reflexivity.
Qed.

End Staleness.

(** The metadata has no [fetched_at_utc] and there is no element file: both
    say [True]. *)
Lemma needs_refresh_agrees_with_is_stale_witness :
  let w := World ∅ {[ TleStore._meta_path 25544 := File Demo.stampless_meta_text 0 ]}
             0 [] [] in
  fst (TleStore._needs_refresh Demo.reading 25544 w) = Ok true
  /\ fst (TleStore.is_stale Demo.reading 25544 w) = Ok true.
Proof.
  pose proof (needs_refresh_agrees_with_is_stale Demo.reading 25544
                (World ∅ {[ TleStore._meta_path 25544
                              := File Demo.stampless_meta_text 0 ]} 0 [] [])
                eq_refl) as H.
  vm_compute in H. vm_compute. exact H.
Defined.

(** C10 (counterexample): the metadata file has no [fetched_at_utc] and the
    element file was modified one hour ago: [_needs_refresh] says [True],
    [is_stale] says [False]. *)
Lemma stampless_meta_splits_staleness :
  let w := World ∅
             {[ TleStore._meta_path 25544 := File Demo.stampless_meta_text 0;
                TleStore._tle_path 25544
                  := File Demo.iss_text (Demo.new_year - PyNum.hours 1) ]}
             0 [] [] in
  fst (TleStore._needs_refresh Demo.reading 25544 w) = Ok true
  /\ fst (TleStore.is_stale Demo.reading 25544 w) = Ok false.
Proof. split; vm_compute; reflexivity. Qed.

(** ** Ground tracks *)

Section GroundTrack.

Variable E : externals.

Local Open Scope list_scope.

Lemma track_loop_maps sat times :
  Track.track_loop E sat times
  = ((fun t => Track.Point t t
                 (PyNum.round_ndigits (fst (subpoint_degrees E sat t)) 6)
                 (PyNum.round_ndigits (snd (subpoint_degrees E sat t)) 6)) <$> times,
     (fun t => (snd (subpoint_degrees E sat t), fst (subpoint_degrees E sat t)))
       <$> times).
Proof.
  induction times as [|t rest IH]; [reflexivity|]. simpl. rewrite IH.
  destruct (subpoint_degrees E sat t). reflexivity.
Qed.

(** What [compute_track] returns once the satellite is resolved and both
    bounds are parsed. *)
Lemma compute_track_outcome key start_utc end_utc step w k catnr sat w1 s e :
  TleStore.get_satellite_by_key E key true w = (Ok (k, catnr, sat), w1) ->
  Passes._parse_iso_utc E start_utc = Ok s ->
  Passes._parse_iso_utc E end_utc = Ok e ->
  Track.compute_track E key start_utc end_utc step w
  = (if e <=? s then Raise (ValueError end_not_after_start)
     else if step =? 0 then Raise ZeroDivisionError
     else
       let times := Track.linspace s e (Z.to_nat (Track.sample_count s e step)) in
       Ok (Track.TrackResult (k, catnr) s e step
             (fst (Track.track_loop E sat times))
             (snd (Track.track_loop E sat times))),
     w1).
Proof.
  intros Hres Hs He. unfold Track.compute_track, bind, lift.
  rewrite Hres, Hs, He.
  destruct (e <=? s); [reflexivity|].
  destruct (step =? 0); [reflexivity|]. cbv zeta.
  destruct (Track.track_loop E sat _). reflexivity.
Qed.

Lemma linspace_lookup t0 t1 n i :
  (i < n)%nat ->
  Track.linspace t0 t1 n !! i
  = Some (inject_Z t0
          + inject_Z (Z.of_nat i) * inject_Z (t1 - t0)
            / inject_Z (Z.of_nat n - 1))%Q.
Proof.
  intros Hi. unfold Track.linspace.
  rewrite list_lookup_fmap, lookup_seq_lt by exact Hi. reflexivity.
Qed.

Lemma linspace_length t0 t1 n : List.length (Track.linspace t0 t1 n) = n.
Proof. unfold Track.linspace. rewrite length_fmap. apply length_seq. Qed.

Lemma sample_count_at_least_two s e step : 2 <= Track.sample_count s e step.
Proof. unfold Track.sample_count. lia. Qed.

Lemma times_loop_unfold t end_dt step :
  TrackNow.times_loop t end_dt step
  = if t <=? end_dt
    then t :: TrackNow.times_loop (t + Z.pos step) end_dt step
    else [].
Proof.
  rewrite TrackNow.times_loop_equation_1.
  destruct (Z_le_dec t end_dt) as [Hle|Hgt]; simpl.
  - apply Z.leb_le in Hle. rewrite Hle. reflexivity.
  - apply Z.nle_gt, Z.leb_gt in Hgt. rewrite Hgt. reflexivity.
Qed.

(** The loop yields [t, t + step, ...] as long as the bound is not passed. *)
Lemma times_loop_closed_form step (n : nat) :
  forall t end_dt,
    t <= end_dt + Z.pos step ->
    Z.of_nat n = (end_dt + Z.pos step - t) / Z.pos step ->
    TrackNow.times_loop t end_dt step
    = (fun k : nat => t + Z.of_nat k * Z.pos step) <$> seq 0 n.
Proof.
  induction n as [|n IH]; intros t end_dt Hbound Hn; rewrite times_loop_unfold.
  - assert (end_dt + Z.pos step - t < Z.pos step).
    { destruct (Z.lt_ge_cases (end_dt + Z.pos step - t) (Z.pos step)); [assumption|].
      pose proof (Z.div_le_lower_bound (end_dt + Z.pos step - t) (Z.pos step) 1).
      lia. }
    replace (t <=? end_dt) with false by (symmetry; apply Z.leb_gt; lia).
    reflexivity.
  - assert (Hle : t <= end_dt).
    { destruct (Z.le_gt_cases t end_dt); [assumption|].
      rewrite Z.div_small in Hn by lia. lia. }
    replace (t <=? end_dt) with true by (symmetry; apply Z.leb_le; lia).
    rewrite (IH (t + Z.pos step) end_dt).
    + simpl. f_equal; [lia|].
      rewrite <- fmap_S_seq, <- list_fmap_compose.
      apply list_fmap_ext. intros _ k _. simpl. lia.
    + lia.
    + replace (end_dt + Z.pos step - (t + Z.pos step))
        with (end_dt + Z.pos step - t + (-1) * Z.pos step) by lia.
      rewrite Z.div_add by lia. lia.
Qed.


Lemma compute_track_now_outcome key minutes step w k catnr sat w1 :
  1 <= minutes <= 180 ->
  TleStore.get_satellite_by_key E key true w = (Ok (k, catnr, sat), w1) ->
  let start_dt := clock E (ticks w1) in
  let end_dt := start_dt + PyNum.minutes minutes in
  let points :=
    TrackNow.points_of E sat
      (TrackNow.times_loop start_dt end_dt (step * 1000000)%positive) in
  (Z.pos step <= 120) ->
  TrackNow.compute_track_now E key minutes (Z.pos step) w
  = (Ok (TrackNow.TrackNowResult (k, catnr) minutes (Z.pos step) start_dt end_dt
           points ((fun p => (TrackNow.lon p, TrackNow.lat p)) <$> points)),
     read_clock w1).
Proof.
  intros Hmin Hres start_dt end_dt points Hstep.
  unfold TrackNow.compute_track_now.
  replace (minutes <? 1) with false by (symmetry; apply Z.ltb_ge; lia).
  replace (180 <? minutes) with false by (symmetry; apply Z.ltb_ge; lia).
  replace (120 <? Z.pos step) with false by (symmetry; apply Z.ltb_ge; lia).
  simpl. unfold bind. rewrite Hres. reflexivity.
Qed.

Lemma times_loop_window start minutes (step : positive) :
  0 <= minutes ->
  TrackNow.times_loop start (start + PyNum.minutes minutes) (step * 1000000)%positive
  = (fun k : nat => start + Z.of_nat k * PyNum.seconds (Z.pos step))
    <$> seq 0 (Z.to_nat (60 * minutes / Z.pos step + 1)).
Proof.
  intros Hmin.
  rewrite (times_loop_closed_form _ (Z.to_nat (60 * minutes / Z.pos step + 1))).
  - apply list_fmap_ext. intros _ k _. unfold PyNum.seconds. lia.
  - unfold PyNum.minutes, PyNum.seconds. lia.
  - assert (0 <= 60 * minutes / Z.pos step) by (apply Z.div_pos; lia).
    rewrite Z2Nat.id by lia.
    unfold PyNum.minutes, PyNum.seconds.
    replace (start + 60 * minutes * 1000000 + Z.pos (step * 1000000) - start)
      with (60 * minutes * 1000000 + 1 * Z.pos (step * 1000000)) by lia.
    rewrite Z.div_add by lia.
    rewrite Pos2Z.inj_mul, Z.div_mul_cancel_r by lia. reflexivity.
Qed.

(** C2 (amended): with the satellite resolved and both bounds parsed,
    [compute_track] rejects [end <= start] (so [start = end] gives an error,
    not two samples); for [start < end] and a non-zero step it yields
    [max(2, (end - start) // step + 1)] samples, evenly spaced, the first at
    [start] and the last at [end]; for [end = start + 90 s] and a step of
    10 s these are the ten instants [start, start + 10 s, ..., start + 90 s].
    [compute_track_now], for a step no longer than the window, yields the
    instants [start + k * step] for [k = 0 .. 60 * minutes // step], at least
    two, the last one at [end] when the step divides the window. *)
Theorem ground_track_sampling
    (key start_utc end_utc : string) (w w1 : world) (k : string) (catnr : Z)
    (sat : TLE) (s e step minutes : Z) (step_now : positive) :
  TleStore.get_satellite_by_key E key true w = (Ok (k, catnr, sat), w1) ->
  Passes._parse_iso_utc E start_utc = Ok s ->
  Passes._parse_iso_utc E end_utc = Ok e ->
  (e <= s ->
   Track.compute_track E key start_utc end_utc step w
   = (Raise (ValueError end_not_after_start), w1))
  /\ (s < e -> step <> 0 ->
      exists r,
        Track.compute_track E key start_utc end_utc step w = (Ok r, w1)
        /\ let n := List.length (Track.points r) in
           Z.of_nat n = Z.max 2 (PyNum.int_total_seconds (e - s) / step + 1)
           /\ (forall (i : nat) p,
                  Track.points r !! i = Some p ->
                  (Track.t_utc p
                   == inject_Z s
                      + inject_Z (Z.of_nat i) * inject_Z (e - s)
                        / inject_Z (Z.of_nat n - 1))%Q
                  /\ (i = 0%nat -> (Track.t_utc p == inject_Z s)%Q)
                  /\ (S i = n -> (Track.t_utc p == inject_Z e)%Q))
           /\ (e = s + PyNum.seconds 90 -> step = 10 ->
               Forall2 Qeq (Track.t_utc <$> Track.points r)
                 ((fun j : Z => inject_Z (s + PyNum.seconds (10 * j)))
                    <$> [0; 1; 2; 3; 4; 5; 6; 7; 8; 9])))
  /\ (1 <= minutes <= 180 -> Z.pos step_now <= 120 ->
      Z.pos step_now <= 60 * minutes ->
      exists r,
        TrackNow.compute_track_now E key minutes (Z.pos step_now) w
        = (Ok r, read_clock w1)
        /\ let n := Z.to_nat (60 * minutes / Z.pos step_now + 1) in
           TrackNow.start_utc r = clock E (ticks w1)
           /\ TrackNow.end_utc r = TrackNow.start_utc r + PyNum.minutes minutes
           /\ TrackNow.t_utc <$> TrackNow.points r
              = (fun j : nat => TrackNow.start_utc r
                                + Z.of_nat j * PyNum.seconds (Z.pos step_now))
                <$> seq 0 n
           /\ (2 <= n)%nat
           /\ ((Z.pos step_now | 60 * minutes) ->
               list.last (TrackNow.t_utc <$> TrackNow.points r)
               = Some (TrackNow.end_utc r))).
Proof.
  intros Hres Hs He.
  pose proof (compute_track_outcome key start_utc end_utc step w k catnr sat w1 s e
                Hres Hs He) as Hout.
  split; [|split].
  - intros Hle. rewrite Hout.
    replace (e <=? s) with true by (symmetry; apply Z.leb_le; lia). reflexivity.
  - intros Hlt Hstep. rewrite Hout.
    replace (e <=? s) with false by (symmetry; apply Z.leb_gt; lia).
    replace (step =? 0) with false by (symmetry; apply Z.eqb_neq; lia).
    cbv zeta. eexists. split; [reflexivity|]. cbn [Track.points].
    rewrite track_loop_maps. cbn [fst].
    pose proof (sample_count_at_least_two s e step) as Htwo.
    assert (Hlen : List.length
              ((fun t => Track.Point t t
                           (PyNum.round_ndigits (fst (subpoint_degrees E sat t)) 6)
                           (PyNum.round_ndigits (snd (subpoint_degrees E sat t)) 6))
                 <$> Track.linspace s e (Z.to_nat (Track.sample_count s e step)))
              = Z.to_nat (Track.sample_count s e step)).
    { rewrite length_fmap. apply linspace_length. }
    rewrite Hlen. split; [|split].
    + rewrite Z2Nat.id by lia. reflexivity.
    + intros i p Hp. rewrite list_lookup_fmap in Hp.
      destruct (Track.linspace s e _ !! i) as [t|] eqn:Ht; [|discriminate].
      simpl in Hp. injection Hp as <-. cbn [Track.t_utc].
      assert (Hi : (i < Z.to_nat (Track.sample_count s e step))%nat).
      { apply lookup_lt_Some in Ht. rewrite linspace_length in Ht. exact Ht. }
      rewrite (linspace_lookup _ _ _ _ Hi) in Ht. injection Ht as <-.
      split; [reflexivity|]. split.
      * intros ->. simpl. unfold Qdiv. ring.
      * intros Hlast.
        replace (Z.of_nat (Z.to_nat (Track.sample_count s e step)) - 1)
          with (Z.of_nat i) by lia.
        assert (Hnz : ~ (inject_Z (Z.of_nat i) == 0)%Q).
        { change 0%Q with (inject_Z 0). rewrite inject_Z_injective. lia. }
        rewrite <- Z.add_opp_r, inject_Z_plus, inject_Z_opp. field. exact Hnz.
    + intros -> ->.
      replace (Track.sample_count s (s + PyNum.seconds 90) 10) with 10.
      2:{ unfold Track.sample_count, PyNum.int_total_seconds, PyNum.seconds.
          replace (s + 90 * 1000000 - s) with 90000000 by lia. reflexivity. }
      unfold Track.linspace. simpl.
      replace (s + PyNum.seconds 90 - s) with 90000000
        by (unfold PyNum.seconds; lia).
      repeat (apply Forall2_cons;
              [cbn [Track.t_utc]; rewrite inject_Z_plus;
               apply Qplus_comp; [reflexivity | vm_compute; reflexivity]|]).
      apply Forall2_nil.
  - intros Hmin Hmax Hfit.
    rewrite (compute_track_now_outcome key minutes step_now w k catnr sat w1 Hmin Hres Hmax).
    eexists. split; [reflexivity|]. cbn [TrackNow.start_utc TrackNow.end_utc TrackNow.points].
    split; [reflexivity|]. split; [reflexivity|].
    assert (Hn : 1 <= 60 * minutes / Z.pos step_now).
    { apply Z.div_le_lower_bound; lia. }
    assert (Htimes : TrackNow.t_utc <$> TrackNow.points_of E sat
                (TrackNow.times_loop (clock E (ticks w1))
                   (clock E (ticks w1) + PyNum.minutes minutes)
                   (step_now * 1000000)%positive)
              = (fun j : nat => clock E (ticks w1)
                                + Z.of_nat j * PyNum.seconds (Z.pos step_now))
                <$> seq 0 (Z.to_nat (60 * minutes / Z.pos step_now + 1))).
    { unfold TrackNow.points_of. rewrite <- list_fmap_compose.
      rewrite <- (times_loop_window _ _ _ (ltac:(lia) : 0 <= minutes)).
      rewrite <- (list_fmap_id (TrackNow.times_loop _ _ _)) at 2.
      apply list_fmap_ext. intros _ t _. simpl.
      destruct (subpoint_degrees E sat (inject_Z t)). reflexivity. }
    rewrite Htimes. split; [reflexivity|]. split; [lia|].
    intros [q Hq].
    replace (Z.to_nat (60 * minutes / Z.pos step_now + 1))
      with (S (Z.to_nat q)).
    2:{ rewrite Hq, Z.div_mul by lia. lia. }
    rewrite seq_S, fmap_app, list_fmap_singleton, list.last_snoc. simpl. f_equal.
    unfold PyNum.minutes, PyNum.seconds.
    assert (0 <= q) by nia. rewrite Z2Nat.id by lia. nia.
Qed.

End GroundTrack.

Lemma ground_track_sampling_witness :
  exists r,
    Track.compute_track Demo.offline "ISS"
      "2024-01-01T00:00:00Z" "2024-01-01T00:01:30Z" 10 Demo.seeded
    = (Ok r, read_clock Demo.seeded)
    /\ Forall2 Qeq (Track.t_utc <$> Track.points r)
         ((fun j : Z => inject_Z (Demo.new_year + PyNum.seconds (10 * j)))
            <$> [0; 1; 2; 3; 4; 5; 6; 7; 8; 9]).
Proof.
  destruct (ground_track_sampling Demo.offline "ISS"
              "2024-01-01T00:00:00Z" "2024-01-01T00:01:30Z"
              Demo.seeded (read_clock Demo.seeded) "ISS" 25544 Demo.iss
              Demo.new_year (Demo.new_year + PyNum.seconds 90) 10 1 1%positive
              eq_refl eq_refl eq_refl) as (_ & Htrack & _).
  destruct Htrack as (r & Hrun & _ & _ & Hten); [reflexivity | discriminate |].
  exists r. split; [exact Hrun|]. apply Hten; reflexivity.
Defined.

Lemma demo_resolution :
  TleStore.get_satellite_by_key Demo.offline "ISS" true Demo.seeded
  = (Ok ("ISS", 25544, Demo.iss), read_clock Demo.seeded).
Proof. reflexivity. Qed.

(** One minute of track from [Demo.seeded], by the closed form of the loop. *)
Lemma demo_track_now (step : positive) :
  Z.pos step <= 120 ->
  exists r,
    TrackNow.compute_track_now Demo.offline "ISS" 1 (Z.pos step) Demo.seeded
    = (Ok r, read_clock (read_clock Demo.seeded))
    /\ TrackNow.start_utc r = Demo.new_year + PyNum.seconds 1
    /\ TrackNow.end_utc r = TrackNow.start_utc r + PyNum.seconds 60
    /\ TrackNow.t_utc <$> TrackNow.points r
       = (fun j : nat => Demo.new_year + PyNum.seconds 1
                         + Z.of_nat j * PyNum.seconds (Z.pos step))
         <$> seq 0 (Z.to_nat (60 / Z.pos step + 1))
    /\ List.length (TrackNow.coordinates r) = List.length (TrackNow.points r).
Proof.
  intros Hstep.
  rewrite (compute_track_now_outcome Demo.offline "ISS" 1 step Demo.seeded
             "ISS" 25544 Demo.iss (read_clock Demo.seeded)
             ltac:(lia) demo_resolution Hstep).
  eexists. split; [reflexivity|].
  cbn [TrackNow.start_utc TrackNow.end_utc TrackNow.points TrackNow.coordinates].
  split; [reflexivity|]. split; [reflexivity|].
  split; [|by rewrite length_fmap].
  unfold TrackNow.points_of. rewrite <- list_fmap_compose.
  rewrite (times_loop_window _ 1 step ltac:(lia)).
  rewrite <- list_fmap_compose. reflexivity.
Qed.

(** C2 (counterexample): [start = end] is rejected by [compute_track]
    instead of yielding two samples, and [compute_track_now] with a step
    of 7 s over one minute stops at [start + 56 s], short of [end]. *)
Lemma degenerate_window_rejected :
  fst (Track.compute_track Demo.offline "ISS"
         "2024-01-01T00:00:00Z" "2024-01-01T00:00:00Z" 10 Demo.seeded)
  = Raise (ValueError end_not_after_start)
  /\ exists r,
       fst (TrackNow.compute_track_now Demo.offline "ISS" 1 7 Demo.seeded) = Ok r
       /\ TrackNow.end_utc r = TrackNow.start_utc r + PyNum.seconds 60
       /\ list.last (TrackNow.t_utc <$> TrackNow.points r)
          = Some (TrackNow.start_utc r + PyNum.seconds 56).
Proof.
  split; [reflexivity|].
  destruct (demo_track_now 7 ltac:(lia)) as (r & Hrun & Hstart & Hend & Htimes & _).
  exists r. rewrite Hrun. split; [reflexivity|]. split; [exact Hend|].
  rewrite Htimes, Hstart. reflexivity.
Qed.

(** With one minute of window and a step longer than that, between 61 and
    120 seconds, [compute_track_now] yields one sample, the start instant,
    and a polyline of one coordinate, for every satellite it resolves. *)
Theorem track_now_single_sample
    (E : externals) (key : string) (step : positive) (w w1 : world)
    (k : string) (catnr : Z) (sat : TLE) :
  TleStore.get_satellite_by_key E key true w = (Ok (k, catnr, sat), w1) ->
  60 < Z.pos step <= 120 ->
  exists r,
    TrackNow.compute_track_now E key 1 (Z.pos step) w = (Ok r, read_clock w1)
    /\ TrackNow.t_utc <$> TrackNow.points r = [TrackNow.start_utc r]
    /\ List.length (TrackNow.coordinates r) = 1%nat.
Proof.
  intros Hres Hstep.
  assert (Hmin : 1 <= 1 <= 180) by lia.
  assert (Hmax : Z.pos step <= 120) by lia.
  rewrite (compute_track_now_outcome E key 1 step w k catnr sat w1 Hmin Hres Hmax).
  eexists. split; [reflexivity|].
  cbn [TrackNow.start_utc TrackNow.points TrackNow.coordinates].
  rewrite length_fmap. unfold TrackNow.points_of.
  rewrite length_fmap, <- list_fmap_compose.
  assert (Hpos : 0 <= 1) by lia.
  rewrite (times_loop_window _ 1 step Hpos).
  replace (60 * 1 / Z.pos step) with 0 by (symmetry; apply Z.div_small; lia).
  change (Z.to_nat (0 + 1)) with 1%nat. cbn [seq fmap list_fmap length].
  split; [|reflexivity]. unfold compose.
  destruct (subpoint_degrees E sat _). cbn [TrackNow.t_utc]. f_equal. lia.
Qed.

Lemma track_now_single_sample_witness :
  exists r,
    TrackNow.compute_track_now Demo.offline "ISS" 1 (Z.pos 120) Demo.seeded
    = (Ok r, read_clock (read_clock Demo.seeded))
    /\ TrackNow.t_utc <$> TrackNow.points r = [TrackNow.start_utc r]
    /\ List.length (TrackNow.coordinates r) = 1%nat.
Proof.
  apply (track_now_single_sample Demo.offline "ISS" 120 Demo.seeded
           (read_clock Demo.seeded) "ISS" 25544 Demo.iss).
  - reflexivity.
  - lia.
Defined.

Section Polyline.

Variable E : externals.

Lemma compute_track_ok_inv key start_utc end_utc step w r w1 :
  Track.compute_track E key start_utc end_utc step w = (Ok r, w1) ->
  exists sat times,
    Track.points r = fst (Track.track_loop E sat times)
    /\ Track.coordinates r = snd (Track.track_loop E sat times).
Proof.
  unfold Track.compute_track, bind, lift.
  destruct (TleStore.get_satellite_by_key E key true w) as [[[[k catnr] sat]|?] w0];
    [|discriminate].
  destruct (Passes._parse_iso_utc E start_utc) as [s|]; [|discriminate].
  destruct (Passes._parse_iso_utc E end_utc) as [e|]; [|discriminate].
  destruct (e <=? s); [discriminate|].
  destruct (step =? 0); [discriminate|].
  destruct (Track.track_loop E sat _) as [points coords] eqn:Hloop.
  unfold ret. intros Hrun. injection Hrun as <- <-.
  exists sat. eexists. rewrite Hloop. auto.
Qed.

Lemma compute_track_now_ok_inv key minutes step w r w1 :
  TrackNow.compute_track_now E key minutes step w = (Ok r, w1) ->
  TrackNow.coordinates r
  = (fun p => (TrackNow.lon p, TrackNow.lat p)) <$> TrackNow.points r.
Proof.
  unfold TrackNow.compute_track_now.
  destruct ((minutes <? 1) || (180 <? minutes)); [discriminate|].
  destruct step as [|step|step]; try discriminate.
  destruct (120 <? Z.pos step); [discriminate|].
  unfold bind, ret.
  destruct (TleStore.get_satellite_by_key E key true w) as [[[[k catnr] sat]|?] w0];
    [|discriminate].
  simpl. intros Hrun. injection Hrun as <- <-. reflexivity.
Qed.

(** C9 (amended): in a result of [compute_track] the i-th coordinate of the
    polyline is the longitude and latitude under the satellite at the i-th
    sample's time, in that order and as the propagator gives them, and the
    i-th sample holds the same latitude and longitude rounded to six
    decimals; in a result of [compute_track_now] the i-th coordinate is the
    i-th sample's (rounded) longitude and latitude, in that order. *)
Theorem polyline_follows_samples
    (key start_utc end_utc key' : string) (step minutes step' : Z)
    (w w1 w' w2 : world) (r : Track.track_result) (r' : TrackNow.track_now_result) :
  Track.compute_track E key start_utc end_utc step w = (Ok r, w1) ->
  TrackNow.compute_track_now E key' minutes step' w' = (Ok r', w2) ->
  (List.length (Track.coordinates r) = List.length (Track.points r)
   /\ exists sat,
        forall (i : nat) p c,
          Track.points r !! i = Some p ->
          Track.coordinates r !! i = Some c ->
          subpoint_degrees E sat (Track.t_utc p) = (snd c, fst c)
          /\ Track.lon p = PyNum.round_ndigits (fst c) 6
          /\ Track.lat p = PyNum.round_ndigits (snd c) 6)
  /\ (List.length (TrackNow.coordinates r') = List.length (TrackNow.points r')
      /\ forall (i : nat) p c,
           TrackNow.points r' !! i = Some p ->
           TrackNow.coordinates r' !! i = Some c ->
           c = (TrackNow.lon p, TrackNow.lat p)).
Proof.
  intros Htrack Hnow. split.
  - destruct (compute_track_ok_inv _ _ _ _ _ _ _ Htrack) as (sat & times & Hp & Hc).
    rewrite Hp, Hc, track_loop_maps. cbn [fst snd].
    split; [by rewrite !length_fmap|].
    exists sat. intros i p c Hpi Hci.
    rewrite list_lookup_fmap in Hpi. rewrite list_lookup_fmap in Hci.
    destruct (times !! i) as [t|]; [|discriminate].
    simpl in Hpi, Hci. injection Hpi as <-. injection Hci as <-. simpl.
    destruct (subpoint_degrees E sat t). auto.
  - rewrite (compute_track_now_ok_inv _ _ _ _ _ _ Hnow).
    split; [by rewrite length_fmap|].
    intros i p c Hpi Hci. rewrite list_lookup_fmap, Hpi in Hci.
    simpl in Hci. injection Hci as <-. reflexivity.
Qed.

End Polyline.

Lemma polyline_follows_samples_witness :
  let r := Track.compute_track Demo.offline "ISS"
             "2024-01-01T00:00:00Z" "2024-01-01T00:01:30Z" 10 Demo.seeded in
  let r' := TrackNow.compute_track_now Demo.offline "ISS" 1 10 Demo.seeded in
  exists t t',
    fst r = Ok t /\ fst r' = Ok t'
    /\ List.length (Track.coordinates t) = List.length (Track.points t)
    /\ List.length (TrackNow.coordinates t') = List.length (TrackNow.points t').
Proof.
  cbv zeta.
  destruct (Track.compute_track Demo.offline "ISS"
              "2024-01-01T00:00:00Z" "2024-01-01T00:01:30Z" 10 Demo.seeded)
    as [[t|] w1] eqn:Htrack; [|vm_compute in Htrack; discriminate].
  destruct (TrackNow.compute_track_now Demo.offline "ISS" 1 10 Demo.seeded)
    as [[t'|] w2] eqn:Hnow.
  2:{ destruct (demo_track_now 10 ltac:(lia)) as (r0 & Hrun & _).
      rewrite Hrun in Hnow. discriminate. }
  destruct (polyline_follows_samples Demo.offline _ _ _ _ _ _ _ _ _ _ _ _ _ Htrack Hnow)
    as [[Hlen _] [Hlen' _]].
  exists t, t'. auto.
Defined.

(** C9 (counterexample): the first coordinate of a [compute_track] polyline
    is the longitude 1/3 as propagated, the first sample holds 0.333333. *)
Lemma track_polyline_is_not_rounded :
  exists r p c,
    fst (Track.compute_track Demo.offline "ISS"
           "2024-01-01T00:00:00Z" "2024-01-01T00:01:30Z" 10 Demo.seeded) = Ok r
    /\ Track.points r !! 0%nat = Some p
    /\ Track.coordinates r !! 0%nat = Some c
    /\ ~ (fst c == Track.lon p)%Q.
Proof.
  do 3 eexists. split; [vm_compute; reflexivity|].
  split; [reflexivity|]. split; [reflexivity|].
  vm_compute. discriminate.
Qed.

(** ** Further properties of the resolver and of the pipeline *)

Section ResolverEdges.

Variable E : externals.

Local Open Scope list_scope.

(** The resolver without network, spelt out. *)
Lemma resolver_offline_effect (key : string) (w : world) :
  TleStore.get_satellite_by_key E key false w
  = (match TleStore.satellites_get (PyStr.upper (PyStr.strip key)) TleStore.SATELLITES with
     | None => Raise (ValueError unknown_satellite)
     | Some catnr =>
         match fs w !! TleStore._tle_path catnr with
         | None => Raise (ValueError no_local_tle)
         | Some f =>
             match parse_element_text (content f) catnr with
             | Ok tle => Ok (PyStr.upper (PyStr.strip key), catnr, tle)
             | Raise e => Raise e
             end
         end
     end, w).
Proof.
  unfold TleStore.get_satellite_by_key.
  destruct (TleStore.satellites_get _ _) as [catnr|]; [|reflexivity].
  unfold bind at 1. unfold ret at 1.
  unfold bind at 1. rewrite path_exists_effect.
  destruct (fs w !! TleStore._tle_path catnr) as [f|] eqn:Hf; simpl; [|reflexivity].
  unfold bind. rewrite (read_tle_file_effect _ _ _ _ Hf).
  destruct (parse_element_text (content f) catnr); reflexivity.
Qed.

(** Without network access the resolver reads the element file and nothing
    else: no clock reading, no request, no ledger entry, no write; and its
    answer is the same in any two worlds that hold the same element files. *)
Theorem resolver_offline_reads_only (key : string) (w w0 : world) :
  snd (TleStore.get_satellite_by_key E key false w) = w
  /\ ((forall catnr, fs w0 !! TleStore._tle_path catnr = fs w !! TleStore._tle_path catnr) ->
      fst (TleStore.get_satellite_by_key E key false w0)
      = fst (TleStore.get_satellite_by_key E key false w)).
Proof.
  rewrite !resolver_offline_effect. split; [reflexivity|].
  intros Hsame. cbn [fst].
  destruct (TleStore.satellites_get _ _) as [catnr|]; [|reflexivity].
  rewrite (Hsame catnr). reflexivity.
Qed.

(** A forced refresh inside the cooldown raises, without a request, even if
    the attempt it follows succeeded. *)
Theorem forced_refresh_fails_in_cooldown (catnr : Z) (w : world) :
  gated E w catnr = true ->
  TleStore.refresh_tle_or_raise E catnr w
  = (Raise (ValueError refresh_failed), read_clock w).
Proof.
  intros Hgate. unfold TleStore.refresh_tle_or_raise, bind.
  rewrite (refresh_gated E _ _ Hgate). reflexivity.
Qed.

(** Metadata that decodes to a non-empty value which is no object (a list,
    a string, a number, [true]): [tle_age_seconds] and [is_stale] raise
    [AttributeError], [_needs_refresh] answers [True]. *)
Theorem non_object_meta_breaks_age (catnr : Z) (w : world) :
  Json.truthy (stored_meta E catnr w) = true ->
  TleStore.is_dict (stored_meta E catnr w) = false ->
  TleStore.tle_age_seconds E catnr w = (Raise AttributeError, w)
  /\ TleStore.is_stale E catnr w = (Raise AttributeError, w)
  /\ TleStore._needs_refresh E catnr w = (Ok true, w).
Proof.
  intros Htruthy Hdict.
  assert (Hage : TleStore.tle_age_seconds E catnr w = (Raise AttributeError, w)).
  { unfold TleStore.tle_age_seconds. unfold bind at 1.
    rewrite read_meta_effect, Htruthy.
    destruct (stored_meta E catnr w); try discriminate; reflexivity. }
  split; [exact Hage|]. split.
  - unfold TleStore.is_stale, bind. rewrite Hage. reflexivity.
  - unfold TleStore._needs_refresh. unfold bind at 1.
    rewrite read_meta_effect, Htruthy.
    destruct (stored_meta E catnr w); try discriminate; reflexivity.
Qed.

Lemma celestrak_loop_step catnr url rest w :
  TleStore.celestrak_loop E catnr (url :: rest) w
  = match http_get E (List.length (requests w)) url with
    | NoReply => (Raise TransportError, logged w url)
    | Reply status text =>
        if status =? 403 then TleStore.celestrak_loop E catnr rest (logged w url)
        else if TleStore.is_success status then
          match TleStore._parse_tle_text_any text catnr with
          | Some parsed => (Ok (Some parsed), logged w url)
          | None => TleStore.celestrak_loop E catnr rest (logged w url)
          end
        else (Raise (HTTPStatusError status), logged w url)
    end.
Proof.
  cbn [TleStore.celestrak_loop]. unfold bind, TleStore.http_request, logged.
  destruct (http_get E (List.length (requests w)) url) as [|status text];
    [reflexivity|].
  destruct (status =? 403); [reflexivity|].
  destruct (TleStore.is_success status); simpl; [|reflexivity].
  destruct (TleStore._parse_tle_text_any text catnr); reflexivity.
Qed.

(** CelesTrak: a 403 from the first hostname moves on to the second, any
    other failure (no reply, or a status outside 2xx) ends the attempt with
    the second hostname never asked. *)
Theorem celestrak_fallback_only_on_403 (catnr : Z) (w : world) (url1 url2 : string) :
  TleStore.celestrak_urls catnr = [url1; url2] ->
  match http_get E (List.length (requests w)) url1 with
  | NoReply =>
      exists w', TleStore._fetch_tle_from_celestrak E catnr w = (Ok None, w')
                 /\ requests w' = requests w ++ [url1]
  | Reply status text =>
      if status =? 403 then
        exists r w', TleStore._fetch_tle_from_celestrak E catnr w = (Ok r, w')
                     /\ requests w' = requests w ++ [url1; url2]
      else if TleStore.is_success status then
        match TleStore._parse_tle_text_any text catnr with
        | Some parsed =>
            exists w', TleStore._fetch_tle_from_celestrak E catnr w
                       = (Ok (Some parsed), w')
                       /\ requests w' = requests w ++ [url1]
        | None =>
            exists r w', TleStore._fetch_tle_from_celestrak E catnr w = (Ok r, w')
                         /\ requests w' = requests w ++ [url1; url2]
        end
      else
        exists w', TleStore._fetch_tle_from_celestrak E catnr w = (Ok None, w')
                   /\ requests w' = requests w ++ [url1]
  end.
Proof.
  intros Hurls. unfold TleStore._fetch_tle_from_celestrak, try_except.
  rewrite Hurls, celestrak_loop_step.
  assert (Hsecond : exists r w',
             match TleStore.celestrak_loop E catnr [url2] (logged w url1) with
             | (Ok a, w'0) => (Ok a, w'0)
             | (Raise _, w'0) => ret None w'0
             end = (Ok r, w')
             /\ requests w' = requests w ++ [url1; url2]).
  { rewrite celestrak_loop_step. cbn [TleStore.celestrak_loop]. unfold ret.
    assert (Hreq : requests (logged (logged w url1) url2)
                   = requests w ++ [url1; url2]).
    { simpl. rewrite <- app_assoc. reflexivity. }
    destruct (http_get E _ url2) as [|status2 text2];
      [eexists _, _; split; [reflexivity|exact Hreq]|].
    destruct (status2 =? 403); [eexists _, _; split; [reflexivity|exact Hreq]|].
    destruct (TleStore.is_success status2);
      [|eexists _, _; split; [reflexivity|exact Hreq]].
    destruct (TleStore._parse_tle_text_any text2 catnr);
      eexists _, _; (split; [reflexivity|exact Hreq]). }
  destruct (http_get E (List.length (requests w)) url1) as [|status text].
  { eexists. split; reflexivity. }
  destruct (status =? 403); [exact Hsecond|].
  destruct (TleStore.is_success status).
  - destruct (TleStore._parse_tle_text_any text catnr); [|exact Hsecond].
    eexists. split; reflexivity.
  - eexists. split; reflexivity.
Qed.

End ResolverEdges.

Lemma celestrak_fallback_only_on_403_witness :
  exists r w',
    TleStore._fetch_tle_from_celestrak Demo.forbidden 25544 Demo.empty_world = (Ok r, w')
    /\ requests w'
       = [ "https://celestrak.org/NORAD/elements/gp.php?CATNR=25544&FORMAT=TLE";
           "https://celestrak.com/NORAD/elements/gp.php?CATNR=25544&FORMAT=TLE" ].
Proof.
  exact (celestrak_fallback_only_on_403 Demo.forbidden 25544 Demo.empty_world _ _ eq_refl).
Defined.

Lemma non_object_meta_breaks_age_witness :
  TleStore.tle_age_seconds Scenario.scalar 25544 Scenario.scalar_meta
  = (Raise AttributeError, Scenario.scalar_meta)
  /\ TleStore.is_stale Scenario.scalar 25544 Scenario.scalar_meta
     = (Raise AttributeError, Scenario.scalar_meta)
  /\ TleStore._needs_refresh Scenario.scalar 25544 Scenario.scalar_meta
     = (Ok true, Scenario.scalar_meta).
Proof.
  apply (non_object_meta_breaks_age Scenario.scalar 25544 Scenario.scalar_meta);
    reflexivity.
Defined.

Lemma forced_refresh_fails_in_cooldown_witness :
  TleStore.refresh_tle_or_raise Demo.offline 25544 Scenario.cooling
  = (Raise (ValueError refresh_failed), read_clock Scenario.cooling).
Proof.
  apply (forced_refresh_fails_in_cooldown Demo.offline 25544 Scenario.cooling).
  reflexivity.
Defined.

Section Commit.

Variable E : externals.

Local Open Scope list_scope.

Lemma satnogs_record_valid catnr data name line1 line2 :
  TleStore.satnogs_record E catnr data = Ok (Some (name, line1, line2)) ->
  valid_record catnr line1 line2 /\ Json.truthy name = true.
Proof.
  unfold TleStore.satnogs_record, valid_record.
  destruct (negb (Json.truthy data)); [discriminate|].
  destruct (TleStore.subscript0 data) as [item|]; [|discriminate].
  destruct (TleStore.method_get item "satellite") as [satellite|]; [|discriminate].
  destruct item as [| | | | | |entries]; try discriminate.
  cbv zeta.
  match goal with
  | |- match ?L with Some _ => _ | None => _ end = _ -> _ =>
      destruct L as [[l1 l2]|]; [|discriminate]
  end.
  destruct (PyStr.startswith (TleStore.py_str E l1) "1 ") eqn:H1; [|discriminate].
  destruct (PyStr.startswith (TleStore.py_str E l2) "2 ") eqn:H2; [|discriminate].
  simpl.
  destruct (TleStore._parse_catnr_from_line1 (TleStore.py_str E l1)) as [found|] eqn:Hc;
    [|discriminate].
  destruct (Z.eqb_spec found catnr) as [->|]; [|discriminate]. simpl.
  intros Hret. injection Hret as <- <- <-.
  split; [auto|].
  match goal with
  | |- Json.truthy (if Json.truthy ?n then _ else _) = true =>
      destruct (Json.truthy n) eqn:Ht; [exact Ht|reflexivity]
  end.
Qed.

Lemma fetch_satnogs_some catnr w name line1 line2 w' :
  TleStore._fetch_tle_from_satnogs E catnr w = (Ok (Some (name, line1, line2)), w') ->
  valid_record catnr line1 line2 /\ Json.truthy name = true.
Proof.
  unfold TleStore._fetch_tle_from_satnogs, try_except, bind, TleStore.http_request.
  destruct (http_get E _ _) as [|status text]; [discriminate|]. simpl.
  destruct (TleStore.is_success status); [|discriminate]. simpl.
  destruct (json_loads E text) as [data|]; [|discriminate]. unfold lift.
  destruct (TleStore.satnogs_record E catnr data) as [r|] eqn:Hrec; [|discriminate].
  intros Hret. injection Hret as -> _.
  exact (satnogs_record_valid _ _ _ _ _ Hrec).
Qed.

Lemma locate_valid catnr text name line1 line2 :
  TleStore._parse_tle_text_any text catnr = Some (name, line1, line2) ->
  valid_record catnr line1 line2
  /\ name ∈ PyStr.nonblank_stripped_lines text
  /\ line1 ∈ PyStr.nonblank_stripped_lines text
  /\ line2 ∈ PyStr.nonblank_stripped_lines text.
Proof.
  unfold TleStore._parse_tle_text_any, TleStore.locate, valid_record.
  intros Hfound. apply first_some_elem in Hfound as (i & Hin & Hat).
  unfold TleStore.range in Hin. apply list_elem_of_In, in_seq in Hin.
  destruct i as [|i]; [lia|].
  unfold TleStore.locate_at in Hat.
  rewrite Nat.add_1_r in Hat.
  replace (S i - 1)%nat with i in Hat by lia.
  replace (0 <=? Z.of_nat (S i) - 1) with true in Hat
    by (symmetry; apply Z.leb_le; lia).
  destruct (PyStr.nonblank_stripped_lines text !! S i) as [l1|] eqn:H1;
    [|discriminate].
  destruct (PyStr.startswith l1 "1 ") eqn:Hp1; simpl in Hat; [|discriminate].
  destruct (TleStore._parse_catnr_from_line1 l1) as [found|] eqn:Hx; [|discriminate].
  destruct (Z.eqb_spec found catnr) as [->|]; simpl in Hat; [|discriminate].
  destruct (PyStr.nonblank_stripped_lines text !! S (S i)) as [l2|] eqn:H2;
    [|discriminate].
  destruct (PyStr.startswith l2 "2 ") eqn:Hp2; simpl in Hat; [|discriminate].
  destruct (PyStr.nonblank_stripped_lines text !! i) as [l0|] eqn:H0.
  - simpl in Hat. injection Hat as <- <- <-.
    repeat split; try assumption; eapply list_elem_of_lookup_2; eassumption.
  - apply lookup_ge_None in H0. apply lookup_lt_Some in H1. lia.
Qed.

Lemma celestrak_loop_some catnr urls :
  forall w parsed w',
    TleStore.celestrak_loop E catnr urls w = (Ok (Some parsed), w') ->
    exists text, TleStore._parse_tle_text_any text catnr = Some parsed.
Proof.
  induction urls as [|url rest IH]; intros w parsed w'.
  - simpl. unfold ret. discriminate.
  - rewrite celestrak_loop_step.
    destruct (http_get E _ url) as [|status text]; [discriminate|].
    destruct (status =? 403); [apply IH|].
    destruct (TleStore.is_success status); [|discriminate].
    destruct (TleStore._parse_tle_text_any text catnr) as [p|] eqn:Hp; [|apply IH].
    intros Hret. injection Hret as -> _. eauto.
Qed.

Lemma fetch_celestrak_some catnr w parsed w' :
  TleStore._fetch_tle_from_celestrak E catnr w = (Ok (Some parsed), w') ->
  exists text, TleStore._parse_tle_text_any text catnr = Some parsed.
Proof.
  unfold TleStore._fetch_tle_from_celestrak, try_except.
  destruct (TleStore.celestrak_loop E catnr _ w) as [[r|] w0] eqn:Hloop.
  - intros Hret. injection Hret as -> ->. eapply celestrak_loop_some, Hloop.
  - unfold ret. discriminate.
Qed.

Lemma commit_run catnr source name line1 line2 w :
  (let! _ := TleStore._atomic_write_tle E catnr name line1 line2 in
   let! _ := TleStore._write_meta E catnr source in ret true) w
  = (Ok true, commit E catnr source name line1 line2 w).
Proof.
  unfold commit, bind.
  rewrite (atomic_write_tle_effect E). cbv zeta.
  rewrite (write_meta_effect E). reflexivity.
Qed.

(** A refresh that passes the gate, spelt out. *)
Lemma refresh_open catnr w :
  gated E w catnr = false ->
  TleStore.refresh_tle_best_effort E catnr w
  = match TleStore._fetch_tle_from_satnogs E catnr (attempted E catnr w) with
    | (Raise e, w2) => (Raise e, w2)
    | (Ok (Some (name, line1, line2)), w2) =>
        (Ok true, commit E catnr "satnogs" (TleStore.py_str E name) line1 line2 w2)
    | (Ok None, w2) =>
        match TleStore._fetch_tle_from_celestrak E catnr w2 with
        | (Raise e, w3) => (Raise e, w3)
        | (Ok (Some (name, line1, line2)), w3) =>
            (Ok true, commit E catnr "celestrak" name line1 line2 w3)
        | (Ok None, w3) => (Ok false, w3)
        end
    end.
Proof.
  unfold gated, TleStore.refresh_tle_best_effort.
  unfold bind at 1. unfold TleStore._now_utc at 1.
  unfold bind at 1. unfold TleStore.ledger_get at 1. simpl.
  intros Hgate. rewrite Hgate.
  unfold bind at 1. unfold TleStore.ledger_set at 1. simpl.
  fold (attempted E catnr w).
  unfold bind at 1.
  destruct (TleStore._fetch_tle_from_satnogs E catnr (attempted E catnr w))
    as [[[[[name line1] line2]|]|e] w2]; [| |reflexivity].
  - apply commit_run.
  - unfold bind at 1.
    destruct (TleStore._fetch_tle_from_celestrak E catnr w2)
      as [[[[[name line1] line2]|]|e] w3]; [| |reflexivity].
    + apply commit_run.
    + reflexivity.
Qed.

(** The two outcomes of a refresh that passes the gate. *)
Lemma refresh_cases catnr w :
  gated E w catnr = false ->
  exists sn w2,
    TleStore._fetch_tle_from_satnogs E catnr (attempted E catnr w) = (Ok sn, w2)
    /\ only_requested (attempted E catnr w) w2 [TleStore.satnogs_url catnr]
    /\ match sn with
       | Some (name, line1, line2) =>
           TleStore.refresh_tle_best_effort E catnr w
           = (Ok true, commit E catnr "satnogs" (TleStore.py_str E name) line1 line2 w2)
       | None =>
           exists cel w3 asked,
             TleStore._fetch_tle_from_celestrak E catnr w2 = (Ok cel, w3)
             /\ asked `prefix_of` TleStore.celestrak_urls catnr
             /\ only_requested w2 w3 asked
             /\ match cel with
                | Some (name, line1, line2) =>
                    TleStore.refresh_tle_best_effort E catnr w
                    = (Ok true, commit E catnr "celestrak" name line1 line2 w3)
                | None => TleStore.refresh_tle_best_effort E catnr w = (Ok false, w3)
                end
       end.
Proof.
  intros Hgate. rewrite (refresh_open catnr w Hgate).
  destruct (fetch_satnogs_total E catnr (attempted E catnr w)) as (sn & w2 & Hsn & Hframe).
  exists sn, w2. split; [exact Hsn|]. split; [exact Hframe|]. rewrite Hsn.
  destruct sn as [[[name line1] line2]|]; [reflexivity|].
  destruct (fetch_celestrak_total E catnr w2) as (cel & w3 & asked & Hcel & Hpre & Hframe3).
  exists cel, w3, asked. split; [exact Hcel|]. split; [exact Hpre|].
  split; [exact Hframe3|]. rewrite Hcel.
  destruct cel as [[[name line1] line2]|]; reflexivity.
Qed.

Lemma commit_effect catnr source name line1 line2 w :
  exists t1 t2,
    fs (commit E catnr source name line1 line2 w)
    = <[TleStore._meta_path catnr :=
          File (json_dumps E (meta_record E catnr (clock E (S (S (S (ticks w))))) source)) t2]>
        (<[TleStore._meta_path catnr := File EmptyString t1]>
           (<[TleStore._tle_path catnr := File (tle_text name line1 line2) (clock E (S (ticks w)))]>
              (delete (DataFile catnr tmp)
                 (<[DataFile catnr tmp := File (tle_text name line1 line2) (clock E (S (ticks w)))]>
                    (<[DataFile catnr tmp := File EmptyString (clock E (ticks w))]> (fs w))))))
    /\ ledger (commit E catnr source name line1 line2 w) = ledger w
    /\ requests (commit E catnr source name line1 line2 w) = requests w.
Proof.
  unfold commit. rewrite (atomic_write_tle_effect E). cbv zeta. cbn [snd].
  rewrite (write_meta_effect E). cbv zeta. cbn [snd fs ledger requests ticks].
  eauto.
Qed.

Lemma commit_slot catnr source name line1 line2 w :
  let w' := commit E catnr source name line1 line2 w in
  content <$> fs w' !! TleStore._tle_path catnr = Some (tle_text name line1 line2)
  /\ content <$> fs w' !! TleStore._meta_path catnr
     = Some (json_dumps E (meta_record E catnr (clock E (S (S (S (ticks w))))) source))
  /\ fs w' !! DataFile catnr tmp = None
  /\ (forall other ext, other <> catnr ->
        fs w' !! DataFile other ext = fs w !! DataFile other ext).
Proof.
  cbv zeta.
  destruct (commit_effect catnr source name line1 line2 w) as (t1 & t2 & -> & _).
  unfold TleStore._tle_path, TleStore._meta_path.
  split; [|split; [|split]].
  - rewrite !lookup_insert_ne by discriminate. by rewrite lookup_insert_eq.
  - by rewrite lookup_insert_eq.
  - rewrite !lookup_insert_ne by discriminate. by rewrite lookup_delete_eq.
  - intros other ext Hother.
    rewrite !lookup_insert_ne by congruence.
    rewrite lookup_delete_ne by congruence.
    rewrite !lookup_insert_ne by congruence. reflexivity.
Qed.

Lemma refresh_summary catnr w :
  exists b w',
    TleStore.refresh_tle_best_effort E catnr w = (Ok b, w')
    /\ (forall other, other <> catnr ->
          ledger w' !! other = ledger w !! other
          /\ forall ext, fs w' !! DataFile other ext = fs w !! DataFile other ext)
    /\ requests w `prefix_of` requests w'
    /\ (b = true ->
        exists name line1 line2,
          content <$> fs w' !! TleStore._tle_path catnr
          = Some (tle_text name line1 line2)
          /\ valid_record catnr line1 line2)
    /\ (b = false -> fs w' = fs w).
Proof.
  destruct (gated E w catnr) eqn:Hgate.
  { rewrite (refresh_gated E _ _ Hgate). exists false, (read_clock w).
    split; [reflexivity|]. split; [auto|]. split; [reflexivity|].
    split; [discriminate|reflexivity]. }
  destruct (refresh_cases catnr w Hgate)
    as (sn & w2 & Hsn & (Hl2 & Hf2 & Ht2 & Hh2 & Hr2) & Hcase).
  assert (Hledger : forall other, other <> catnr ->
            ledger (attempted E catnr w) !! other = ledger w !! other).
  { intros other Hother. simpl. apply lookup_insert_ne. congruence. }
  destruct sn as [[[name line1] line2]|].
  - rewrite Hcase. eexists _, _. split; [reflexivity|].
    destruct (fetch_satnogs_some _ _ _ _ _ _ Hsn) as [Hvalid _].
    destruct (commit_slot catnr "satnogs" (TleStore.py_str E name) line1 line2 w2)
      as (Htle & _ & _ & Hframe).
    destruct (commit_effect catnr "satnogs" (TleStore.py_str E name) line1 line2 w2)
      as (_ & _ & _ & Hled & Hreq).
    split.
    { intros other Hother. rewrite Hled, Hl2. split; [auto|].
      intros ext. rewrite (Hframe other ext Hother), Hf2. reflexivity. }
    split; [rewrite Hreq, Hr2; by apply prefix_app_r|].
    split; [|discriminate]. intros _. eauto.
  - destruct Hcase
      as (cel & w3 & asked & Hcel & Hpre & (Hl3 & Hf3 & Ht3 & Hh3 & Hr3) & Hcase).
    destruct cel as [[[name line1] line2]|]; rewrite Hcase.
    + eexists _, _. split; [reflexivity|].
      destruct (fetch_celestrak_some _ _ _ _ Hcel) as (text & Hparsed).
      destruct (locate_valid _ _ _ _ _ Hparsed) as [Hvalid _].
      destruct (commit_slot catnr "celestrak" name line1 line2 w3)
        as (Htle & _ & _ & Hframe).
      destruct (commit_effect catnr "celestrak" name line1 line2 w3)
        as (_ & _ & _ & Hled & Hreq).
      split.
      { intros other Hother. rewrite Hled, Hl3, Hl2. split; [auto|].
        intros ext. rewrite (Hframe other ext Hother), Hf3, Hf2. reflexivity. }
      split; [rewrite Hreq, Hr3, Hr2, <- app_assoc; by apply prefix_app_r|].
      split; [|discriminate]. intros _. eauto.
    + eexists _, _. split; [reflexivity|].
      split.
      { intros other Hother. rewrite Hl3, Hl2, Hf3, Hf2. auto. }
      split; [rewrite Hr3, Hr2, <- app_assoc; by apply prefix_app_r|].
      split; [discriminate|]. intros _. rewrite Hf3, Hf2. reflexivity.
Qed.

(** A refresh that reports success has committed a record satisfying the
    TleRecord invariants for the requested catalog number, with metadata
    naming the source that produced it; the temporary file is gone.  When
    the source is SatNOGS, CelesTrak was not contacted. *)
Theorem refresh_success_commits_valid_record (catnr : Z) (w w' : world) :
  TleStore.refresh_tle_best_effort E catnr w = (Ok true, w') ->
  exists name line1 line2 source stamp asked,
    content <$> fs w' !! TleStore._tle_path catnr = Some (tle_text name line1 line2)
    /\ valid_record catnr line1 line2
    /\ content <$> fs w' !! TleStore._meta_path catnr
       = Some (json_dumps E (meta_record E catnr stamp source))
    /\ fs w' !! DataFile catnr tmp = None
    /\ ledger w' !! catnr = Some (clock E (ticks w))
    /\ requests w' = requests w ++ TleStore.satnogs_url catnr :: asked
    /\ ((source = "satnogs"%string /\ asked = [])
        \/ (source = "celestrak"%string
            /\ asked `prefix_of` TleStore.celestrak_urls catnr)).
Proof.
  intros Hrun.
  destruct (gated E w catnr) eqn:Hgate.
  { rewrite (refresh_gated E _ _ Hgate) in Hrun. discriminate. }
  destruct (refresh_cases catnr w Hgate)
    as (sn & w2 & Hsn & (Hl2 & Hf2 & Ht2 & Hh2 & Hr2) & Hcase).
  destruct sn as [[[name line1] line2]|].
  - rewrite Hcase in Hrun. injection Hrun as <-.
    destruct (fetch_satnogs_some _ _ _ _ _ _ Hsn) as [Hvalid _].
    destruct (commit_slot catnr "satnogs" (TleStore.py_str E name) line1 line2 w2)
      as (Htle & Hmeta & Htmp & _).
    destruct (commit_effect catnr "satnogs" (TleStore.py_str E name) line1 line2 w2)
      as (_ & _ & _ & Hled & Hreq).
    exists (TleStore.py_str E name), line1, line2, "satnogs"%string,
      (clock E (S (S (S (ticks w2))))), [].
    split; [exact Htle|]. split; [exact Hvalid|]. split; [exact Hmeta|].
    split; [exact Htmp|]. rewrite Hled, Hreq, Hl2, Hr2.
    split; [apply lookup_insert_eq|]. split; [reflexivity|]. auto.
  - destruct Hcase as (cel & w3 & asked & Hcel & Hpre & (Hl3 & Hf3 & Ht3 & Hh3 & Hr3) & Hcase).
    destruct cel as [[[name line1] line2]|];
      rewrite Hcase in Hrun; [|discriminate].
    injection Hrun as <-.
    destruct (fetch_celestrak_some _ _ _ _ Hcel) as (text & Hparsed).
    destruct (locate_valid _ _ _ _ _ Hparsed) as [Hvalid _].
    destruct (commit_slot catnr "celestrak" name line1 line2 w3)
      as (Htle & Hmeta & Htmp & _).
    destruct (commit_effect catnr "celestrak" name line1 line2 w3)
      as (_ & _ & _ & Hled & Hreq).
    exists name, line1, line2, "celestrak"%string,
      (clock E (S (S (S (ticks w3))))), asked.
    split; [exact Htle|]. split; [exact Hvalid|]. split; [exact Hmeta|].
    split; [exact Htmp|]. rewrite Hled, Hreq, Hl3, Hr3, Hl2, Hr2, <- app_assoc.
    split; [apply lookup_insert_eq|]. split; [reflexivity|]. auto.
Qed.

(** A refresh for one catalog number leaves the files and the ledger entry
    of every other catalog number as they were, whatever its outcome. *)
Theorem refresh_touches_one_slot (catnr other : Z) (w : world) :
  other <> catnr ->
  let w' := snd (TleStore.refresh_tle_best_effort E catnr w) in
  ledger w' !! other = ledger w !! other
  /\ forall ext, fs w' !! DataFile other ext = fs w !! DataFile other ext.
Proof.
  intros Hother. cbv zeta.
  destruct (refresh_summary catnr w) as (b & w' & Hrun & Hframe & _).
  rewrite Hrun. apply (Hframe other Hother).
Qed.

End Commit.

Lemma refresh_touches_one_slot_witness :
  let w' := snd (TleStore.refresh_tle_best_effort Scenario.online 20580 Demo.seeded) in
  ledger w' !! 25544 = ledger Demo.seeded !! 25544
  /\ forall ext, fs w' !! DataFile 25544 ext = fs Demo.seeded !! DataFile 25544 ext.
Proof.
  apply (refresh_touches_one_slot Scenario.online 20580 25544 Demo.seeded).
  discriminate.
Defined.

Lemma refresh_success_commits_valid_record_witness :
  let w' := snd (TleStore.refresh_tle_best_effort Scenario.online 25544 Demo.empty_world) in
  exists name line1 line2 source stamp asked,
    content <$> fs w' !! TleStore._tle_path 25544 = Some (tle_text name line1 line2)
    /\ valid_record 25544 line1 line2
    /\ content <$> fs w' !! TleStore._meta_path 25544
       = Some (json_dumps Scenario.online (meta_record Scenario.online 25544 stamp source))
    /\ fs w' !! DataFile 25544 tmp = None
    /\ ledger w' !! 25544 = Some (clock Scenario.online (ticks Demo.empty_world))
    /\ requests w'
       = (requests Demo.empty_world ++ TleStore.satnogs_url 25544 :: asked)%list
    /\ ((source = "satnogs"%string /\ asked = [])
        \/ (source = "celestrak"%string
            /\ asked `prefix_of` TleStore.celestrak_urls 25544)).
Proof.
  apply (refresh_success_commits_valid_record Scenario.online 25544 Demo.empty_world).
  vm_compute. reflexivity.
Defined.

(** ** Lines, and the round trip through the element file *)

Section Lines.

Local Open Scope string_scope.

Lemma append_cons c s t : String c s ++ t = String c (s ++ t).
Proof. reflexivity. Qed.

Lemma append_nil_l s : "" ++ s = s.
Proof. reflexivity. Qed.

Lemma append_snoc cur c s : PyStr.snoc cur c ++ s = cur ++ String c s.
Proof.
  unfold PyStr.snoc. induction cur as [|d cur IH].
  - reflexivity.
  - rewrite !append_cons. f_equal. exact IH.
Qed.

Lemma append_empty_r s : s ++ "" = s.
Proof.
  induction s as [|c s IH]; [reflexivity|]. rewrite append_cons. f_equal. exact IH.
Qed.

Lemma splitlines_from_line a :
  forall cur rest,
    PyStr.all_chars (fun c => negb (PyStr.is_linebreak c)) a = true ->
    PyStr.splitlines_from cur (a ++ String "010" rest)
    = (cur ++ a) :: PyStr.splitlines_from "" rest.
Proof.
  induction a as [|c a IH]; intros cur rest Hclean.
  - rewrite append_nil_l, append_empty_r. reflexivity.
  - simpl in Hclean. apply andb_prop in Hclean as [Hc Ha].
    apply negb_true_iff in Hc.
    rewrite append_cons. cbn [PyStr.splitlines_from].
    rewrite Hc, (IH _ _ Ha), append_snoc. reflexivity.
Qed.

Lemma lines_of_tle_text name line1 line2 :
  clean_line name -> clean_line line1 -> clean_line line2 ->
  PyStr.nonblank_stripped_lines (tle_text name line1 line2) = [name; line1; line2].
Proof.
  intros (Hn & Hsn & Hen) (H1 & Hs1 & He1) (H2 & Hs2 & He2).
  unfold PyStr.nonblank_stripped_lines, PyStr.splitlines, tle_text, TleStore.nl.
  rewrite !append_cons, !append_nil_l.
  rewrite (splitlines_from_line _ _ _ Hn), (splitlines_from_line _ _ _ H1),
    (splitlines_from_line _ _ _ H2), !append_nil_l.
  cbn [PyStr.splitlines_from PyStr.is_empty List.map].
  rewrite Hsn, Hs1, Hs2. cbn [List.filter]. rewrite Hen, He1, He2. reflexivity.
Qed.

Lemma lstrip_bom_prefixed line :
  PyStr.startswith line "1 " = true -> PyStr.lstrip_bom line = line.
Proof.
  destruct line as [|c r]; [reflexivity|]. unfold PyStr.startswith.
  cbn [String.prefix]. destruct (ascii_dec "1" c) as [<-|]; [|discriminate].
  reflexivity.
Qed.

Lemma parse_of_tle_text catnr name line1 line2 :
  clean_line name -> clean_line line1 -> clean_line line2 ->
  valid_record catnr line1 line2 ->
  parse_element_text (tle_text name line1 line2) catnr = Ok (mkTLE name line1 line2).
Proof.
  intros Hname Hline1 Hline2 (Hp1 & Hp2 & Hcat). unfold parse_element_text.
  rewrite (lines_of_tle_text _ _ _ Hname Hline1 Hline2). cbv zeta.
  rewrite (lstrip_bom_prefixed _ Hp1), Hp1, Hp2, Hcat.
  simpl. rewrite Z.eqb_refl. reflexivity.
Qed.

Lemma all_chars_snoc p cur c :
  PyStr.all_chars p (PyStr.snoc cur c) = PyStr.all_chars p cur && p c.
Proof.
  unfold PyStr.snoc. induction cur as [|d cur IH].
  - simpl. by rewrite andb_true_r.
  - rewrite append_cons. simpl. rewrite IH. by rewrite andb_assoc.
Qed.

Lemma all_chars_lstrip p s :
  PyStr.all_chars p s = true -> PyStr.all_chars p (PyStr.lstrip s) = true.
Proof.
  induction s as [|c s IH]; [done|]. intros Hall. simpl.
  destruct (PyStr.isspace c); [|exact Hall].
  simpl in Hall. apply andb_prop in Hall as [_ Hs]. auto.
Qed.

Lemma all_chars_rstrip p s :
  PyStr.all_chars p s = true -> PyStr.all_chars p (PyStr.rstrip s) = true.
Proof.
  induction s as [|c s IH]; [done|]. intros Hall. simpl in *.
  apply andb_prop in Hall as [Hc Hs].
  destruct (PyStr.isspace c && PyStr.is_empty (PyStr.rstrip s)); [done|].
  simpl. rewrite Hc. auto.
Qed.

Lemma rstrip_rstrip s : PyStr.rstrip (PyStr.rstrip s) = PyStr.rstrip s.
Proof.
  induction s as [|c s IH]; [done|]. simpl.
  destruct (PyStr.isspace c && PyStr.is_empty (PyStr.rstrip s)) eqn:Hdrop; [done|].
  simpl. rewrite IH, Hdrop. reflexivity.
Qed.

Lemma lstrip_lstrip s : PyStr.lstrip (PyStr.lstrip s) = PyStr.lstrip s.
Proof.
  induction s as [|c s IH]; [done|]. simpl.
  destruct (PyStr.isspace c) eqn:Hc; [exact IH|]. simpl. by rewrite Hc.
Qed.

Lemma lstrip_keeps_rstrip s :
  PyStr.rstrip s = s -> PyStr.rstrip (PyStr.lstrip s) = PyStr.lstrip s.
Proof.
  induction s as [|c s IH]; [done|]. intros Hfix.
  assert (Htail : PyStr.rstrip s = s).
  { simpl in Hfix.
    destruct (PyStr.isspace c && PyStr.is_empty (PyStr.rstrip s)); [discriminate|].
    by injection Hfix. }
  simpl. destruct (PyStr.isspace c); [auto|exact Hfix].
Qed.

Lemma strip_strip s : PyStr.strip (PyStr.strip s) = PyStr.strip s.
Proof.
  unfold PyStr.strip.
  rewrite (lstrip_keeps_rstrip _ (rstrip_rstrip s)). apply lstrip_lstrip.
Qed.

Lemma splitlines_from_clean (n : nat) :
  forall s cur,
    (String.length s <= n)%nat ->
    PyStr.all_chars (fun c => negb (PyStr.is_linebreak c)) cur = true ->
    Forall (fun ln => PyStr.all_chars (fun c => negb (PyStr.is_linebreak c)) ln = true)
           (PyStr.splitlines_from cur s).
Proof.
  induction n as [|n IH]; intros s cur Hlen Hcur.
  - destruct s; [|simpl in Hlen; lia]. simpl.
    destruct (PyStr.is_empty cur); repeat constructor. exact Hcur.
  - destruct s as [|c r]; simpl.
    { destruct (PyStr.is_empty cur); repeat constructor. exact Hcur. }
    simpl in Hlen.
    destruct (PyStr.is_linebreak c) eqn:Hc.
    + constructor; [exact Hcur|]. apply IH; [|reflexivity].
      destruct (Ascii.eqb c "013"); [|lia].
      destruct r as [|d r2]; [simpl; lia|].
      destruct (Ascii.eqb d "010"); simpl in *; lia.
    + apply IH; [lia|]. rewrite all_chars_snoc, Hcur, Hc. reflexivity.
Qed.

(** Every non-blank stripped line of a payload is a clean line. *)
Lemma nonblank_stripped_lines_clean text ln :
  ln ∈ PyStr.nonblank_stripped_lines text -> clean_line ln.
Proof.
  unfold PyStr.nonblank_stripped_lines. intros Hin.
  apply list_elem_of_In, filter_In in Hin as [Hin Hfull].
  apply in_map_iff in Hin as (raw & <- & Hraw).
  apply negb_true_iff in Hfull.
  pose proof (splitlines_from_clean (String.length text) text "" (le_n _) eq_refl)
    as Hclean.
  rewrite List.Forall_forall in Hclean. specialize (Hclean raw Hraw).
  split; [|split].
  - unfold PyStr.strip. by apply all_chars_lstrip, all_chars_rstrip.
  - apply strip_strip.
  - exact Hfull.
Qed.

End Lines.

(** ** The checks of the element-file reader *)

Section ElementFileChecks.

Variable E : externals.

Local Open Scope list_scope.

Lemma strip_fixed_rstrip s : PyStr.strip s = s -> PyStr.rstrip s = s.
Proof.
  intros H. unfold PyStr.strip in H.
  pose proof (lstrip_keeps_rstrip (PyStr.rstrip s) (rstrip_rstrip s)) as Hk.
  rewrite H in Hk. exact Hk.
Qed.

Lemma rstrip_tail c r :
  PyStr.rstrip (String c r) = String c r ->
  PyStr.rstrip r = r /\ (PyStr.isspace c = true -> PyStr.is_empty r = false).
Proof.
  cbn [PyStr.rstrip].
  destruct (PyStr.isspace c && PyStr.is_empty (PyStr.rstrip r)) eqn:H;
    [discriminate|].
  intros [= Hr]. split; [exact Hr|]. intros Hc. rewrite Hc, Hr in H. exact H.
Qed.

Lemma rstrip_lstrip_bom s :
  PyStr.rstrip s = s -> PyStr.rstrip (PyStr.lstrip_bom s) = PyStr.lstrip_bom s.
Proof.
  induction s as [|c r IH]; intros H; cbn [PyStr.lstrip_bom]; [reflexivity|].
  destruct (Ascii.eqb c PyStr.bom); [|exact H].
  apply IH. apply (rstrip_tail _ _ H).
Qed.

Lemma split_from_cur r :
  forall cur, PyStr.is_empty cur = false ->
              exists t ts, PyStr.split_from cur r = t :: ts.
Proof.
  induction r as [|c r IH]; intros cur Hcur; cbn [PyStr.split_from].
  - rewrite Hcur. eauto.
  - destruct (PyStr.isspace c); [rewrite Hcur; eauto|].
    apply IH. destruct cur; reflexivity.
Qed.

Lemma split_from_stripped r :
  PyStr.rstrip r = r -> PyStr.is_empty r = false ->
  exists t ts, PyStr.split_from EmptyString r = t :: ts.
Proof.
  induction r as [|c r IH]; intros Hr He; [discriminate|].
  cbn [PyStr.split_from]. destruct (PyStr.isspace c) eqn:Hc.
  - cbn [PyStr.is_empty]. destruct (rstrip_tail _ _ Hr) as [Hr' Hne]. auto.
  - apply split_from_cur. reflexivity.
Qed.

(** A line without trailing white space that begins "1 " has a second field. *)
Lemma prefixed_line_has_field s :
  PyStr.rstrip s = s -> PyStr.startswith s "1 " = true ->
  exists token, PyStr.split s !! 1%nat = Some token.
Proof.
  intros Hr Hp. unfold PyStr.startswith in Hp.
  destruct s as [|c1 [|c2 rest]]; cbn [String.prefix] in Hp; try discriminate.
  { destruct (ascii_dec "1" c1); discriminate. }
  destruct (ascii_dec "1" c1) as [<-|]; [|discriminate].
  destruct (ascii_dec " " c2) as [<-|]; [|discriminate].
  destruct (rstrip_tail _ _ Hr) as [Hr1 _].
  destruct (rstrip_tail _ _ Hr1) as [Hr2 Hne].
  destruct (split_from_stripped rest Hr2 (Hne eq_refl)) as (t & ts & Hsplit).
  exists t. unfold PyStr.split. cbn [PyStr.split_from].
  change (PyStr.isspace "1") with false. change (PyStr.isspace " ") with true.
  cbv iota. change (PyStr.is_empty (PyStr.snoc "" "1")) with false. cbv iota.
  rewrite Hsplit. reflexivity.
Qed.

Lemma parse_catnr_outcome line1 :
  (exists token, PyStr.split line1 !! 1%nat = Some token) ->
  match TleStore._parse_catnr_from_line1 line1 with
  | Ok _ => True
  | Raise e => e = ValueError no_catnr_digits \/ e = ValueError not_a_decimal
  end.
Proof.
  intros [token Htoken]. unfold TleStore._parse_catnr_from_line1. rewrite Htoken.
  destruct (PyStr.is_empty _); [auto|].
  destruct (PyStr.int_of_digits _); auto.
Qed.

Lemma resolver_without_element_file key allow_network catnr w w1 :
  TleStore.satellites_get (PyStr.upper (PyStr.strip key)) TleStore.SATELLITES
  = Some catnr ->
  auto_refresh E allow_network catnr w = (Ok tt, w1) ->
  fs w1 !! TleStore._tle_path catnr = None ->
  TleStore.get_satellite_by_key E key allow_network w
  = (Raise (ValueError no_local_tle), w1).
Proof.
  intros Hkey Hauto Hf. unfold TleStore.get_satellite_by_key. rewrite Hkey.
  unfold bind at 1. fold (auto_refresh E allow_network catnr). rewrite Hauto.
  unfold bind at 1. rewrite path_exists_effect, Hf. reflexivity.
Qed.

Lemma parse_element_text_cases text catnr :
  let lines := PyStr.nonblank_stripped_lines text in
  let r := parse_element_text text catnr in
  (forall tle, r = Ok tle <-> passes_checks catnr lines tle)
  /\ ((exists tle, r = Ok tle)
      \/ exists why, r = Raise (ValueError why) /\ why <> no_local_tle)
  /\ ((List.length lines < 3)%nat -> r = Raise (ValueError too_few_lines))
  /\ (forall name l1 line2 rest,
        lines = name :: l1 :: line2 :: rest ->
        (PyStr.startswith (PyStr.lstrip_bom l1) "1 " = false
         \/ PyStr.startswith line2 "2 " = false ->
         r = Raise (ValueError bad_line_prefix))
        /\ (PyStr.startswith (PyStr.lstrip_bom l1) "1 " = true ->
            PyStr.startswith line2 "2 " = true ->
            match TleStore._parse_catnr_from_line1 (PyStr.lstrip_bom l1) with
            | Ok found =>
                found <> catnr -> r = Raise (ValueError (catnr_mismatch found))
            | Raise e =>
                r = Raise e
                /\ (e = ValueError no_catnr_digits \/ e = ValueError not_a_decimal)
            end)).
Proof.
  cbv zeta. unfold parse_element_text, passes_checks.
  pose proof (nonblank_stripped_lines_clean text) as Hclean.
  destruct (PyStr.nonblank_stripped_lines text) as [|name [|l1 [|line2 rest]]].
  1-3: (split; [intros tle; split; [discriminate|];
                intros (? & ? & ? & ? & Heq & _); discriminate|];
        split; [right; eexists; split; [reflexivity|discriminate]|];
        split; [reflexivity|]; intros ? ? ? ? Heq; discriminate).
  cbv zeta.
  assert (Hfield : PyStr.startswith (PyStr.lstrip_bom l1) "1 " = true ->
                   match TleStore._parse_catnr_from_line1 (PyStr.lstrip_bom l1) with
                   | Ok _ => True
                   | Raise e => e = ValueError no_catnr_digits
                                \/ e = ValueError not_a_decimal
                   end).
  { intros Hp. apply parse_catnr_outcome, prefixed_line_has_field; [|exact Hp].
    apply rstrip_lstrip_bom, strip_fixed_rstrip.
    destruct (Hclean l1) as (_ & Hs & _); [set_solver|exact Hs]. }
  clear Hclean.
  destruct (PyStr.startswith (PyStr.lstrip_bom l1) "1 ") eqn:H1.
  2:{ cbn [negb orb].
      split; [intros tle; split; [discriminate|];
              intros (? & ? & ? & ? & [= <- <- <- <-] & Hp & _); congruence|].
      split; [right; eexists; split; [reflexivity|discriminate]|].
      split; [cbn [List.length]; lia|].
      intros ? ? ? ? [= <- <- <- <-]. split; [reflexivity|congruence]. }
  destruct (PyStr.startswith line2 "2 ") eqn:H2.
  2:{ cbn [negb orb].
      split; [intros tle; split; [discriminate|];
              intros (? & ? & ? & ? & [= <- <- <- <-] & _ & Hp & _); congruence|].
      split; [right; eexists; split; [reflexivity|discriminate]|].
      split; [cbn [List.length]; lia|].
      intros ? ? ? ? [= <- <- <- <-]. split; [reflexivity|congruence]. }
  cbn [negb orb]. specialize (Hfield eq_refl).
  destruct (TleStore._parse_catnr_from_line1 (PyStr.lstrip_bom l1))
    as [found|e] eqn:Hparse.
  2:{ split; [intros tle; split; [discriminate|];
              intros (? & ? & ? & ? & [= <- <- <- <-] & _ & _ & Hcat & _);
              congruence|].
      split; [right; destruct Hfield as [->| ->]; eexists;
              (split; [reflexivity|discriminate])|].
      split; [cbn [List.length]; lia|].
      intros ? ? ? ? [= <- <- <- <-].
      split; [intros [?|?]; congruence|]. intros _ _. rewrite Hparse. auto. }
  destruct (Z.eqb_spec found catnr) as [->|Hne]; cbn [negb].
  - split.
    { intros tle. split.
      - intros [= <-]. exists name, l1, line2, rest. auto.
      - intros (? & ? & ? & ? & [= <- <- <- <-] & _ & _ & _ & ->). reflexivity. }
    split; [left; eauto|].
    split; [cbn [List.length]; lia|].
    intros ? ? ? ? [= <- <- <- <-].
    split; [intros [?|?]; congruence|]. intros _ _. rewrite Hparse. done.
  - split.
    { intros tle. split; [discriminate|].
      intros (? & ? & ? & ? & [= <- <- <- <-] & _ & _ & Hcat & _). congruence. }
    split; [right; eexists; split; [reflexivity|discriminate]|].
    split; [cbn [List.length]; lia|].
    intros ? ? ? ? [= <- <- <- <-].
    split; [intros [?|?]; congruence|]. intros _ _. rewrite Hparse. auto.
Qed.

(** C3 (amended): for a satellite of the catalogue, the resolver reports
    "no local elements" exactly when the element file is missing once the
    automatic refresh is over.  A file that is there is accepted exactly
    when all checks pass, and the resolver then returns its first three
    non-blank lines, the second without leading byte-order marks; every
    violation is raised to the caller as a [ValueError]: fewer than three
    non-blank lines, a second or third line that does not begin "1 " or
    "2 ", an embedded catalog number that cannot be read or that differs
    from the requested one. *)
Theorem malformed_element_file_raises
    (key : string) (allow_network : bool) (catnr : Z) (w : world) :
  TleStore.satellites_get (PyStr.upper (PyStr.strip key)) TleStore.SATELLITES
  = Some catnr ->
  let k := PyStr.upper (PyStr.strip key) in
  let w1 := snd (auto_refresh E allow_network catnr w) in
  let outcome := fst (TleStore.get_satellite_by_key E key allow_network w) in
  snd (TleStore.get_satellite_by_key E key allow_network w) = w1
  /\ (outcome = Raise (ValueError no_local_tle)
      <-> fs w1 !! TleStore._tle_path catnr = None)
  /\ forall f,
       fs w1 !! TleStore._tle_path catnr = Some f ->
       let lines := PyStr.nonblank_stripped_lines (content f) in
       (forall tle, outcome = Ok (k, catnr, tle) <-> passes_checks catnr lines tle)
       /\ ((forall tle, ~ passes_checks catnr lines tle) ->
           exists why, outcome = Raise (ValueError why))
       /\ ((List.length lines < 3)%nat ->
           outcome = Raise (ValueError too_few_lines))
       /\ (forall name l1 line2 rest,
             lines = name :: l1 :: line2 :: rest ->
             (PyStr.startswith (PyStr.lstrip_bom l1) "1 " = false
              \/ PyStr.startswith line2 "2 " = false ->
              outcome = Raise (ValueError bad_line_prefix))
             /\ (PyStr.startswith (PyStr.lstrip_bom l1) "1 " = true ->
                 PyStr.startswith line2 "2 " = true ->
                 match TleStore._parse_catnr_from_line1 (PyStr.lstrip_bom l1) with
                 | Ok found =>
                     found <> catnr ->
                     outcome = Raise (ValueError (catnr_mismatch found))
                 | Raise e =>
                     outcome = Raise e
                     /\ (e = ValueError no_catnr_digits
                         \/ e = ValueError not_a_decimal)
                 end)).
Proof.
  intros Hkey. cbv zeta.
  destruct (auto_refresh_total E allow_network catnr w) as [w1 Hauto].
  rewrite Hauto. cbn [snd].
  destruct (fs w1 !! TleStore._tle_path catnr) as [f|] eqn:Hf.
  2:{ rewrite (resolver_without_element_file _ _ _ _ _ Hkey Hauto Hf).
      split; [reflexivity|]. split; [done|]. discriminate. }
  rewrite (resolver_reads_element_file E _ _ _ _ _ _ Hkey Hauto Hf). cbn [fst snd].
  destruct (parse_element_text_cases (content f) catnr)
    as (Hok & Hkind & Hshort & Hlong).
  cbv zeta in Hok, Hkind, Hshort, Hlong.
  split; [reflexivity|]. split.
  { split; [|discriminate]. intros Hraise.
    destruct Hkind as [[tle Hr]|(why & Hr & Hwhy)]; rewrite Hr in Hraise;
      [discriminate|congruence]. }
  intros f' [= <-]. split.
  { intros tle. rewrite <- Hok.
    destruct (parse_element_text (content f) catnr); split; congruence. }
  split.
  { intros Hnone. destruct Hkind as [[tle Hr]|(why & Hr & _)].
    - exfalso. apply (Hnone tle), Hok, Hr.
    - rewrite Hr. eauto. }
  split.
  { intros Hlen. rewrite (Hshort Hlen). reflexivity. }
  intros name l1 line2 rest Hlines.
  destruct (Hlong name l1 line2 rest Hlines) as [Hbad Hgood]. split.
  { intros Hp. rewrite (Hbad Hp). reflexivity. }
  intros H1 H2. specialize (Hgood H1 H2).
  destruct (TleStore._parse_catnr_from_line1 (PyStr.lstrip_bom l1)) as [found|e].
  - intros Hne. rewrite (Hgood Hne). reflexivity.
  - destruct Hgood as [Hr He]. rewrite Hr. auto.
Qed.

End ElementFileChecks.

(** The element file of [Scenario.marked], three lines with a byte-order
    mark in front of the second, is accepted, and the mark is dropped. *)
Lemma malformed_element_file_raises_witness :
  TleStore.get_satellite_by_key Demo.offline "iss" false Scenario.marked
  = (Ok ("ISS", 25544, Demo.iss), Scenario.marked).
Proof.
  destruct (malformed_element_file_raises Demo.offline "iss" false 25544
              Scenario.marked eq_refl) as (Hworld & _ & Hfile).
  destruct (Hfile _ eq_refl) as (Hok & _).
  rewrite (surjective_pairing
             (TleStore.get_satellite_by_key Demo.offline "iss" false Scenario.marked)).
  apply pair_equal_spec. split; [|exact Hworld].
  apply Hok. exists Demo.iss_name, (String PyStr.bom Demo.iss_line1), Demo.iss_line2, [].
  repeat split; reflexivity.
Defined.

Section RoundTrip.

Variable E : externals.

(** Round trip: a record of three clean lines that satisfies the TleRecord
    invariants, once written by [_atomic_write_tle], is read back
    field for field by [_read_tle_file], and by the resolver working
    without network. *)
Theorem element_file_round_trip
    (catnr : Z) (name line1 line2 : string) (w : world) :
  clean_line name -> clean_line line1 -> clean_line line2 ->
  valid_record catnr line1 line2 ->
  let w1 := snd (TleStore._atomic_write_tle E catnr name line1 line2 w) in
  TleStore._read_tle_file (TleStore._tle_path catnr) catnr w1
  = (Ok (mkTLE name line1 line2), w1)
  /\ forall key,
       TleStore.satellites_get (PyStr.upper (PyStr.strip key)) TleStore.SATELLITES
       = Some catnr ->
       TleStore.get_satellite_by_key E key false w1
       = (Ok (PyStr.upper (PyStr.strip key), catnr, mkTLE name line1 line2), w1).
Proof.
  intros Hname Hline1 Hline2 (Hp1 & Hp2 & Hcat). cbv zeta.
  rewrite (atomic_write_tle_effect E). cbv zeta. cbn [snd].
  set (w1 := World _ _ _ _ _).
  assert (Hf : fs w1 !! TleStore._tle_path catnr
               = Some (File (tle_text name line1 line2) (clock E (S (ticks w))))).
  { subst w1. cbn [fs]. apply lookup_insert_eq. }
  pose proof (parse_of_tle_text catnr name line1 line2 Hname Hline1 Hline2
                (conj Hp1 (conj Hp2 Hcat))) as Hparse.
  split.
  - rewrite (read_tle_file_effect _ _ _ _ Hf). cbn [content]. by rewrite Hparse.
  - intros key Hkey. rewrite (resolver_offline_effect E), Hkey, Hf.
    cbn [content]. by rewrite Hparse.
Qed.

(** Whatever the free-text locator returns can be committed and read
    back: written by [_atomic_write_tle], the record is returned field for
    field by [_read_tle_file]. *)
Theorem located_record_round_trip
    (text : string) (catnr : Z) (name line1 line2 : string) (w : world) :
  TleStore._parse_tle_text_any text catnr = Some (name, line1, line2) ->
  let w1 := snd (TleStore._atomic_write_tle E catnr name line1 line2 w) in
  TleStore._read_tle_file (TleStore._tle_path catnr) catnr w1
  = (Ok (mkTLE name line1 line2), w1).
Proof.
  intros Hfound. cbv zeta.
  destruct (locate_valid _ _ _ _ _ Hfound) as (Hvalid & Hn & H1 & H2).
  apply nonblank_stripped_lines_clean in Hn, H1, H2.
  rewrite (atomic_write_tle_effect E). cbv zeta. cbn [snd].
  set (w1 := World _ _ _ _ _).
  assert (Hf : fs w1 !! TleStore._tle_path catnr
               = Some (File (tle_text name line1 line2) (clock E (S (ticks w))))).
  { subst w1. cbn [fs]. apply lookup_insert_eq. }
  rewrite (read_tle_file_effect _ _ _ _ Hf). cbn [content].
  by rewrite (parse_of_tle_text catnr name line1 line2 Hn H1 H2 Hvalid).
Qed.

End RoundTrip.

Lemma located_record_round_trip_witness :
  let w1 := snd (TleStore._atomic_write_tle Demo.offline 25544
                   Demo.iss_name Demo.iss_line1 Demo.iss_line2 Demo.empty_world) in
  TleStore._read_tle_file (TleStore._tle_path 25544) 25544 w1
  = (Ok (mkTLE Demo.iss_name Demo.iss_line1 Demo.iss_line2), w1).
Proof.
  apply (located_record_round_trip Demo.offline Demo.iss_text 25544
           Demo.iss_name Demo.iss_line1 Demo.iss_line2 Demo.empty_world).
  reflexivity.
Defined.

Lemma element_file_round_trip_witness :
  let w1 := snd (TleStore._atomic_write_tle Demo.offline 25544
                   Demo.iss_name Demo.iss_line1 Demo.iss_line2 Demo.empty_world) in
  TleStore._read_tle_file (TleStore._tle_path 25544) 25544 w1
  = (Ok (mkTLE Demo.iss_name Demo.iss_line1 Demo.iss_line2), w1)
  /\ forall key,
       TleStore.satellites_get (PyStr.upper (PyStr.strip key)) TleStore.SATELLITES
       = Some 25544 ->
       TleStore.get_satellite_by_key Demo.offline key false w1
       = (Ok (PyStr.upper (PyStr.strip key), 25544,
              mkTLE Demo.iss_name Demo.iss_line1 Demo.iss_line2), w1).
Proof.
  apply (element_file_round_trip Demo.offline 25544
           Demo.iss_name Demo.iss_line1 Demo.iss_line2 Demo.empty_world);
    repeat split; reflexivity.
Defined.

(** ** Freshness after a write *)

Section Freshness.

Variable E : externals.

(** Once [_write_meta] has run, with codecs that give back what they were
    given, [_read_meta] returns the record written, the age is counted from
    its timestamp, and as long as the clock shows no more than the TTL past
    that timestamp neither [_needs_refresh] nor [is_stale] asks for a
    refresh. *)
Theorem written_meta_makes_slot_fresh (catnr : Z) (source : string) (w : world) :
  let now := clock E (ticks w) in
  let record := meta_record E catnr now source in
  let w' := snd (TleStore._write_meta E catnr source w) in
  json_loads E (json_dumps E record) = Some record ->
  (exists dt, fromisoformat E (isoformat E now) = Some dt /\ TleStore.instant dt = now) ->
  PyStr.is_empty (isoformat E now) = false ->
  TleStore._read_meta E catnr w' = (Ok record, w')
  /\ TleStore.tle_age_seconds E catnr w'
     = (Ok (Some (PyNum.int_total_seconds (clock E (ticks w') - now))), read_clock w')
  /\ (clock E (ticks w') - now <= TleStore.TLE_TTL ->
      TleStore._needs_refresh E catnr w' = (Ok false, read_clock w')
      /\ TleStore.is_stale E catnr w' = (Ok false, read_clock w')).
Proof.
  cbv zeta. intros Hjson (dt & Hiso & Hinstant) Hfull.
  rewrite (write_meta_effect E). cbv zeta. cbn [snd].
  set (w' := World _ _ _ _ _).
  assert (Hmeta : stored_meta E catnr w'
                  = meta_record E catnr (clock E (ticks w)) source).
  { unfold stored_meta. subst w'. cbn [fs]. rewrite lookup_insert_eq. cbn [content].
    by rewrite Hjson. }
  assert (Hstamp : Json.lookup_entry "fetched_at_utc"
                     [("catnr", Json.Int catnr);
                      ("fetched_at_utc", Json.Str (isoformat E (clock E (ticks w))));
                      ("source", Json.Str source)]
                   = Some (Json.Str (isoformat E (clock E (ticks w))))) by reflexivity.
  pose proof (tle_age_with_stamp E catnr w' _ _ dt Hmeta eq_refl Hstamp Hfull Hiso) as Hage.
  pose proof (needs_refresh_with_stamp E catnr w' _ _ dt Hmeta eq_refl Hstamp Hiso) as Hneeds.
  rewrite Hinstant in Hage, Hneeds.
  split; [by rewrite read_meta_effect, Hmeta|]. split; [exact Hage|].
  intros Hyoung. split.
  - rewrite Hneeds. f_equal. f_equal. apply Z.ltb_ge. exact Hyoung.
  - unfold TleStore.is_stale, bind. rewrite Hage. unfold ret. f_equal. f_equal.
    apply Z.ltb_ge.
    pose proof (Z.quot_le_mono (clock E (ticks w') - clock E (ticks w))
                  TleStore.TLE_TTL 1000000 ltac:(lia) Hyoung) as Hq.
    exact Hq.
Qed.

End Freshness.

Lemma written_meta_makes_slot_fresh_witness :
  let now := clock Scenario.online (ticks Demo.empty_world) in
  let record := meta_record Scenario.online 25544 now "celestrak" in
  let w' := snd (TleStore._write_meta Scenario.online 25544 "celestrak" Demo.empty_world) in
  TleStore._read_meta Scenario.online 25544 w' = (Ok record, w')
  /\ TleStore.tle_age_seconds Scenario.online 25544 w'
     = (Ok (Some (PyNum.int_total_seconds (clock Scenario.online (ticks w') - now))),
        read_clock w')
  /\ (clock Scenario.online (ticks w') - now <= TleStore.TLE_TTL ->
      TleStore._needs_refresh Scenario.online 25544 w' = (Ok false, read_clock w')
      /\ TleStore.is_stale Scenario.online 25544 w' = (Ok false, read_clock w')).
Proof.
  apply (written_meta_makes_slot_fresh Scenario.online 25544 "celestrak" Demo.empty_world).
  - reflexivity.
  - eexists. split; reflexivity.
  - reflexivity.
Defined.

(** ** More on the pass reducer *)

Section PassAlgebra.

Variable E : externals.
Variable sat : TLE.

Local Open Scope list_scope.

Lemma passes_loop_prefix events :
  forall results current,
    Passes.passes_loop E sat events results current
    = results ++ Passes.passes_loop E sat events [] current.
Proof.
  induction events as [|[t e] rest IH]; intros results current; simpl.
  - by rewrite app_nil_r.
  - destruct (e =? 0); [apply IH|].
    destruct (e =? 1); [apply IH|].
    destruct (e =? 2); [|apply IH].
    case_bool_decide; [|apply IH].
    rewrite IH, (IH [_]), app_assoc. reflexivity.
Qed.

Lemma passes_loop_cut events t rest :
  forall results current,
    Passes.passes_loop E sat (events ++ (t, 2) :: rest) results current
    = Passes.passes_loop E sat (events ++ [(t, 2)]) results current
      ++ Passes.passes_loop E sat rest [] ∅.
Proof.
  induction events as [|[t' e] events IH]; intros results current.
  - simpl. apply passes_loop_prefix.
  - rewrite <- !app_comm_cons. cbn [Passes.passes_loop].
    destruct (e =? 0); [apply IH|].
    destruct (e =? 1); [apply IH|].
    destruct (e =? 2); apply IH.
Qed.

(** A window cut right after a set event: its passes are the passes up to
    the cut followed by the passes after it, so a long window and its
    pieces report the same passes. *)
Theorem passes_split_at_set (before after : list (Z * Z)) (t : Z) :
  Passes.passes_loop E sat (before ++ (t, 2) :: after) [] ∅
  = Passes.passes_loop E sat (before ++ [(t, 2)]) [] ∅
    ++ Passes.passes_loop E sat after [] ∅.
Proof. apply passes_loop_cut. Qed.

Lemma empty_has_no_elevation :
  ~ is_Some ((∅ : gmap string Passes.field) !! "max_elevation_deg").
Proof. rewrite lookup_empty. intros [? ?]. discriminate. Qed.

Lemma passes_loop_counts events :
  forall results current,
    (List.length (Passes.passes_loop E sat events results current)
     <= List.length results + count_kind 2 events)%nat
    /\ (List.length (Passes.passes_loop E sat events results current)
        <= List.length results + count_kind 1 events
           + (if bool_decide (is_Some (current !! "max_elevation_deg"))
              then 1 else 0))%nat.
Proof.
  unfold count_kind.
  induction events as [|[t e] rest IH]; intros results current;
    cbn [Passes.passes_loop List.filter snd].
  - simpl. lia.
  - destruct (Z.eqb_spec e 0) as [->|H0].
    { destruct (IH results (<["rise_uy" := Passes.IsoUy t]>
                              (<["rise_utc" := Passes.IsoUtc t]> ∅))) as [Ha Hb].
      rewrite bool_decide_eq_false_2 in Hb
        by (intros [? ?]; simplify_map_eq).
      simpl. lia. }
    destruct (Z.eqb_spec e 1) as [->|H1].
    { match goal with |- context [Passes.passes_loop E sat rest results ?c] =>
        destruct (IH results c) as [Ha Hb];
        rewrite (bool_decide_eq_true_2 (is_Some (c !! "max_elevation_deg"))) in Hb
          by (rewrite lookup_insert_eq; eauto)
      end.
      simpl. case_bool_decide; lia. }
    destruct (Z.eqb_spec e 2) as [->|H2].
    { set (closed := <["set_uy" := Passes.IsoUy t]>
                       (<["set_utc" := Passes.IsoUtc t]> current)).
      assert (Hsame : bool_decide (is_Some (closed !! "max_elevation_deg"))
                      = bool_decide (is_Some (current !! "max_elevation_deg"))).
      { subst closed. by rewrite !lookup_insert_ne. }
      rewrite Hsame.
      match goal with |- context [Passes.passes_loop E sat rest ?r ∅] =>
        destruct (IH r ∅) as [Ha Hb]
      end.
      rewrite (bool_decide_eq_false_2 _ empty_has_no_elevation) in Hb.
      replace (1 =? 2) with false by reflexivity.
      simpl. case_bool_decide; simpl in *; rewrite ?length_app in *; simpl in *; lia. }
    destruct (IH results current) as [Ha Hb].
    replace (e =? 2) with false by (symmetry; by apply Z.eqb_neq).
    replace (e =? 1) with false by (symmetry; by apply Z.eqb_neq).
    split; assumption.
Qed.

(** No more passes than set events, and no more than culmination events. *)
Theorem passes_bounded_by_events (events : list (Z * Z)) :
  (List.length (Passes.passes_loop E sat events [] ∅) <= count_kind 2 events)%nat
  /\ (List.length (Passes.passes_loop E sat events [] ∅) <= count_kind 1 events)%nat.
Proof.
  destruct (passes_loop_counts events [] ∅) as [Ha Hb].
  rewrite (bool_decide_eq_false_2 _ empty_has_no_elevation) in Hb.
  simpl in *. lia.
Qed.

Lemma passes_loop_rise_set events t_rise t_set rest :
  forall results current,
    Passes.passes_loop E sat (events ++ (t_rise, 0) :: (t_set, 2) :: rest) results current
    = Passes.passes_loop E sat events results current
      ++ Passes.passes_loop E sat rest [] ∅.
Proof.
  induction events as [|[t e] events IH]; intros results current.
  - simpl. rewrite bool_decide_eq_false_2 by (intros [? ?]; simplify_map_eq).
    apply passes_loop_prefix.
  - rewrite <- !app_comm_cons. cbn [Passes.passes_loop].
    destruct (e =? 0); [apply IH|].
    destruct (e =? 1); [apply IH|].
    destruct (e =? 2); apply IH.
Qed.

(** A rise followed at once by a set reports nothing: the passes are those
    already complete before the rise and those of the events after the
    set; a culmination pending before the rise is dropped. *)
Theorem rise_then_set_reports_nothing
    (before after : list (Z * Z)) (t_rise t_set : Z) :
  Passes.passes_loop E sat (before ++ (t_rise, 0) :: (t_set, 2) :: after) [] ∅
  = Passes.passes_loop E sat before [] ∅ ++ Passes.passes_loop E sat after [] ∅.
Proof. apply passes_loop_rise_set. Qed.

End PassAlgebra.

(** ** More on the locator and the catalog-number reader *)

Section LocatorComplete.

Lemma first_some_complete {A B} (f : A -> option B) (l : list A) (x : A) :
  x ∈ l -> is_Some (f x) -> is_Some (TleStore.first_some f l).
Proof.
  induction l as [|y rest IH]; intros Hin Hx; [by apply not_elem_of_nil in Hin|].
  simpl. destruct (f y) as [b|] eqn:Hy; [eauto|].
  apply elem_of_cons in Hin as [->|Hin]; [|auto].
  rewrite Hy in Hx. by destruct Hx.
Qed.

(** The locator finds a record whenever the non-blank lines hold, anywhere
    after the first line, a line beginning "1 " with the requested catalog
    number followed by a line beginning "2 ". *)
Theorem locator_finds_any_match
    (text : string) (catnr : Z) (i : nat) (line1 line2 : string) :
  PyStr.nonblank_stripped_lines text !! S i = Some line1 ->
  PyStr.nonblank_stripped_lines text !! S (S i) = Some line2 ->
  valid_record catnr line1 line2 ->
  is_Some (TleStore._parse_tle_text_any text catnr).
Proof.
  intros H1 H2 (Hp1 & Hp2 & Hcat).
  unfold TleStore._parse_tle_text_any, TleStore.locate.
  apply (first_some_complete _ _ (S i)).
  - apply list_elem_of_In, in_seq. apply lookup_lt_Some in H2. lia.
  - unfold TleStore.locate_at.
    rewrite H1, Hp1, Hcat, Z.eqb_refl, Nat.add_1_r, H2, Hp2. simpl. eauto.
Qed.

Lemma digit_value_nonneg c : PyStr.is_ascii_digit c = true -> 0 <= PyStr.digit_value c.
Proof.
  unfold PyStr.is_ascii_digit, PyStr.in_range, PyStr.digit_value.
  intros Hd. apply andb_prop in Hd as [Hlo _]. apply Nat.leb_le in Hlo. lia.
Qed.

Lemma decimal_from_nonneg s :
  forall acc, 0 <= acc -> PyStr.all_chars PyStr.is_ascii_digit s = true ->
              0 <= PyStr.decimal_from acc s.
Proof.
  induction s as [|c s IH]; intros acc Hacc Hall; [exact Hacc|]. simpl in *.
  apply andb_prop in Hall as [Hc Hs]. apply IH; [|exact Hs].
  pose proof (digit_value_nonneg c Hc). lia.
Qed.

(** A catalog number read from a line is never negative: a sign in the
    second token is dropped with the other non-digits. *)
Theorem parsed_catnr_nonnegative (line1 : string) (n : Z) :
  TleStore._parse_catnr_from_line1 line1 = Ok n -> 0 <= n.
Proof.
  unfold TleStore._parse_catnr_from_line1, PyStr.int_of_digits.
  destruct (PyStr.split line1 !! 1%nat) as [token|]; [|discriminate].
  destruct (PyStr.is_empty _); [discriminate|].
  destruct (PyStr.all_chars PyStr.is_ascii_digit _) eqn:Hall; [|discriminate].
  intros Hn. injection Hn as <-. by apply decimal_from_nonneg.
Qed.

End LocatorComplete.

Lemma parsed_catnr_nonnegative_witness :
  TleStore._parse_catnr_from_line1 Demo.iss_line1 = Ok 25544 /\ 0 <= 25544.
Proof.
  split; [reflexivity|].
  apply (parsed_catnr_nonnegative Demo.iss_line1 25544). reflexivity.
Defined.

Lemma locator_finds_any_match_witness :
  is_Some (TleStore._parse_tle_text_any Demo.iss_text 25544).
Proof.
  apply (locator_finds_any_match Demo.iss_text 25544 0 Demo.iss_line1 Demo.iss_line2).
  - reflexivity.
  - reflexivity.
  - repeat split; reflexivity.
Defined.

(** ** More on ground tracks *)

Section TrackOrder.

Variable E : externals.

Local Open Scope list_scope.

(** [compute_track_now], for every accepted [minutes] and [step_seconds]:
    the samples are [start + k * step] for [k = 0 .. 60 * minutes // step],
    none is later than [end], one more step would pass [end], and there are
    between 1 and 10801 of them. *)
Theorem track_now_samples_fill_window
    (key : string) (minutes : Z) (step : positive) (w w1 : world) (k : string)
    (catnr : Z) (sat : TLE) :
  1 <= minutes <= 180 -> Z.pos step <= 120 ->
  TleStore.get_satellite_by_key E key true w = (Ok (k, catnr, sat), w1) ->
  exists r,
    TrackNow.compute_track_now E key minutes (Z.pos step) w = (Ok r, read_clock w1)
    /\ let n := Z.to_nat (60 * minutes / Z.pos step + 1) in
       TrackNow.t_utc <$> TrackNow.points r
       = (fun j : nat => TrackNow.start_utc r + Z.of_nat j * PyNum.seconds (Z.pos step))
         <$> seq 0 n
       /\ 1 <= Z.of_nat n <= 10801
       /\ Forall (fun t => TrackNow.start_utc r <= t <= TrackNow.end_utc r)
                 (TrackNow.t_utc <$> TrackNow.points r)
       /\ TrackNow.end_utc r
          < TrackNow.start_utc r + Z.of_nat n * PyNum.seconds (Z.pos step).
Proof.
  intros Hmin Hmax Hres.
  rewrite (compute_track_now_outcome E key minutes step w k catnr sat w1 Hmin Hres Hmax).
  eexists. split; [reflexivity|].
  cbn [TrackNow.start_utc TrackNow.end_utc TrackNow.points].
  assert (Hq : 0 <= 60 * minutes / Z.pos step) by (apply Z.div_pos; lia).
  assert (Hqmax : 60 * minutes / Z.pos step <= 10800).
  { apply Z.div_le_upper_bound; lia. }
  assert (Hlow : Z.pos step * (60 * minutes / Z.pos step) <= 60 * minutes).
  { apply Z.mul_div_le. lia. }
  assert (Hhigh : 60 * minutes < Z.pos step * (60 * minutes / Z.pos step + 1)).
  { pose proof (Z.mod_pos_bound (60 * minutes) (Z.pos step) ltac:(lia)).
    pose proof (Z.div_mod (60 * minutes) (Z.pos step) ltac:(lia)). lia. }
  assert (Htimes : TrackNow.t_utc <$> TrackNow.points_of E sat
                (TrackNow.times_loop (clock E (ticks w1))
                   (clock E (ticks w1) + PyNum.minutes minutes)
                   (step * 1000000)%positive)
              = (fun j : nat => clock E (ticks w1)
                                + Z.of_nat j * PyNum.seconds (Z.pos step))
                <$> seq 0 (Z.to_nat (60 * minutes / Z.pos step + 1))).
  { unfold TrackNow.points_of. rewrite <- list_fmap_compose.
    rewrite <- (times_loop_window _ _ _ (ltac:(lia) : 0 <= minutes)).
    rewrite <- (list_fmap_id (TrackNow.times_loop _ _ _)) at 2.
    apply list_fmap_ext. intros _ t _. simpl.
    destruct (subpoint_degrees E sat (inject_Z t)). reflexivity. }
  rewrite Htimes. split; [reflexivity|].
  split; [rewrite Z2Nat.id by lia; lia|]. split.
  - apply List.Forall_forall. intros t Ht.
    apply list_elem_of_In, list_elem_of_fmap in Ht as (j & -> & Hj).
    apply list_elem_of_In, in_seq in Hj.
    unfold PyNum.minutes, PyNum.seconds. nia.
  - rewrite Z2Nat.id by lia. unfold PyNum.minutes, PyNum.seconds. nia.
Qed.

Lemma linspace_step_lt (s d a b : Z) (p : positive) :
  a < b -> 0 < d ->
  (inject_Z s + inject_Z a * inject_Z d / inject_Z (Z.pos p)
   < inject_Z s + inject_Z b * inject_Z d / inject_Z (Z.pos p))%Q.
Proof.
  intros Hab Hd. apply Qplus_lt_r. unfold Qdiv.
  apply Qmult_lt_compat_r; [reflexivity|].
  rewrite <- !inject_Z_mult, <- Zlt_Qlt. nia.
Qed.

Lemma linspace_step_le (s d a b : Z) (p : positive) :
  a <= b -> 0 <= d ->
  (inject_Z s + inject_Z a * inject_Z d / inject_Z (Z.pos p)
   <= inject_Z s + inject_Z b * inject_Z d / inject_Z (Z.pos p))%Q.
Proof.
  intros Hab Hd. apply Qplus_le_r. unfold Qdiv.
  apply Qmult_le_compat_r; [|discriminate].
  rewrite <- !inject_Z_mult, <- Zle_Qle. nia.
Qed.

(** [compute_track], for [start < end] and a non-zero step: the samples
    come in strictly increasing time order and none lies outside
    [[start, end]]. *)
Theorem track_samples_ordered_in_window
    (key start_utc end_utc : string) (w w1 : world) (k : string) (catnr : Z)
    (sat : TLE) (s e step : Z) :
  TleStore.get_satellite_by_key E key true w = (Ok (k, catnr, sat), w1) ->
  Passes._parse_iso_utc E start_utc = Ok s ->
  Passes._parse_iso_utc E end_utc = Ok e ->
  s < e -> step <> 0 ->
  exists r,
    Track.compute_track E key start_utc end_utc step w = (Ok r, w1)
    /\ (forall (i j : nat) p q,
          (i < j)%nat ->
          Track.points r !! i = Some p -> Track.points r !! j = Some q ->
          (Track.t_utc p < Track.t_utc q)%Q)
    /\ Forall (fun p => (inject_Z s <= Track.t_utc p <= inject_Z e)%Q)
              (Track.points r).
Proof.
  intros Hres Hs He Hlt Hstep.
  rewrite (compute_track_outcome E key start_utc end_utc step w k catnr sat w1 s e
             Hres Hs He).
  replace (e <=? s) with false by (symmetry; apply Z.leb_gt; lia).
  replace (step =? 0) with false by (symmetry; apply Z.eqb_neq; lia).
  cbv zeta. eexists. split; [reflexivity|]. cbn [Track.points].
  rewrite track_loop_maps. cbn [fst].
  pose proof (sample_count_at_least_two s e step) as Htwo.
  set (n := Z.to_nat (Track.sample_count s e step)) in *.
  assert (Hn : Z.of_nat n - 1 = Z.pos (Z.to_pos (Z.of_nat n - 1))).
  { rewrite Z2Pos.id; lia. }
  assert (Hat : forall i p,
             ((fun t => Track.Point t t
                          (PyNum.round_ndigits (fst (subpoint_degrees E sat t)) 6)
                          (PyNum.round_ndigits (snd (subpoint_degrees E sat t)) 6))
                <$> Track.linspace s e n) !! i = Some p ->
             (i < n)%nat
             /\ Track.t_utc p
                = (inject_Z s + inject_Z (Z.of_nat i) * inject_Z (e - s)
                                / inject_Z (Z.pos (Z.to_pos (Z.of_nat n - 1))))%Q).
  { intros i p Hp. rewrite list_lookup_fmap in Hp.
    destruct (Track.linspace s e n !! i) as [t|] eqn:Ht; [|discriminate].
    simpl in Hp. injection Hp as <-. cbn [Track.t_utc].
    assert (Hi : (i < n)%nat).
    { apply lookup_lt_Some in Ht. by rewrite linspace_length in Ht. }
    rewrite (linspace_lookup _ _ _ _ Hi) in Ht. injection Ht as <-.
    rewrite <- Hn. auto. }
  split.
  - intros i j p q Hij Hp Hq.
    destruct (Hat i p Hp) as [_ ->]. destruct (Hat j q Hq) as [_ ->].
    apply linspace_step_lt; lia.
  - apply List.Forall_forall. intros p Hp.
    apply list_elem_of_In, list_elem_of_lookup in Hp as [i Hp].
    destruct (Hat i p Hp) as [Hi ->]. split.
    + apply Qle_trans
        with (inject_Z s + inject_Z 0 * inject_Z (e - s)
                           / inject_Z (Z.pos (Z.to_pos (Z.of_nat n - 1))))%Q.
      * apply Qle_lteq. right. unfold Qdiv. ring.
      * apply linspace_step_le; lia.
    + apply Qle_trans
        with (inject_Z s + inject_Z (Z.of_nat n - 1) * inject_Z (e - s)
                           / inject_Z (Z.pos (Z.to_pos (Z.of_nat n - 1))))%Q.
      * apply linspace_step_le; lia.
      * apply Qle_lteq. right. rewrite <- Hn.
        assert (Hnz : ~ (inject_Z (Z.of_nat n - 1) == 0)%Q).
        { change 0%Q with (inject_Z 0). rewrite inject_Z_injective. lia. }
        rewrite <- (Z.add_opp_r e s), inject_Z_plus, inject_Z_opp. field. exact Hnz.
Qed.

End TrackOrder.

Lemma track_samples_ordered_in_window_witness :
  exists r,
    Track.compute_track Demo.offline "ISS"
      "2024-01-01T00:00:00Z" "2024-01-01T00:01:30Z" 10 Demo.seeded
    = (Ok r, read_clock Demo.seeded)
    /\ (forall (i j : nat) p q,
          (i < j)%nat ->
          Track.points r !! i = Some p -> Track.points r !! j = Some q ->
          (Track.t_utc p < Track.t_utc q)%Q)
    /\ Forall (fun p => (inject_Z Demo.new_year <= Track.t_utc p
                         <= inject_Z (Demo.new_year + PyNum.seconds 90))%Q)
              (Track.points r).
Proof.
  apply (track_samples_ordered_in_window Demo.offline "ISS"
           "2024-01-01T00:00:00Z" "2024-01-01T00:01:30Z"
           Demo.seeded (read_clock Demo.seeded) "ISS" 25544 Demo.iss
           Demo.new_year (Demo.new_year + PyNum.seconds 90) 10).
  - reflexivity.
  - reflexivity.
  - reflexivity.
  - reflexivity.
  - discriminate.
Defined.

Lemma track_now_samples_fill_window_witness :
  exists r,
    TrackNow.compute_track_now Demo.offline "ISS" 1 (Z.pos 30) Demo.seeded
    = (Ok r, read_clock (read_clock Demo.seeded))
    /\ let n := Z.to_nat (60 * 1 / Z.pos 30 + 1) in
       TrackNow.t_utc <$> TrackNow.points r
       = (fun j : nat => TrackNow.start_utc r + Z.of_nat j * PyNum.seconds (Z.pos 30))
         <$> seq 0 n
       /\ 1 <= Z.of_nat n <= 10801
       /\ Forall (fun t => TrackNow.start_utc r <= t <= TrackNow.end_utc r)
                 (TrackNow.t_utc <$> TrackNow.points r)
       /\ TrackNow.end_utc r
          < TrackNow.start_utc r + Z.of_nat n * PyNum.seconds (Z.pos 30).
Proof.
  apply (track_now_samples_fill_window Demo.offline "ISS" 1 30 Demo.seeded
           (read_clock Demo.seeded) "ISS" 25544 Demo.iss).
  - lia.
  - lia.
  - reflexivity.
Defined.

(** ** Status reports, refresh of the whole catalogue, startup *)

Section Reports.

Variable E : externals.

Local Open Scope list_scope.

Lemma int_total_seconds_mono a b :
  a <= b -> PyNum.int_total_seconds a <= PyNum.int_total_seconds b.
Proof. intros H. unfold PyNum.int_total_seconds. apply Z.quot_le_mono; lia. Qed.


Lemma age_base_none catnr w :
  age_base E catnr w = Ok None -> fs w !! TleStore._tle_path catnr = None.
Proof.
  unfold age_base. intros H.
  assert (Hfile : Ok (mtime <$> fs w !! TleStore._tle_path catnr)
                  = @Ok (option Z) None ->
                  fs w !! TleStore._tle_path catnr = None).
  { destruct (fs w !! TleStore._tle_path catnr); [discriminate|reflexivity]. }
  destruct (Json.truthy (stored_meta E catnr w)); [|auto].
  destruct (stored_meta E catnr w) as [| | | | | |entries]; try discriminate.
  destruct (Json.truthy (Json.dict_get entries "fetched_at_utc")); [|auto].
  destruct (Json.dict_get entries "fetched_at_utc") as [| | | |s| |]; auto.
  destruct (fromisoformat E s); [discriminate|auto].
Qed.

Lemma mtime_utc_effect catnr w :
  StoreQueries.tle_file_mtime_utc E catnr w
  = (Ok ((fun f => isoformat E (mtime f)) <$> fs w !! TleStore._tle_path catnr), w).
Proof.
  unfold StoreQueries.tle_file_mtime_utc, bind, ret, TleStore.stat_mtime.
  rewrite path_exists_effect.
  destruct (fs w !! TleStore._tle_path catnr) as [f|] eqn:Hf; simpl;
    rewrite ?Hf; reflexivity.
Qed.

Lemma one_outcome key catnr w :
  TleStore.satellites_get key TleStore.SATELLITES = Some catnr ->
  Status.one E key w
  = let has := match fs w !! TleStore._tle_path catnr with
               | Some _ => true
               | None => false
               end in
    let at_ := (fun f => isoformat E (mtime f)) <$> fs w !! TleStore._tle_path catnr in
    let ttl := PyNum.int_total_seconds TleStore.TLE_TTL in
    match age_base E catnr w with
    | Raise e => (Raise e, w)
    | Ok None =>
        (Ok (Status.Report key catnr has at_ (stored_meta E catnr w) None None ttl true), w)
    | Ok (Some ref) =>
        let a := PyNum.int_total_seconds (clock E (ticks w) - ref) in
        let a' := PyNum.int_total_seconds (clock E (S (ticks w)) - ref) in
        (Ok (Status.Report key catnr has at_ (stored_meta E catnr w) (Some a)
               (Some (PyNum.round_ndigits (inject_Z a / 60) 2)) ttl (ttl <? a')),
         read_clock (read_clock w))
    end.
Proof.
  intros Hkey. unfold Status.one. rewrite Hkey.
  unfold StoreQueries.read_meta_public. unfold bind at 1.
  rewrite read_meta_effect. unfold bind at 1. rewrite tle_age_by_base.
  destruct (age_base E catnr w) as [[ref|]|e] eqn:Hbase; cbv zeta.
  - unfold bind at 1. unfold StoreQueries.tle_file_exists.
    rewrite path_exists_effect. unfold bind at 1. rewrite mtime_utc_effect.
    unfold bind at 1. rewrite is_stale_by_base, age_base_read_clock, Hbase.
    reflexivity.
  - unfold bind at 1. unfold StoreQueries.tle_file_exists.
    rewrite path_exists_effect. unfold bind at 1. rewrite mtime_utc_effect.
    unfold bind at 1. rewrite is_stale_by_base, Hbase. reflexivity.
  - reflexivity.
Qed.

(** [GET /tle/status], the report [one] builds for a catalogue key: the
    store is only read; when the clock does not run backwards a report
    that says [stale: false] carries an age of at most [ttl_seconds]; a
    report without an age says [stale: true] and [has_local: false]; and
    [one] raises only on metadata that is not an object. *)
Theorem status_report_consistent (key : string) (catnr : Z) (w : world) :
  (forall k, clock E k <= clock E (S k)) ->
  TleStore.satellites_get key TleStore.SATELLITES = Some catnr ->
  match Status.one E key w with
  | (Ok r, w') =>
      same_store w w'
      /\ Status.ttl_seconds r = 21600
      /\ (Status.stale r = false ->
          exists a, Status.age_seconds r = Some a /\ a <= Status.ttl_seconds r)
      /\ (Status.age_seconds r = None ->
          Status.stale r = true /\ Status.has_local r = false
          /\ Status.mtime_utc r = None)
  | (Raise e, w') =>
      w' = w /\ e = AttributeError
      /\ Json.truthy (stored_meta E catnr w) = true
      /\ TleStore.is_dict (stored_meta E catnr w) = false
  end.
Proof.
  intros Hclock Hkey. rewrite (one_outcome key catnr w Hkey). cbv zeta.
  destruct (age_base E catnr w) as [[ref|]|e] eqn:Hbase.
  - split; [by repeat split|]. split; [reflexivity|].
    cbn [Status.stale Status.age_seconds Status.ttl_seconds]. split.
    + intros Hfresh. eexists. split; [reflexivity|].
      apply Z.ltb_ge in Hfresh.
      etrans; [|exact Hfresh]. apply int_total_seconds_mono.
      specialize (Hclock (ticks w)). lia.
    + discriminate.
  - split; [by repeat split|]. split; [reflexivity|].
    cbn [Status.stale Status.age_seconds Status.has_local Status.mtime_utc].
    split; [discriminate|]. intros _.
    rewrite (age_base_none catnr w Hbase). by repeat split.
  - split; [reflexivity|]. unfold age_base in Hbase.
    destruct (Json.truthy (stored_meta E catnr w)); [|discriminate].
    destruct (stored_meta E catnr w) as [| | | | | |entries];
      try (injection Hbase as <-; by repeat split).
    exfalso.
    destruct (Json.truthy (Json.dict_get entries "fetched_at_utc"));
      [|discriminate].
    destruct (Json.dict_get entries "fetched_at_utc") as [| | | |s| |];
      try discriminate.
    destruct (fromisoformat E s); discriminate.
Qed.

End Reports.

Lemma status_report_consistent_witness :
  match Status.one Demo.offline "ISS" Demo.seeded with
  | (Ok r, w') =>
      same_store Demo.seeded w'
      /\ Status.ttl_seconds r = 21600
      /\ (Status.stale r = false ->
          exists a, Status.age_seconds r = Some a /\ a <= Status.ttl_seconds r)
      /\ (Status.age_seconds r = None ->
          Status.stale r = true /\ Status.has_local r = false
          /\ Status.mtime_utc r = None)
  | (Raise e, w') =>
      w' = Demo.seeded /\ e = AttributeError
      /\ Json.truthy (stored_meta Demo.offline 25544 Demo.seeded) = true
      /\ TleStore.is_dict (stored_meta Demo.offline 25544 Demo.seeded) = false
  end.
Proof.
  apply (status_report_consistent Demo.offline "ISS" 25544 Demo.seeded).
  - intros k. unfold Demo.offline, clock, PyNum.seconds. lia.
  - reflexivity.
Defined.

Section Catalogue.

Variable E : externals.

Local Open Scope list_scope.








End Catalogue.



(** ** The two readers of the element file *)

Section Readers.

Variable E : externals.

Local Open Scope list_scope.

Lemma strip_underscores_digits prev s d :
  PyStr.strip_underscores prev s = Some d ->
  PyStr.filter_chars PyStr.isdigit s = d
  /\ PyStr.all_chars PyStr.is_ascii_digit d = true.
Proof.
  revert prev d. induction s as [|c r IH]; intros prev d H;
    cbn [PyStr.strip_underscores] in H.
  - destruct prev; [|discriminate]. injection H as <-. auto.
  - cbn [PyStr.filter_chars]. destruct (PyStr.is_ascii_digit c) eqn:Hc.
    + destruct (PyStr.strip_underscores true r) as [d'|] eqn:Hr; [|discriminate].
      injection H as <-. destruct (IH _ _ Hr) as [Hf Ha].
      unfold PyStr.isdigit at 1. rewrite Hc. cbn [orb PyStr.all_chars].
      rewrite Hf, Hc, Ha. auto.
    + destruct (Ascii.eqb c "_") eqn:Hu; [|discriminate].
      apply Ascii.eqb_eq in Hu. subst c.
      destruct prev; [|discriminate]. cbn [andb] in H.
      destruct (IH _ _ H) as [Hf Ha].
      change (PyStr.isdigit "_") with false. cbv iota. auto.
Qed.

Lemma int_of_token_digits token n :
  PyStr.int_of_token token = Some n -> 0 <= n ->
  PyStr.is_empty (PyStr.filter_chars PyStr.isdigit token) = false
  /\ PyStr.int_of_digits (PyStr.filter_chars PyStr.isdigit token) = Some n.
Proof.
  assert (Hbody : forall body d,
            match body with
            | EmptyString => None
            | String c _ =>
                if PyStr.is_ascii_digit c then PyStr.strip_underscores true body
                else None
            end = Some d ->
            PyStr.filter_chars PyStr.isdigit body = d
            /\ PyStr.all_chars PyStr.is_ascii_digit d = true
            /\ PyStr.is_empty d = false).
  { intros [|c r] d H; [discriminate|].
    destruct (PyStr.is_ascii_digit c) eqn:Hc; [|discriminate].
    destruct (strip_underscores_digits _ _ _ H) as [Hf Ha].
    split; [exact Hf|]. split; [exact Ha|].
    cbn [PyStr.strip_underscores] in H. rewrite Hc in H.
    destruct (PyStr.strip_underscores true r); [|discriminate].
    by injection H as <-. }
  assert (Hdone : forall body d,
            PyStr.filter_chars PyStr.isdigit body = d ->
            PyStr.all_chars PyStr.is_ascii_digit d = true ->
            PyStr.is_empty d = false ->
            PyStr.decimal_from 0 d = n ->
            PyStr.is_empty (PyStr.filter_chars PyStr.isdigit body) = false
            /\ PyStr.int_of_digits (PyStr.filter_chars PyStr.isdigit body) = Some n).
  { intros body d -> Ha He <-. split; [exact He|].
    unfold PyStr.int_of_digits. by rewrite He, Ha. }
  intros H Hn. unfold PyStr.int_of_token in H.
  destruct token as [|c r]; [discriminate|].
  destruct (Ascii.eqb c "-") eqn:Hminus.
  { apply Ascii.eqb_eq in Hminus. subst c. cbv iota beta in H.
    change (PyStr.filter_chars PyStr.isdigit (String "-" r))
      with (PyStr.filter_chars PyStr.isdigit r).
    destruct r as [|c r]; [discriminate|].
    destruct (PyStr.is_ascii_digit c) eqn:Hc; [|discriminate].
    destruct (PyStr.strip_underscores true (String c r)) as [d|] eqn:Hd;
      [|discriminate].
    injection H as <-.
    destruct (Hbody (String c r) d) as (Hf & Ha & He); [by rewrite Hc|].
    apply (Hdone _ d Hf Ha He).
    pose proof (decimal_from_nonneg d 0 ltac:(lia) Ha). lia. }
  destruct (Ascii.eqb c "+") eqn:Hplus.
  { apply Ascii.eqb_eq in Hplus. subst c. cbv iota beta in H.
    change (PyStr.filter_chars PyStr.isdigit (String "+" r))
      with (PyStr.filter_chars PyStr.isdigit r).
    destruct r as [|c r]; [discriminate|].
    destruct (PyStr.is_ascii_digit c) eqn:Hc; [|discriminate].
    destruct (PyStr.strip_underscores true (String c r)) as [d|] eqn:Hd;
      [|discriminate].
    injection H as <-.
    destruct (Hbody (String c r) d) as (Hf & Ha & He); [by rewrite Hc|].
    apply (Hdone _ d Hf Ha He). reflexivity. }
  cbv iota beta in H.
  destruct (PyStr.is_ascii_digit c) eqn:Hc; [|discriminate].
  destruct (PyStr.strip_underscores true (String c r)) as [d|] eqn:Hd;
    [|discriminate].
  injection H as <-.
  destruct (Hbody (String c r) d) as (Hf & Ha & He); [by rewrite Hc|].
  apply (Hdone _ d Hf Ha He). reflexivity.
Qed.

Lemma store_reads_service_catnr line1 n :
  TleService.catnr_of_line1 line1 = Ok n -> 0 <= n ->
  TleStore._parse_catnr_from_line1 line1 = Ok n.
Proof.
  unfold TleService.catnr_of_line1, TleStore._parse_catnr_from_line1.
  destruct (PyStr.split line1 !! 1%nat) as [token|]; [|discriminate].
  destruct (PyStr.int_of_token token) as [m|] eqn:Htoken; [|discriminate].
  intros [= ->] Hn.
  destruct (int_of_token_digits token n Htoken Hn) as [He Hd].
  by rewrite He, Hd.
Qed.

Lemma read_local_effect catnr w :
  exists r, TleServiceFiles._read_local_tle catnr w = (Ok r, w).
Proof.
  unfold TleServiceFiles._read_local_tle, bind, ret, TleStore.read_text.
  rewrite path_exists_effect.
  destruct (fs w !! TleStore._tle_path catnr) as [f|] eqn:Hf; simpl;
    rewrite ?Hf; [|eauto].
  destruct (PyStr.nonblank_stripped_lines (content f)) as [|name [|line1 [|line2 ?]]];
    eauto.
  destruct (TleService.catnr_of_line1 line1); [|eauto].
  destruct (_ || _); eauto.
Qed.

(** A record that the service's reader of the element file returns, for a
    catalog number that is not negative, is the record the store's reader
    returns for the same file. *)
Theorem local_reader_agrees_with_store
    (catnr : Z) (w : world) (name line1 line2 : string) :
  0 <= catnr ->
  fst (TleServiceFiles._read_local_tle catnr w) = Ok (Some (name, line1, line2)) ->
  TleStore._read_tle_file (TleStore._tle_path catnr) catnr w
  = (Ok (mkTLE name line1 line2), w).
Proof.
  intros Hcat. unfold TleServiceFiles._read_local_tle, TleStore._read_tle_file,
    bind, ret, raise, lift, TleStore.read_text.
  rewrite path_exists_effect.
  destruct (fs w !! TleStore._tle_path catnr) as [f|] eqn:Hf; simpl;
    rewrite ?Hf; [|discriminate].
  destruct (PyStr.nonblank_stripped_lines (content f))
    as [|name' [|line1' [|line2' rest]]]; try discriminate.
  destruct (TleService.catnr_of_line1 line1') as [found|] eqn:Hfound;
    [|discriminate].
  destruct (found =? catnr) eqn:Heq; [|discriminate].
  apply Z.eqb_eq in Heq. subst found. cbn [negb orb].
  cbv zeta.
  destruct (PyStr.startswith line1' "1 ") eqn:H1; [|discriminate].
  destruct (PyStr.startswith line2' "2 ") eqn:H2; [|discriminate].
  rewrite (lstrip_bom_prefixed _ H1), H1.
  cbn [negb orb fst]. intros [= -> -> ->].
  rewrite (store_reads_service_catnr _ _ Hfound Hcat), Z.eqb_refl.
  reflexivity.
Qed.

End Readers.

Lemma local_reader_agrees_with_store_witness :
  TleStore._read_tle_file (TleStore._tle_path 25544) 25544 Scenario.unclassified
  = (Ok (mkTLE Demo.iss_name Scenario.unclassified_line1 Demo.iss_line2),
     Scenario.unclassified).
Proof.
  apply (local_reader_agrees_with_store 25544 Scenario.unclassified).
  - lia.
  - reflexivity.
Defined.

(** ** The service's cache and sources *)

Section ServiceFetch.

Variable E : externals.

Local Open Scope list_scope.

Lemma keep_effect c catnr r w :
  exists w',
    TleServiceFetch.keep E c catnr r w
    = (Ok (TleServiceFetch.Obtained r, <[catnr := (clock E (ticks w), r)]> c), w')
    /\ requests w' = requests w /\ ledger w' = ledger w
    /\ ticks w' = S (S (S (ticks w))).
Proof.
  destruct r as [[name line1] line2]. eexists. split; [reflexivity|].
  simpl. auto.
Qed.

Lemma tleapi_total catnr w :
  exists r w',
    TleServiceFetch._fetch_tle_from_tleapi E catnr w = (Ok r, w')
    /\ only_requested w w' [TleServiceFetch.tleapi_url catnr].
Proof.
  unfold TleServiceFetch._fetch_tle_from_tleapi, try_except, bind,
    TleStore.http_request, only_requested.
  destruct (http_get E (List.length (requests w)) (TleServiceFetch.tleapi_url catnr))
    as [|status text]; simpl.
  { do 2 eexists. split; [reflexivity|]. simpl. auto. }
  destruct (TleStore.is_success status); simpl.
  2:{ do 2 eexists. split; [reflexivity|]. simpl. auto. }
  destruct (json_loads E text) as [j|]; simpl.
  2:{ do 2 eexists. split; [reflexivity|]. simpl. auto. }
  unfold lift. destruct (TleServiceFetch.tleapi_record catnr j);
    do 2 eexists; (split; [reflexivity|]); simpl; auto.
Qed.

Lemma service_loop_settles c catnr urls :
  forall last_err w, exists res w',
    TleServiceFetch.celestrak_loop E c catnr urls last_err w = (Ok res, w')
    /\ settled E c catnr w urls res w'
    /\ (forall e, fst res = TleServiceFetch.NotObtained e ->
          urls <> [] \/ is_Some last_err -> is_Some e).
Proof.
  induction urls as [|url rest IH]; intros last_err w.
  - eexists _, w. split; [reflexivity|]. split.
    + split; [reflexivity|]. unfold only_requested. by rewrite app_nil_r.
    + simpl. intros e [= <-] [?|?]; [done|assumption].
  - cbn [TleServiceFetch.celestrak_loop]. unfold TleStore.http_request.
    set (w1 := World (ledger w) (fs w) (ticks w) (requests w ++ [url]) (history w)).
    assert (Hnext : forall err, exists res w',
      TleServiceFetch.celestrak_loop E c catnr rest (Some err) w1 = (Ok res, w')
      /\ settled E c catnr w (url :: rest) res w'
      /\ (forall e, fst res = TleServiceFetch.NotObtained e ->
            url :: rest <> [] \/ is_Some last_err -> is_Some e)).
    { intros err. destruct (IH (Some err) w1) as (res & w' & Hrun & Hset & Herr).
      exists res, w'. split; [exact Hrun|]. split.
      - unfold settled in *. destruct (fst res) as [r|e].
        + destruct Hset as (k & Hk & Hc & Hreq). exists k. split; [exact Hk|].
          split; [exact Hc|]. etrans; [|exact Hreq]. by apply prefix_app_r.
        + destruct Hset as (Hc & Hl & Hf & Ht & Hh & Hr). split; [exact Hc|].
          unfold only_requested. rewrite Hl, Hf, Ht, Hh, Hr. simpl.
          rewrite <- app_assoc. auto.
      - intros e He _. apply (Herr e He). right. eauto. }
    destruct (http_get E (List.length (requests w)) url) as [|status text].
    { apply Hnext. }
    destruct (status =? 403); [apply Hnext|].
    destruct (TleStore.is_success status); cbn [negb]; [|apply Hnext].
    destruct (TleService._parse_tle_text_any text catnr) as [[[name line1] line2]|];
      [|apply Hnext].
    destruct (keep_effect c catnr (Json.Str name, line1, line2) w1)
      as (w' & Hrun & Hreq & _ & Ht).
    eexists _, w'. split; [exact Hrun|]. split.
    + unfold settled. cbn [fst snd]. exists (ticks w). rewrite Ht, Hreq. simpl.
      split; [lia|]. split; [reflexivity|]. by apply prefix_app_r.
    + intros e. discriminate.
Qed.

Lemma fetch_uncached_settles c catnr w :
  exists res w',
    TleServiceFetch.fetch_uncached E c catnr w = (Ok res, w')
    /\ settled E c catnr w
         (TleServiceFetch.tleapi_url catnr :: TleStore.celestrak_urls catnr) res w'
    /\ (forall e, fst res = TleServiceFetch.NotObtained e -> is_Some e).
Proof.
  unfold TleServiceFetch.fetch_uncached. unfold bind at 1.
  destruct (read_local_effect catnr w) as [local Hlocal]. rewrite Hlocal.
  destruct local as [[[name line1] line2]|].
  { eexists _, _. split; [reflexivity|]. split.
    - unfold settled. cbn [fst snd]. exists (ticks w). simpl.
      split; [lia|]. split; reflexivity.
    - intros e. discriminate. }
  unfold bind.
  destruct (tleapi_total catnr w) as (alt & w1 & Halt & Hl & Hf & Ht & Hh & Hr).
  rewrite Halt. destruct alt as [r|].
  - destruct (keep_effect c catnr r w1) as (w' & Hrun & Hreq & _ & Hticks).
    eexists _, w'. split; [exact Hrun|]. split.
    + unfold settled. cbn [fst snd]. exists (ticks w1).
      rewrite Hticks, Hreq, Hr, Ht. split; [lia|]. split; [reflexivity|].
      by apply prefix_app_r.
    + intros e. discriminate.
  - destruct (service_loop_settles c catnr (TleStore.celestrak_urls catnr) None w1)
      as (res & w' & Hrun & Hset & Herr).
    exists res, w'. split; [exact Hrun|]. split.
    + unfold settled in *. destruct (fst res) as [r|e].
      * destruct Hset as (k & Hk & Hc & Hreq). exists k. rewrite <- Ht.
        split; [exact Hk|]. split; [exact Hc|]. etrans; [|exact Hreq].
        rewrite Hr. by apply prefix_app_r.
      * destruct Hset as (Hc & Hl' & Hf' & Ht' & Hh' & Hr'). split; [exact Hc|].
        unfold only_requested. rewrite Hl', Hf', Ht', Hh', Hr', Hl, Hf, Ht, Hh, Hr.
        rewrite <- app_assoc. auto.
    + intros e He. apply (Herr e He). left. discriminate.
Qed.

Lemma service_fetch_cases c catnr w :
  exists res w',
    TleServiceFetch.fetch_tle_from_celestrak E c catnr w = (Ok res, w')
    /\ match fst res with
       | TleServiceFetch.Obtained r => exists t, snd res !! catnr = Some (t, r)
       | TleServiceFetch.NotObtained last_err =>
           is_Some last_err
           /\ requests w'
              = requests w ++ TleServiceFetch.tleapi_url catnr
                              :: TleStore.celestrak_urls catnr
       end.
Proof.
  assert (Hmiss : forall w0, requests w0 = requests w ->
    exists res w',
      TleServiceFetch.fetch_uncached E c catnr w0 = (Ok res, w')
      /\ match fst res with
         | TleServiceFetch.Obtained r => exists t, snd res !! catnr = Some (t, r)
         | TleServiceFetch.NotObtained last_err =>
             is_Some last_err
             /\ requests w'
                = requests w ++ TleServiceFetch.tleapi_url catnr
                                :: TleStore.celestrak_urls catnr
         end).
  { intros w0 Hr.
    destruct (fetch_uncached_settles c catnr w0) as (res & w' & Hrun & Hset & Herr).
    exists res, w'. split; [exact Hrun|]. unfold settled in Hset.
    destruct (fst res) as [r|e].
    - destruct Hset as (k & _ & -> & _). eexists. apply lookup_insert_eq.
    - destruct Hset as (_ & _ & _ & _ & _ & Hr').
      split; [by apply Herr|]. by rewrite Hr', Hr. }
  unfold TleServiceFetch.fetch_tle_from_celestrak, TleServiceFetch._cache_get.
  unfold bind at 1.
  destruct (c !! catnr) as [[fetched_at r]|] eqn:Hc; [|by apply Hmiss].
  unfold bind, TleStore._now_utc, ret.
  destruct (_ <? _); [by apply Hmiss|].
  eexists _, _. split; [reflexivity|]. cbn [fst snd]. eauto.
Qed.

(** How a call of [fetch_tle_from_celestrak] has ended.  With a record: it
    is then in the cache under its catalog number.  With the function's
    [ValueError]: the error carries a last error, and the JSON source and
    both CelesTrak hostnames have each been asked once, in that order,
    and nothing else. *)
Theorem service_fetch_gives_up_after_every_source
    (c c' : TleServiceFetch.cache) (catnr : Z) (w w' : world)
    (o : TleServiceFetch.outcome) :
  TleServiceFetch.fetch_tle_from_celestrak E c catnr w = (Ok (o, c'), w') ->
  match o with
  | TleServiceFetch.Obtained r => exists t, c' !! catnr = Some (t, r)
  | TleServiceFetch.NotObtained last_err =>
      is_Some last_err
      /\ requests w'
         = requests w ++ TleServiceFetch.tleapi_url catnr
                         :: TleStore.celestrak_urls catnr
  end.
Proof.
  intros Hrun. destruct (service_fetch_cases c catnr w) as (res & w0 & Hrun0 & Hcase).
  rewrite Hrun0 in Hrun. injection Hrun as -> <-. exact Hcase.
Qed.

(** A record fetched with nothing cached for its catalog number is served
    again by the next call, from the cache and with nothing but one
    reading of the clock, as long as that reading is within [_CACHE_TTL]
    of the readings taken during the first call. *)
Theorem fetched_record_is_served_from_cache
    (c c' : TleServiceFetch.cache) (catnr : Z) (w w' : world)
    (r : TleServiceFetch.record) :
  c !! catnr = None ->
  TleServiceFetch.fetch_tle_from_celestrak E c catnr w
  = (Ok (TleServiceFetch.Obtained r, c'), w') ->
  (forall k, (ticks w <= k < ticks w')%nat ->
             clock E (ticks w') - clock E k <= TleServiceFetch._CACHE_TTL) ->
  TleServiceFetch.fetch_tle_from_celestrak E c' catnr w'
  = (Ok (TleServiceFetch.Obtained r, c'), read_clock w').
Proof.
  intros Hcold Hrun Hclock.
  unfold TleServiceFetch.fetch_tle_from_celestrak, TleServiceFetch._cache_get in Hrun.
  unfold bind at 1 in Hrun. rewrite Hcold in Hrun. cbn [ret] in Hrun.
  destruct (fetch_uncached_settles c catnr w) as (res & w1 & Hrun1 & Hset & _).
  rewrite Hrun1 in Hrun. injection Hrun as -> ->.
  unfold settled in Hset. cbn [fst snd] in Hset.
  destruct Hset as (k & Hk & -> & _).
  unfold TleServiceFetch.fetch_tle_from_celestrak, TleServiceFetch._cache_get.
  unfold bind at 1.
  match goal with
  | |- context [?m !! catnr] =>
      replace (m !! catnr) with (Some (clock E k, r))
        by (symmetry; apply lookup_insert_eq)
  end.
  unfold bind, TleStore._now_utc, ret.
  replace (_ <? _) with false; [reflexivity|].
  symmetry. apply Z.ltb_ge. apply Hclock. exact Hk.
Qed.

End ServiceFetch.

Lemma fetched_record_is_served_from_cache_witness :
  let c' : TleServiceFetch.cache :=
    <[25544 := (Demo.new_year, Scenario.unclassified_record)]> ∅ in
  TleServiceFetch.fetch_tle_from_celestrak Demo.offline c' 25544
    (read_clock Scenario.unclassified)
  = (Ok (TleServiceFetch.Obtained Scenario.unclassified_record, c'),
     read_clock (read_clock Scenario.unclassified)).
Proof.
  apply (fetched_record_is_served_from_cache Demo.offline ∅ _ 25544
           Scenario.unclassified).
  - reflexivity.
  - reflexivity.
  - intros k Hk. assert (k = 0%nat) as -> by (simpl in Hk; lia).
    vm_compute. discriminate.
Defined.

(** Without network and with nothing stored, the fetch gives up after the
    three requests. *)
Lemma service_fetch_gives_up_after_every_source_witness :
  let run := TleServiceFetch.fetch_tle_from_celestrak Demo.offline ∅ 25544
               Demo.empty_world in
  fst run = Ok (TleServiceFetch.NotObtained
                  (Some (TleServiceFetch.Caught TransportError)), ∅)
  /\ requests (snd run)
     = TleServiceFetch.tleapi_url 25544 :: TleStore.celestrak_urls 25544.
Proof.
  cbv zeta.
  assert (Hrun : TleServiceFetch.fetch_tle_from_celestrak Demo.offline ∅ 25544
                   Demo.empty_world
                 = (Ok (TleServiceFetch.NotObtained
                          (Some (TleServiceFetch.Caught TransportError)), ∅),
                    snd (TleServiceFetch.fetch_tle_from_celestrak Demo.offline ∅ 25544
                           Demo.empty_world))).
  { vm_compute. reflexivity. }
  split; [by rewrite Hrun|].
  exact (proj2 (service_fetch_gives_up_after_every_source Demo.offline ∅ ∅ 25544
                  Demo.empty_world _ _ Hrun)).
Defined.
